(** * sci-spider: the fetch pipeline of [sci_spider-fenqu.py]

    A shallow embedding of the crawler: file-name sanitisation, the
    write-through cache, the landing-page link extractor, the per-host rate
    limiter, the two retrying downloaders and the orchestrating loop, together
    with the properties of the specification that concern them.

    Python values are embedded as follows.  A [str] is a [string], one [ascii]
    per character.  An [int] is a [Z].  A [dict] keyed by strings is a [gmap].
    Effects (network, clock, file system, standard output) are threaded through
    an explicit [world]; exceptions are an explicit [Raise] outcome.

    The libraries the crawler calls ([requests], [lxml], [urllib], [os],
    [time]) are not part of it: what they answer is read from an [env], which
    every definition takes as its first argument and every theorem
    quantifies over.

    The loading of the cache file, the metadata lookup ([title_doi_journal],
    [fetch_impact_factor] and [get_dois_and_impact_factors] of [jcr_list.py],
    [get_dois_from_crossref]), the entry point [sci_spider], the script and
    [count_pdfs] of [sum_paper.py] follow in the part on the rest of the
    program, on a layer of their own above the pipeline.  The request of the
    lookup goes over the same network as those of the pipeline; what
    [response.json()] builds and what the impact-factor library ([Factor])
    answers is read from a [meta_env]. *)

From Stdlib Require Import ZArith Ascii String List Bool Lia Sorted.
From Stdlib Require Import DecimalString.
From stdpp Require Import base option list gmap strings.

Local Open Scope string_scope.
Local Open Scope Z_scope.

(* ===================================================================== *)
(** ** Python strings                                                      *)
(* ===================================================================== *)

Module PyStr.

Definition code (c : ascii) : nat := nat_of_ascii c.

Definition between (lo hi : nat) (c : ascii) : bool :=
  (Nat.leb lo (code c)) && (Nat.leb (code c) hi).

Definition is_digit (c : ascii) : bool := between 48 57 c.
Definition is_upper (c : ascii) : bool := between 65 90 c.
Definition is_lower (c : ascii) : bool := between 97 122 c.

Definition ascii_eqb (a b : ascii) : bool := Ascii.eqb a b.

(** [len(s)] *)
Definition len (s : string) : Z := Z.of_nat (String.length s).

Fixpoint take (n : nat) (s : string) : string :=
  match n, s with
  | O, _ => EmptyString
  | S _, EmptyString => EmptyString
  | S k, String c r => String c (take k r)
  end.

(** [s[:n]]: a negative bound counts from the end of the string. *)
Definition slice_to (n : Z) (s : string) : string :=
  if 0 <=? n then take (Z.to_nat n) s
  else take (Z.to_nat (len s + n)) s.

Fixpoint map (f : ascii -> ascii) (s : string) : string :=
  match s with
  | EmptyString => EmptyString
  | String c r => String (f c) (map f r)
  end.

Fixpoint all (p : ascii -> bool) (s : string) : bool :=
  match s with
  | EmptyString => true
  | String c r => p c && all p r
  end.

(** [s.startswith(c)] and [s.endswith(c)] for a one-character [c]. *)
Definition starts_with_char (c : ascii) (s : string) : bool :=
  match s with
  | String d _ => ascii_eqb c d
  | EmptyString => false
  end.

Fixpoint ends_with_char (c : ascii) (s : string) : bool :=
  match s with
  | EmptyString => false
  | String d EmptyString => ascii_eqb c d
  | String _ r => ends_with_char c r
  end.

(** [s.replace(c, '')] for a one-character [c]. *)
Fixpoint remove_char (c : ascii) (s : string) : string :=
  match s with
  | EmptyString => EmptyString
  | String d r => if ascii_eqb c d then remove_char c r
                  else String d (remove_char c r)
  end.

(** A string is truthy when it is not empty. *)
Definition truthy (s : string) : bool :=
  match s with EmptyString => false | _ => true end.

End PyStr.

(* ===================================================================== *)
(** ** File names: [get_valid_filename]                                    *)
(* ===================================================================== *)

(** The character class [[0-9A-Za-z\-,._;]] of the substitution pattern. *)
Definition allowed_char (c : ascii) : bool :=
  PyStr.is_digit c || PyStr.is_upper c || PyStr.is_lower c
  || PyStr.ascii_eqb c "-"%char || PyStr.ascii_eqb c ","%char
  || PyStr.ascii_eqb c "."%char || PyStr.ascii_eqb c "_"%char
  || PyStr.ascii_eqb c ";"%char.

(** One step of [re.sub(r'[^0-9A-Za-z\-,._;]', '_', ...)]: the pattern matches
    exactly one character, so the substitution acts character by character. *)
Definition sub_char (c : ascii) : ascii :=
  if allowed_char c then c else "_"%char.

(** [re.sub(r'[^0-9A-Za-z\-,._;]', '_', filename)[:name_len]] *)
Definition get_valid_filename (filename : string) (name_len : Z) : string :=
  PyStr.slice_to name_len (PyStr.map sub_char filename).

(** The default value of [name_len]. *)
Definition default_name_len : Z := 128.

(* ===================================================================== *)
(** ** Dynamic values, exceptions, the world                               *)
(* ===================================================================== *)

(** The scalar values found in one row [[doi, factor, jcr]] of the identifier
    list.  A number is carried by its printed form, which is all that
    formatting can observe of it. *)
Inductive atom : Type :=
| ANone
| AStr (s : string)
| ANum (repr : string).

(** A row of the identifier list: a Python list of scalars. *)
Definition entry : Type := list atom.

(** What [download_pdf] may receive as its [doi] argument: a scalar, or a
    whole row. *)
Inductive pyval : Type :=
| Atom (a : atom)
| Row (r : entry).

(** The exceptions of the model.  All of them derive from [Exception]; only
    [RequestException] is a [requests.exceptions.RequestException]. *)
Inductive exn : Type :=
| RequestException
| TypeError
| IndexError
| OSError
| ParserError
| RecursionError
| ValueError.

Definition is_RequestException (e : exn) : bool :=
  match e with RequestException => true | _ => false end.

(** [except Exception] *)
Definition is_Exception (e : exn) : bool := true.

Inductive outcome (A : Type) : Type :=
| Ok (a : A)
| Raise (e : exn).
Arguments Ok {A} a.
Arguments Raise {A} e.

(** [f"{x}"] on a scalar. *)
Definition format_atom (a : atom) : string :=
  match a with
  | ANone => "None"
  | AStr s => s
  | ANum repr => repr
  end.

(** A value used where [re.sub] or [os.path.join] needs a [str]. *)
Definition as_str (v : pyval) : outcome string :=
  match v with
  | Atom (AStr s) => Ok s
  | _ => Raise TypeError
  end.

(** [l[i]] for a constant, non-negative [i]. *)
Definition py_index {A : Type} (l : list A) (i : nat) : outcome A :=
  match l !! i with
  | Some x => Ok x
  | None => Raise IndexError
  end.

(** *** HTML documents, as lxml presents them *)

#[local] Unset Elimination Schemes.
Inductive node : Type :=
| Elem (tag : string) (attrs : list (string * string)) (children : list node)
| Text (s : string).
#[local] Set Elimination Schemes.

(** *** Network, files, messages *)

Record request : Type := {
  req_url : string;
  req_headers : list (string * string);
  req_proxies : option (list (string * string))
}.

Inductive reply : Type :=
| Response (status_code : Z) (body : string)
| TransportError.

Inductive file : Type :=
| JsonFile (m : gmap string string)
| BinFile (content : string).

(** One constructor per [print] of the source. *)
Inductive msg : Type :=
| MsgCacheWriteError (e : exn)
| MsgNotIndexed
| MsgParseError (e : exn)
| MsgRobotsError (e : exn)
| MsgDownloadingPage (url : string)
| MsgPageFailed (status : Z)
| MsgPageError (e : exn)
| MsgDownloadingFile (url : string)
| MsgFileFailed (status : Z)
| MsgFileSaved (path : string)
| MsgFileError (e : exn)
| MsgStart
| MsgCached (value : string)
| MsgBlocked (url : string)
| MsgDone (total : Z) (succ : Z).

(** The robots policy once read: [can_fetch(useragent, url)]. *)
Definition policy : Type := string -> string -> bool.

(** Everything outside the program.
    - [net n r]: what the [n]-th GET of the run (counted from 0) meets when it
      is the request [r];
    - [writable p]: whether [open(p, 'w')] or [open(p, 'wb')] succeeds;
    - [mkdir_ok p]: whether [os.makedirs(p, exist_ok=True)] succeeds;
    - [fromstring_str s]: the tree lxml builds from [s], or the exception it
      raises;
    - [robots u]: the policy [RobotFileParser.read] obtains from [u], or
      [None] when it raises;
    - [url_scheme], [url_netloc]: the two fields of [urlparse] that are read;
    - [url_valid u]: whether [urlparse] accepts the address [u] that a page
      gave; on the others it raises a [ValueError].  The landing addresses,
      which the program builds from its own options, are parsed as they
      are. *)
Record env : Type := {
  net : nat -> request -> reply;
  writable : string -> bool;
  mkdir_ok : string -> bool;
  fromstring_str : string -> outcome node;
  robots : string -> option policy;
  url_scheme : string -> string;
  url_netloc : string -> string;
  url_valid : string -> bool
}.

(** The observable state: the clock, the requests sent so far (oldest first),
    the sleeps taken, the robots files read, the files and directories
    written, and standard output. *)
Record world : Type := {
  now : Z;
  sent : list request;
  slept : list Z;
  robots_read : list string;
  disk : gmap string file;
  dirs : list string;
  out : list msg
}.

Definition set_now (t : Z) (w : world) : world :=
  {| now := t; sent := sent w; slept := slept w; robots_read := robots_read w;
     disk := disk w; dirs := dirs w; out := out w |}.
Definition add_sent (r : request) (w : world) : world :=
  {| now := now w; sent := sent w ++ [r]; slept := slept w;
     robots_read := robots_read w; disk := disk w; dirs := dirs w;
     out := out w |}.
Definition add_slept (d : Z) (w : world) : world :=
  {| now := now w; sent := sent w; slept := slept w ++ [d];
     robots_read := robots_read w; disk := disk w; dirs := dirs w;
     out := out w |}.
Definition add_robots_read (u : string) (w : world) : world :=
  {| now := now w; sent := sent w; slept := slept w;
     robots_read := robots_read w ++ [u]; disk := disk w; dirs := dirs w;
     out := out w |}.
Definition set_disk (d : gmap string file) (w : world) : world :=
  {| now := now w; sent := sent w; slept := slept w;
     robots_read := robots_read w; disk := d; dirs := dirs w; out := out w |}.
Definition add_dir (p : string) (w : world) : world :=
  {| now := now w; sent := sent w; slept := slept w;
     robots_read := robots_read w; disk := disk w; dirs := dirs w ++ [p];
     out := out w |}.
Definition add_out (m : msg) (w : world) : world :=
  {| now := now w; sent := sent w; slept := slept w;
     robots_read := robots_read w; disk := disk w; dirs := dirs w;
     out := out w ++ [m] |}.

(** *** The monad of effectful code *)

Definition M (A : Type) : Type := world -> outcome A * world.

Definition ret {A : Type} (a : A) : M A := fun w => (Ok a, w).

Definition raise {A : Type} (e : exn) : M A := fun w => (Raise e, w).

Definition bind {A B : Type} (m : M A) (k : A -> M B) : M B :=
  fun w =>
    match m w with
    | (Ok a, w') => k a w'
    | (Raise e, w') => (Raise e, w')
    end.

(** A pure computation that may raise. *)
Definition lift {A : Type} (o : outcome A) : M A := fun w => (o, w).

(** [try: body / except <catches> as e: handler e] *)
Definition try_except {A : Type} (body : M A) (catches : exn -> bool)
    (handler : exn -> M A) : M A :=
  fun w =>
    match body w with
    | (Ok a, w') => (Ok a, w')
    | (Raise e, w') => if catches e then handler e w' else (Raise e, w')
    end.

Declare Scope py_scope.
Delimit Scope py_scope with py.
Notation "x <- m ;; k" := (bind m (fun x => k))
  (at level 100, m at next level, right associativity) : py_scope.
Notation "m ;;; k" := (bind m (fun _ => k))
  (at level 100, right associativity) : py_scope.
Local Open Scope py_scope.

Definition print (m : msg) : M unit := fun w => (Ok tt, add_out m w).

(** The clock is read with [time.time()] and moved by [time.sleep(secs)],
    which lasts exactly [secs]; time passes only while the program sleeps. *)
Definition time_time : M Z := fun w => (Ok (now w), w).

Definition time_sleep (secs : Z) : M unit :=
  fun w => (Ok tt, add_slept secs (set_now (now w + secs) w)).

(* ===================================================================== *)
(** ** The cache: [class Cache]                                            *)
(* ===================================================================== *)

(** [with open(path, mode) as fp: <write content>] *)
Definition open_write (E : env) (path : string) (content : file) : M unit :=
  fun w =>
    if writable E path then (Ok tt, set_disk (<[path := content]> (disk w)) w)
    else (Raise OSError, w).

Module Cache.

(** The two attributes of a [Cache] object. *)
Record t : Type := { cache_dir : string; cache : gmap string string }.

(** [__getitem__]: [self.cache.get(url)] *)
Definition __getitem__ (self : t) (url : string) : option string :=
  cache self !! url.

(** [__setitem__].  The object is mutated in place by the source; the
    embedding returns it. *)
Definition __setitem__ (E : env) (self : t) (key value : string) : M t :=
  let self := {| cache_dir := cache_dir self;
                 cache := <[key := value]> (cache self) |} in
  try_except
    (open_write E (cache_dir self) (JsonFile (cache self)))
    is_Exception
    (fun e => print (MsgCacheWriteError e)) ;;;
  ret self.

End Cache.

(* ===================================================================== *)
(** ** The link extractor: [get_link_xpath]                                *)
(* ===================================================================== *)

Module Html.

(** [element.get(name)] *)
Fixpoint lookup_attr (name : string) (attrs : list (string * string))
    : option string :=
  match attrs with
  | [] => None
  | (k, v) :: rest => if String.eqb k name then Some v
                      else lookup_attr name rest
  end.

Definition get (n : node) (name : string) : option string :=
  match n with
  | Elem _ attrs _ => lookup_attr name attrs
  | Text _ => None
  end.

(** One location step: [tag], [tag[@id="v"]] or [text()]. *)
Inductive step : Type :=
| Tag (tag : string)
| TagId (tag : string) (id : string)
| TextNode.

Definition step_ok (s : step) (n : node) : bool :=
  match s, n with
  | Tag t, Elem tag _ _ => String.eqb tag t
  | TagId t v, Elem tag attrs _ =>
      String.eqb tag t &&
      match lookup_attr "id" attrs with
      | Some v' => String.eqb v' v
      | None => false
      end
  | TextNode, Text _ => true
  | _, _ => false
  end.

(** Whether [n], whose ancestors are [anc] (the parent first), ends a chain
    of children that matches the steps [rsteps] (the last step first). *)
Fixpoint chain_ok (rsteps : list step) (n : node) (anc : list node) : bool :=
  match rsteps with
  | [] => true
  | [s] => step_ok s n
  | s :: rest =>
      step_ok s n &&
      match anc with
      | parent :: anc' => chain_ok rest parent anc'
      | [] => false
      end
  end.

(** The nodes selected by [//s1/s2/.../sk] below [n], in document order. *)
Fixpoint select (rsteps : list step) (anc : list node) (n : node)
    : list node :=
  (if chain_ok rsteps n anc then [n] else []) ++
  match n with
  | Elem _ _ children => flat_map (select rsteps (n :: anc)) children
  | Text _ => []
  end.

(** [tree.xpath('//s1/.../sk')] *)
Definition xpath (tree : node) (steps : list step) : list node :=
  select (rev steps) [] tree.

(** The strings of a [text()] selection. *)
Definition strings (l : list node) : list string :=
  flat_map (fun n => match n with Text s => [s] | Elem _ _ _ => [] end) l.

End Html.

Module Re.

(** [\s] on a [str] pattern. *)
Definition is_space (c : ascii) : bool :=
  PyStr.between 9 13 c || PyStr.between 28 32 c
  || Nat.eqb (PyStr.code c) 133 || Nat.eqb (PyStr.code c) 160.

Definition is_newline (c : ascii) : bool := Nat.eqb (PyStr.code c) 10.

(** Removes the literal [p] from the front of [s]. *)
Fixpoint literal (p s : string) : option string :=
  match p, s with
  | EmptyString, _ => Some s
  | String a p', String b s' =>
      if PyStr.ascii_eqb a b then literal p' s' else None
  | String _ _, EmptyString => None
  end.

(** [.]: any one character but a newline. *)
Definition any_char (s : string) : option string :=
  match s with
  | String c r => if is_newline c then None else Some r
  | EmptyString => None
  end.

(** [\s*], greedy.  What follows it in the pattern is never a space, so no
    shorter run can succeed where the longest fails. *)
Fixpoint spaces (s : string) : string :=
  match s with
  | String c r => if is_space c then spaces r else s
  | EmptyString => s
  end.

(** [(.*?)']: the shortest run of non-newline characters that a quote
    follows. *)
Fixpoint lazy_until_quote (s : string) : option string :=
  match s with
  | EmptyString => None
  | String c r =>
      if PyStr.ascii_eqb c "'"%char then Some EmptyString
      else if is_newline c then None
      else match lazy_until_quote r with
           | Some g => Some (String c g)
           | None => None
           end
  end.

(** The pattern [location.href\s*=\s*'(.*?)'] anchored at the front of [s];
    the result is group 1. *)
Definition match_here (s : string) : option string :=
  match literal "location" s with
  | None => None
  | Some s1 =>
    match any_char s1 with
    | None => None
    | Some s2 =>
      match literal "href" s2 with
      | None => None
      | Some s3 =>
        match literal "=" (spaces s3) with
        | None => None
        | Some s4 =>
          match literal "'" (spaces s4) with
          | None => None
          | Some s5 => lazy_until_quote s5
          end
        end
      end
    end
  end.

(** Group 1 of the leftmost match in [s], if any. *)
Fixpoint search (s : string) : option string :=
  match match_here s with
  | Some g => Some g
  | None => match s with
            | String _ r => search r
            | EmptyString => None
            end
  end.

(** [re.findall(r"location.href\s*=\s*'(.*?)'", x)[0]]: a [TypeError] when
    [x] is [None], an [IndexError] when nothing matches. *)
Definition findall_first (x : option string) : outcome string :=
  match x with
  | None => Raise TypeError
  | Some s => match search s with
              | Some g => Ok g
              | None => Raise IndexError
              end
  end.

End Re.

(** The dictionary [{'title': ..., 'onclick': ...}]. *)
Record link : Type := { title : string; onclick : string }.

(** [fromstring(html)]: [html] is [None] when the page fetch failed, and lxml
    then raises a [TypeError]. *)
Definition fromstring (E : env) (html : option string) : outcome node :=
  match html with
  | None => Raise TypeError
  | Some s => fromstring_str E s
  end.

Definition truthy_opt (o : option string) : bool :=
  match o with Some s => PyStr.truthy s | None => false end.

(** The loop [for a_unit in a: onclick = a_unit.get('onclick'); if onclick:
    break]; [onclick] is the value the variable holds so far. *)
Fixpoint scan_onclick (a : list node) (onclick : option string)
    : option string :=
  match a with
  | [] => onclick
  | a_unit :: rest =>
      let onclick := Html.get a_unit "onclick" in
      if truthy_opt onclick then onclick else scan_onclick rest onclick
  end.

Definition buttons_path : list Html.step :=
  [Html.TagId "div" "buttons"; Html.Tag "button"].
Definition anchors_path : list Html.step :=
  [Html.TagId "div" "buttons"; Html.Tag "ul"; Html.Tag "li"; Html.Tag "a"].
Definition citation_i_path : list Html.step :=
  [Html.TagId "div" "citation"; Html.Tag "i"; Html.TextNode].
Definition citation_path : list Html.step :=
  [Html.TagId "div" "citation"; Html.TextNode].

Definition get_link_xpath (E : env) (html : option string) : M (option link) :=
  try_except
    (tree <- lift (fromstring E html) ;;
     let a := Html.xpath tree buttons_path in
     let a := if Nat.eqb (length a) 0 then Html.xpath tree anchors_path
              else a in
     if Nat.eqb (length a) 0 then
       print MsgNotIndexed ;;; ret None
     else
       let onclick := scan_onclick a None in
       onclick <- lift (Re.findall_first onclick) ;;
       let title := Html.strings (Html.xpath tree citation_i_path) in
       let title := if Nat.eqb (length title) 0
                    then Html.strings (Html.xpath tree citation_path)
                    else title in
       title0 <- lift (py_index title 0) ;;
       ret (Some {| title := title0; onclick := onclick |}))
    is_Exception
    (fun e => print (MsgParseError e) ;;; ret None).

(** The part of [get_link_xpath] that follows a successful parse and a
    non-empty selection. *)
Definition extracted (tree : node) (a : list node) : outcome link :=
  match Re.findall_first (scan_onclick a None) with
  | Raise e => Raise e
  | Ok href =>
      let t := Html.strings (Html.xpath tree citation_i_path) in
      let t := if Nat.eqb (length t) 0
               then Html.strings (Html.xpath tree citation_path) else t in
      match py_index t 0 with
      | Raise e => Raise e
      | Ok title0 => Ok {| title := title0; onclick := href |}
      end
  end.

(** The elements [get_link_xpath] works on: the buttons, or else the
    anchors. *)
Definition controls (tree : node) : list node :=
  match Html.xpath tree buttons_path with
  | [] => Html.xpath tree anchors_path
  | a => a
  end.

(* ===================================================================== *)
(** ** Downloading                                                         *)
(* ===================================================================== *)

(** [doi_parser]: [f"{protocol}://{start_url}/{doi}"] *)
Definition doi_parser (doi : atom) (start_url : string) (useSSL : bool)
    : string :=
  let protocol := if useSSL then "https" else "http" in
  protocol ++ "://" ++ start_url ++ "/" ++ format_atom doi.

(** [get_robot_parser]: the policy, or [None] when reading it raises. *)
Definition get_robot_parser (E : env) (robot_url : string)
    : M (option policy) :=
  try_except
    (fun w =>
       match robots E robot_url with
       | Some rp => (Ok (Some rp), add_robots_read robot_url w)
       | None => (Raise OSError, add_robots_read robot_url w)
       end)
    is_Exception
    (fun e => print (MsgRobotsError e) ;;; ret None).

(** [wait].  [domains] is [None] when the caller passes no dictionary.  The
    dictionary is mutated in place by the source; the embedding returns it. *)
Definition wait (E : env) (url : string) (delay : Z)
    (domains : option (gmap string Z)) : M (gmap string Z) :=
  let domains := match domains with None => ∅ | Some d => d end in
  let domain := url_netloc E url in
  let last_accessed := domains !! domain in
  (match last_accessed with
   | Some t =>
       if 0 <? delay then
         t_now <- time_time ;;
         let sleep_secs := delay - (t_now - t) in
         if 0 <? sleep_secs then time_sleep sleep_secs else ret tt
       else ret tt
   | None => ret tt
   end) ;;;
  t_now <- time_time ;;
  ret (<[domain := t_now]> domains).

(** [requests.get(url, headers=headers, proxies=proxies, verify=False)]: the
    status code and the body, or a [RequestException]. *)
Definition requests_get (E : env) (url : string)
    (headers : list (string * string))
    (proxies : option (list (string * string))) : M (Z * string) :=
  fun w =>
    let r := {| req_url := url; req_headers := headers;
                req_proxies := proxies |} in
    match net E (length (sent w)) r with
    | Response status body => (Ok (status, body), add_sent r w)
    | TransportError => (Raise RequestException, add_sent r w)
    end.

(** An [int] in a condition. *)
Definition truthy_int (n : Z) : bool := negb (n =? 0).

(** [num_retries and 500 <= status < 600] *)
Definition should_retry (num_retries status : Z) : bool :=
  truthy_int num_retries && ((500 <=? status) && (status <? 600)).

(** [download].  [depth] is the number of nested calls the interpreter still
    allows; a call beyond it raises [RecursionError]. *)
Fixpoint download (E : env) (depth : nat) (url : string)
    (headers : list (string * string))
    (proxies : option (list (string * string))) (num_retries : Z)
    : M (option string) :=
  match depth with
  | O => raise RecursionError
  | S depth' =>
    print (MsgDownloadingPage url) ;;;
    try_except
      (response <- requests_get E url headers proxies ;;
       let '(status, text) := response in
       if status >=? 400 then
         if should_retry num_retries status then
           download E depth' url headers proxies (num_retries - 1)
         else
           print (MsgPageFailed status) ;;; ret None
       else ret (Some text))
      is_RequestException
      (fun e => print (MsgPageError e) ;;; ret None)
  end.

(** [os.path.join(a, b)] on a POSIX system. *)
Definition os_path_join (a b : string) : string :=
  if PyStr.starts_with_char "/"%char b || negb (PyStr.truthy a) then b
  else if PyStr.ends_with_char "/"%char a then a ++ b
  else a ++ "/" ++ b.

(** The normalisation of the extracted address at the head of
    [download_pdf]. *)
Definition pdf_url (E : env) (result : link) : string :=
  let url := onclick result in
  let url := if negb (PyStr.truthy (url_scheme E url)) then "https:" ++ url
             else url in
  PyStr.remove_char "\"%char url.

(** [result['title'] if len(result['title']) >= 5 else doi] *)
Definition name_source (result : link) (doi : pyval) : pyval :=
  if PyStr.len (title result) >=? 5 then Atom (AStr (title result)) else doi.

(** The success branch of [download_pdf]: the lines that name and write the
    file. *)
Definition save_pdf (E : env) (result : link) (dir : string) (doi : pyval)
    (content : string) : M bool :=
  name <- lift (as_str (name_source result doi)) ;;
  let filename := get_valid_filename name default_name_len ++ ".pdf" in
  let path := os_path_join dir filename in
  open_write E path (BinFile content) ;;;
  print (MsgFileSaved path) ;;;
  ret true.

(** Where [save_pdf] writes for a given name, and the world once it has
    written there. *)
Definition pdf_path (dir name : string) : string :=
  os_path_join dir (get_valid_filename name default_name_len ++ ".pdf").

Definition saved_at (path content : string) (w : world) : world :=
  add_out (MsgFileSaved path)
    (set_disk (<[path := BinFile content]> (disk w)) w).

(** [urlparse(url)] on the address of a page: it raises a [ValueError] on an
    address it does not accept, and its fields are read from [env]
    otherwise. *)
Definition urlparse (E : env) (url : string) : M unit :=
  fun w => if url_valid E url then (Ok tt, w) else (Raise ValueError, w).

(** [download_pdf].  [depth] as for [download].  The address is parsed
    outside the [try]; [pdf_url] is what the first three lines make of it
    once [urlparse] has returned. *)
Fixpoint download_pdf (E : env) (depth : nat) (result : link)
    (headers : list (string * string)) (dir : string)
    (proxies : option (list (string * string))) (num_retries : Z)
    (doi : pyval) : M bool :=
  match depth with
  | O => raise RecursionError
  | S depth' =>
    urlparse E (onclick result) ;;;
    let url := pdf_url E result in
    print (MsgDownloadingFile url) ;;;
    try_except
      (response <- requests_get E url headers proxies ;;
       let '(status, content) := response in
       if status >=? 400 then
         if should_retry num_retries status then
           download_pdf E depth' result headers dir proxies (num_retries - 1)
             doi
         else
           print (MsgFileFailed status) ;;; ret false
       else save_pdf E result dir doi content)
      is_RequestException
      (fun e => print (MsgFileError e) ;;; ret false)
  end.

(** *** The retry discipline

    Both downloaders follow one discipline.  [run depth n] is a
    downloader with [depth] nested calls left and the budget [n]; [r] is the
    request it sends, [announce] what it prints first. *)

Definition is_5xx (status : Z) : bool := (500 <=? status) && (status <? 600).

(** One call sends one request and then: a status below 400 hands the body to
    [success]; a status from 500 to 599 with a budget left calls again with
    the budget decreased; any other status, and a transport failure, ends the
    call with [failure] and a printed notice. *)
Definition retries_on_5xx_only {A : Type} (E : env) (r : request)
    (announce : msg) (run : nat -> Z -> M A) (success : string -> M A)
    (failure : A) (failed : Z -> msg) (errored : msg) : Prop :=
  forall (depth : nat) (n : Z) (w : world),
    let w1 := add_sent r (add_out announce w) in
    run (S depth) n w =
    match net E (length (sent w)) r with
    | Response status body =>
        if status <? 400 then success body w1
        else if is_5xx status && negb (n =? 0) then run depth (n - 1) w1
        else (Ok failure, add_out (failed status) w1)
    | TransportError => (Ok failure, add_out errored w1)
    end.

(** Every request from the [k]-th on is answered with a status from 500 to
    599. *)
Definition persistent_5xx (E : env) (r : request) (k : nat) : Prop :=
  forall i : nat, (k <= i)%nat ->
    exists (status : Z) (body : string),
      net E i r = Response status body /\ is_5xx status = true.

(** With a budget [n >= 0] and room for [n + 1] nested calls, a run sends
    between one and [n + 1] requests, all of them [r]; against a server that
    keeps answering 5xx it sends exactly [n + 1] and returns [failure]. *)
Definition bounded_by_budget {A : Type} (E : env) (r : request)
    (run : nat -> Z -> M A) (failure : A) : Prop :=
  forall (depth : nat) (n : Z) (w : world),
    0 <= n -> (Z.to_nat n < depth)%nat ->
    (exists k : nat,
        sent (snd (run depth n w)) = (sent w ++ repeat r k)%list
        /\ 1 <= Z.of_nat k <= n + 1)
    /\ (persistent_5xx E r (length (sent w)) ->
        exists w' : world,
          run depth n w = (Ok failure, w')
          /\ sent w' = (sent w ++ repeat r (Z.to_nat n + 1))%list).

(** The request of [download], and the request of [download_pdf]. *)
Definition page_request (url : string) (headers : list (string * string))
    (proxies : option (list (string * string))) : request :=
  {| req_url := url; req_headers := headers; req_proxies := proxies |}.

Definition pdf_request (E : env) (result : link)
    (headers : list (string * string))
    (proxies : option (list (string * string))) : request :=
  {| req_url := pdf_url E result; req_headers := headers;
     req_proxies := proxies |}.

(* ===================================================================== *)
(** ** The orchestrator: [sci_hub_crawler]                                 *)
(* ===================================================================== *)

(** The variables the loop carries from one identifier to the next. *)
Record loop_state : Type := {
  ls_cache : option Cache.t;
  ls_domains : gmap string Z;
  download_succ_cnt : Z
}.

(** The keyword arguments of [sci_hub_crawler] that stay fixed in the loop. *)
Record config : Type := {
  dir : string;
  robot_url : option string;
  user_agent : string;
  proxies : option (list (string * string));
  num_retries : Z;
  delay : Z;
  start_url : string;
  useSSL : bool;
  nolimit : bool
}.

(** The defaults of the signature, for a given target directory. *)
Definition default_config (dir : string) : config :=
  {| dir := dir; robot_url := None; user_agent := "sheng"; proxies := None;
     num_retries := 2; delay := 3; start_url := "www.sci-hub.wf";
     useSSL := true; nolimit := false |}.

(** [os.makedirs(p, exist_ok=True)] *)
Definition os_makedirs (E : env) (p : string) : M unit :=
  fun w => if mkdir_ok E p then (Ok tt, add_dir p w) else (Raise OSError, w).

(** [cache and cache[url]]: the value when both are truthy. *)
Definition cache_hit (cache : option Cache.t) (url : string) : option string :=
  match cache with
  | None => None
  | Some c => match Cache.__getitem__ c url with
              | Some v => if PyStr.truthy v then Some v else None
              | None => None
              end
  end.

(** [rp and rp.can_fetch(user_agent, url) or nolimit] *)
Definition allowed (rp : option policy) (user_agent url : string)
    (nolimit : bool) : bool :=
  match rp with
  | Some p => p user_agent url
  | None => false
  end || nolimit.

(** The body of the [if] that the policy check guards. *)
Definition fetch (E : env) (depth : nat) (cfg : config)
    (headers : list (string * string)) (url : string) (doi : entry)
    (st : loop_state) : M loop_state :=
  domains <- wait E url (delay cfg) (Some (ls_domains st)) ;;
  html <- download E depth url headers (proxies cfg) (num_retries cfg) ;;
  result <- get_link_xpath E html ;;
  let st := {| ls_cache := ls_cache st; ls_domains := domains;
               download_succ_cnt := download_succ_cnt st |} in
  match result with
  | None => ret st
  | Some result =>
    quartile <- lift (py_index doi 2) ;;
    quartile <- lift (as_str (Atom quartile)) ;;
    let target_dir := os_path_join (dir cfg) quartile in
    saved <- download_pdf E depth result headers target_dir (proxies cfg)
               (num_retries cfg) (Row doi) ;;
    if saved : bool then
      cache <- match ls_cache st with
               | Some c =>
                   c' <- Cache.__setitem__ E c url
                           ("https:" ++ onclick result) ;;
                   ret (Some c')
               | None => ret None
               end ;;
      ret {| ls_cache := cache; ls_domains := domains;
             download_succ_cnt := download_succ_cnt st + 1 |}
    else ret st
  end.

(** [download_succ_cnt += 1] *)
Definition counted (st : loop_state) : loop_state :=
  {| ls_cache := ls_cache st; ls_domains := ls_domains st;
     download_succ_cnt := download_succ_cnt st + 1 |}.

(** One turn of [for doi in doi_list]. *)
Definition crawl_step (E : env) (depth : nat) (cfg : config)
    (headers : list (string * string)) (rp : option policy) (doi : entry)
    (st : loop_state) : M loop_state :=
  doi0 <- lift (py_index doi 0) ;;
  let url := doi_parser doi0 (start_url cfg) (useSSL cfg) in
  match cache_hit (ls_cache st) url with
  | Some v =>
      print (MsgCached v) ;;;
      ret (counted st)
  | None =>
      if allowed rp (user_agent cfg) url (nolimit cfg) then
        fetch E depth cfg headers url doi st
      else
        print (MsgBlocked url) ;;; ret st
  end.

Fixpoint crawl_loop (E : env) (depth : nat) (cfg : config)
    (headers : list (string * string)) (rp : option policy)
    (doi_list : list entry) (st : loop_state) : M loop_state :=
  match doi_list with
  | [] => ret st
  | doi :: rest =>
      st' <- crawl_step E depth cfg headers rp doi st ;;
      crawl_loop E depth cfg headers rp rest st'
  end.

(** [for p in paths: os.makedirs(p, exist_ok=True)] *)
Fixpoint makedirs_all (E : env) (paths : list string) : M unit :=
  match paths with
  | [] => ret tt
  | p :: rest => os_makedirs E p ;;; makedirs_all E rest
  end.

(** [headers = {'User-Agent': user_agent}] *)
Definition crawler_headers (cfg : config) : list (string * string) :=
  [("User-Agent", user_agent cfg)].

(** [robot_url] after [if not robot_url: robot_url =
    f"{protocol}://{start_url}/robots.txt"]. *)
Definition effective_robot_url (cfg : config) : string :=
  let protocol := if useSSL cfg then "https" else "http" in
  match robot_url cfg with
  | Some u => if PyStr.truthy u then u
              else protocol ++ "://" ++ start_url cfg ++ "/robots.txt"
  | None => protocol ++ "://" ++ start_url cfg ++ "/robots.txt"
  end.

(** The four sub-directories created before the loop. *)
Definition quartile_dirs (cfg : config) : list string :=
  List.map (fun q => os_path_join (dir cfg) q) ["Q1"; "Q2"; "Q3"; "Q4"].

(** [sci_hub_crawler].  The source returns nothing; the embedding returns the
    loop variables as they stand when the report is printed. *)
Definition sci_hub_crawler (E : env) (depth : nat) (doi_list : list entry)
    (cfg : config) (cache : option Cache.t) : M loop_state :=
  let headers := crawler_headers cfg in
  let robot_url := effective_robot_url cfg in
  rp <- get_robot_parser E robot_url ;;
  let st := {| ls_cache := cache; ls_domains := ∅; download_succ_cnt := 0 |} in
  os_makedirs E (dir cfg) ;;;
  makedirs_all E (quartile_dirs cfg) ;;;
  print MsgStart ;;;
  st <- crawl_loop E depth cfg headers rp doi_list st ;;
  print (MsgDone (Z.of_nat (length doi_list)) (download_succ_cnt st)) ;;;
  print (MsgDone (Z.of_nat (length doi_list)) (download_succ_cnt st)) ;;;
  ret st.

(* ===================================================================== *)
(** ** Concrete surroundings, for running the embedding                    *)
(* ===================================================================== *)

Module Scenario.

Definition is_scheme_char (c : ascii) : bool :=
  PyStr.is_digit c || PyStr.is_upper c || PyStr.is_lower c
  || PyStr.ascii_eqb c "+"%char || PyStr.ascii_eqb c "-"%char
  || PyStr.ascii_eqb c "."%char.

(** Splits [s] at its first colon. *)
Fixpoint split_colon (s : string) : option (string * string) :=
  match s with
  | EmptyString => None
  | String c r =>
      if PyStr.ascii_eqb c ":"%char then Some (EmptyString, r)
      else match split_colon r with
           | Some (a, b) => Some (String c a, b)
           | None => None
           end
  end.

(** The scheme and what follows it, the way [urlparse] splits them. *)
Definition split_scheme (url : string) : string * string :=
  match split_colon url with
  | Some (String c a, rest) =>
      if (PyStr.is_upper c || PyStr.is_lower c)
         && PyStr.all is_scheme_char a
      then (String c a, rest) else (EmptyString, url)
  | _ => (EmptyString, url)
  end.

Definition scheme (url : string) : string := fst (split_scheme url).

Fixpoint until_delim (s : string) : string :=
  match s with
  | EmptyString => EmptyString
  | String c r =>
      if PyStr.ascii_eqb c "/"%char || PyStr.ascii_eqb c "?"%char
         || PyStr.ascii_eqb c "#"%char
      then EmptyString else String c (until_delim r)
  end.

Definition netloc (url : string) : string :=
  match snd (split_scheme url) with
  | String a (String b r) =>
      if PyStr.ascii_eqb a "/"%char && PyStr.ascii_eqb b "/"%char
      then until_delim r else EmptyString
  | _ => EmptyString
  end.

(** Whether [urlparse] accepts the address.  An address with a plain host,
    one without a bracket and in ASCII, is accepted.  A host in brackets has
    to be an IP literal and some characters beyond ASCII are refused; the
    scenarios use neither, and such a host is refused here. *)
Definition plain_host_char (c : ascii) : bool :=
  negb (PyStr.ascii_eqb c "["%char) && negb (PyStr.ascii_eqb c "]"%char)
  && (PyStr.code c <? 128)%nat.

Definition valid (url : string) : bool := PyStr.all plain_host_char (netloc url).

(** Surroundings in which every file operation succeeds. *)
Definition make_env (net : nat -> request -> reply)
    (parse : string -> outcome node) (rp : option policy) : env :=
  {| net := net;
     writable := fun _ => true;
     mkdir_ok := fun _ => true;
     fromstring_str := parse;
     robots := fun _ => rp;
     url_scheme := scheme;
     url_netloc := netloc;
     url_valid := valid |}.

(** The same, on a disk that refuses every write. *)
Definition read_only (E : env) : env :=
  {| net := net E;
     writable := fun _ => false;
     mkdir_ok := mkdir_ok E;
     fromstring_str := fromstring_str E;
     robots := robots E;
     url_scheme := url_scheme E;
     url_netloc := url_netloc E;
     url_valid := url_valid E |}.

Definition world0 : world :=
  {| now := 0; sent := []; slept := []; robots_read := []; disk := ∅;
     dirs := []; out := [] |}.

Definition at_time (t : Z) : world := set_now t world0.

(** A server that answers every request with the same status. *)
Definition always (status : Z) (body : string) : nat -> request -> reply :=
  fun _ _ => Response status body.

(** A server that plays a script of replies, then drops every request. *)
Definition script (replies : list reply) : nat -> request -> reply :=
  fun n _ => match replies !! n with
             | Some r => r
             | None => TransportError
             end.

Definition no_parse : string -> outcome node := fun _ => Raise ParserError.

Definition offline : env := make_env (script []) no_parse None.

(** A page of the gateway for an article it does not hold. *)
Definition page_not_indexed : node :=
  Elem "html" []
    [Elem "body" []
       [Elem "div" [("id", "buttons")] [Text "article not found"]]].

Definition allow_all : policy := fun _ _ => true.
Definition deny_all : policy := fun _ _ => false.

(** The landing page of the end-to-end scenario: one button, and the title
    as the text of the citation block. *)
Definition landing_page (title : string) : node :=
  Elem "html" []
    [Elem "body" []
       [Elem "div" [("id", "buttons")]
          [Elem "button"
             [("onclick", "location.href='//mirror/file.pdf'")]
             [Text "save"]];
        Elem "div" [("id", "citation")] [Text title]]].

(** A gateway that serves that page and then the file, behind a policy
    that allows everything. *)
Definition gateway (title : string) : env :=
  make_env (script [Response 200 "<html>landing</html>";
                    Response 200 "%PDF-1.4"])
    (fun _ => Ok (landing_page title)) (Some allow_all).

(** A row as the metadata collaborator builds it, and the pair of the
    specification. *)
Definition row : entry := [AStr "10.1/abc"; ANum "1.5"; AStr "Q2"].
Definition pair : entry := [AStr "10.1/abc"; AStr "Q2"].

Definition landing_url : string := "https://www.sci-hub.wf/10.1/abc".

Definition empty_cache : Cache.t :=
  {| Cache.cache_dir := "papers/cache.txt"; Cache.cache := ∅ |}.

Definition cache_with (value : string) : Cache.t :=
  {| Cache.cache_dir := "papers/cache.txt";
     Cache.cache := {[ landing_url := value ]} |}.

Definition start (cache : option Cache.t) : loop_state :=
  {| ls_cache := cache; ls_domains := ∅; download_succ_cnt := 0 |}.

End Scenario.

(* ===================================================================== *)
(** ** The rest of the program                                             *)
(* ===================================================================== *)

(** The functions below raise, catch and print more than the pipeline does.
    Their exceptions extend [exn]; what they print is kept in a log of its
    own, each note with the number of pipeline messages printed before it,
    so that the order of the whole output is determined. *)
Inductive xexn : Type :=
| Inner (e : exn)
| KeyError
| AttributeError
| HTTPError.

Inductive xoutcome (A : Type) : Type :=
| XOk (a : A)
| XRaise (e : xexn).
Arguments XOk {A} a.
Arguments XRaise {A} e.

(** *** JSON values

    What [response.json()] builds from the body of an answer. *)

(** A number of a JSON text: an [int], a finite [float] with the value
    [m * 2 ^ e], or one of [NaN], [Infinity] and [-Infinity]. *)
Inductive number : Type :=
| Int (z : Z)
| Float (m e : Z)
| NotFinite (printed : string).

(** What [response.json()] builds.  The members of an object are in the
    order of the dictionary, each key once. *)
#[local] Unset Elimination Schemes.
Inductive json : Type :=
| JNull
| JBool (b : bool)
| JNum (n : number)
| JStr (s : string)
| JArr (items : list json)
| JObj (members : list (string * json)).
#[local] Set Elimination Schemes.

(** A value in a condition. *)
Definition json_truthy (j : json) : bool :=
  match j with
  | JNull => false
  | JBool b => b
  | JNum (Int z) => negb (z =? 0)
  | JNum (Float m _) => negb (m =? 0)
  | JNum (NotFinite _) => true
  | JStr s => PyStr.truthy s
  | JArr [] => false
  | JArr (_ :: _) => true
  | JObj [] => false
  | JObj (_ :: _) => true
  end.

(** The member [key] of a dictionary. *)
Fixpoint member (key : string) (members : list (string * json))
    : option json :=
  match members with
  | [] => None
  | (k, v) :: rest => if String.eqb k key then Some v else member key rest
  end.

(** [data[key]] *)
Definition subscript (data : json) (key : string) : xoutcome json :=
  match data with
  | JObj members =>
      match member key members with
      | Some v => XOk v
      | None => XRaise KeyError
      end
  | _ => XRaise (Inner TypeError)
  end.

(** [d.get(key, default)]: only a dictionary has the method. *)
Definition json_get (d : json) (key : string) (default : json)
    : xoutcome json :=
  match d with
  | JObj members =>
      match member key members with
      | Some v => XOk v
      | None => XOk default
      end
  | _ => XRaise AttributeError
  end.

(** [for x in j]: the elements of a list, the characters of a string, the
    keys of a dictionary; nothing else can be iterated. *)
Definition iterate (j : json) : xoutcome (list json) :=
  match j with
  | JArr items => XOk items
  | JStr s =>
      XOk (List.map (fun c => JStr (String c EmptyString))
             (list_ascii_of_string s))
  | JObj members => XOk (List.map (fun kv => JStr (fst kv)) members)
  | _ => XRaise (Inner TypeError)
  end.

(** [j[0]]: the first element of a list, the first character of a string; a
    dictionary has no key [0], its keys being strings. *)
Definition index0 (j : json) : xoutcome json :=
  match j with
  | JArr (x :: _) => XOk x
  | JArr [] => XRaise (Inner IndexError)
  | JStr (String c _) => XOk (JStr (String c EmptyString))
  | JStr EmptyString => XRaise (Inner IndexError)
  | JObj _ => XRaise KeyError
  | _ => XRaise (Inner TypeError)
  end.

(** [f"{n}"] on an [int]. *)
Definition format_int (n : Z) : string := NilZero.string_of_int (Z.to_int n).

(** One dictionary [{'doi': ..., 'journal': ..., 'issn': ...}] of the list
    that [jcr_list.title_doi_journal] returns. *)
Record info : Type := {
  info_doi : json;
  info_journal : json;
  info_issn : json
}.

(** One constructor per [print] of the functions of this part. *)
Inductive note : Type :=
| NoteCacheReadError (e : xexn)
| NoteCollecting
| NoteEmptyList
| NoteFound (n : Z)
| NoteDownloading
| NoteFinished
| NoteRunError (e : xexn)
| NoteCrossrefError (e : xexn)
| NoteInfo (doi_info : option (list info))
| NoteNothingFound
| NoteProgramError (e : xexn)
| NoteElapsed (seconds : Z)
| NoteLookupDone
| NoteLookupStatus (status : Z)
| NoteLookupError (e : xexn)
| NoteFactorError (e : xexn).

Record xworld : Type := {
  core : world;
  notes : list (nat * note)
}.

Definition X (A : Type) : Type := xworld -> xoutcome A * xworld.

Definition xret {A : Type} (a : A) : X A := fun v => (XOk a, v).

Definition xraise {A : Type} (e : xexn) : X A := fun v => (XRaise e, v).

Definition xlift {A : Type} (o : xoutcome A) : X A := fun v => (o, v).

Definition xbind {A B : Type} (m : X A) (k : A -> X B) : X B :=
  fun v =>
    match m v with
    | (XOk a, v') => k a v'
    | (XRaise e, v') => (XRaise e, v')
    end.

(** [try: body / except Exception as e: handler e] *)
Definition xtry {A : Type} (body : X A) (handler : xexn -> X A) : X A :=
  fun v =>
    match body v with
    | (XOk a, v') => (XOk a, v')
    | (XRaise e, v') => handler e v'
    end.

(** A computation of the pipeline, run inside this part. *)
Definition from_core {A : Type} (m : M A) : X A :=
  fun v =>
    match m (core v) with
    | (Ok a, w') => (XOk a, {| core := w'; notes := notes v |})
    | (Raise e, w') => (XRaise (Inner e), {| core := w'; notes := notes v |})
    end.

Definition xprint (n : note) : X unit :=
  fun v =>
    (XOk tt,
     {| core := core v;
        notes := notes v ++ [(length (out (core v)), n)] |}).

Declare Scope px_scope.
Delimit Scope px_scope with px.
Notation "x <-- m ;; k" := (xbind m (fun x => k))
  (at level 100, m at next level, right associativity) : px_scope.
Notation "m ;;;; k" := (xbind m (fun _ => k))
  (at level 100, right associativity) : px_scope.
Local Open Scope px_scope.

(** *** Loading the cache: [Cache.__init__] and [Cache.read_cache] *)

(** What reading files needs beyond [env]:
    - [readable p]: whether [open(p, 'r')] succeeds;
    - [json_loads s]: the mapping [json.load] builds from the text [s] of a
      file that this program did not write, or [None] when it raises.  Only
      texts that hold an object with string values, or no JSON at all, are
      covered. *)
Record fs_env : Type := {
  readable : string -> bool;
  json_loads : string -> option (gmap string string)
}.

(** [os.path.getsize]: [json.dump] writes two characters at least. *)
Definition file_size_nonzero (f : file) : bool :=
  match f with
  | JsonFile _ => true
  | BinFile content => PyStr.truthy content
  end.

(** [json.load(fp)]: a file written by [json.dump] gives back the mapping that
    was dumped. *)
Definition json_load (F : fs_env) (f : file) : xoutcome (gmap string string) :=
  match f with
  | JsonFile m => XOk m
  | BinFile content =>
      match json_loads F content with
      | Some m => XOk m
      | None => XRaise (Inner ValueError)
      end
  end.

Module CacheFile.

(** [read_cache], for the object whose [cache_dir] is [cache_dir]. *)
Definition read_cache (E : env) (F : fs_env) (cache_dir : string)
    : X (gmap string string) :=
  xtry
    (fun v =>
       let create :=
         (from_core (open_write E cache_dir (BinFile "")) ;;;;
          xret (∅ : gmap string string)) in
       match disk (core v) !! cache_dir with
       | Some f =>
           if file_size_nonzero f then
             if readable F cache_dir then (json_load F f, v)
             else (XRaise (Inner OSError), v)
           else create v
       | None => create v
       end)
    (fun e => xprint (NoteCacheReadError e) ;;;; xret ∅).

(** [__init__] *)
Definition __init__ (E : env) (F : fs_env) (cache_dir : string) : X Cache.t :=
  m <-- read_cache E F cache_dir ;;
  xret {| Cache.cache_dir := cache_dir; Cache.cache := m |}.

End CacheFile.

(** *** The identifier list: [jcr_list.py] *)

(** What the lookup needs beyond [env]:
    - [response_json body]: what [response.json()] returns for a body, [None]
      when it raises;
    - [factor_new issn]: the exception that [Factor()] raises in the call of
      [fetch_impact_factor] for [issn], [None] when it returns;
    - [factor_search issn]: the rows that [Factor.search] finds, each by what
      [get("factor")] and [get("jcr")] give on it, or the exception raised in
      the search or in reading its result;
    - [format_value j]: [f"{j}"] on a value that is neither [None] nor a
      string nor an [int];
    - [num_lt x y]: whether the number printed [x] is below the one printed
      [y]. *)
Record meta_env : Type := {
  response_json : string -> option json;
  factor_new : json -> option xexn;
  factor_search : json -> xoutcome (list (atom * atom));
  format_value : json -> string;
  num_lt : string -> string -> bool
}.

(** [f"{j}"] *)
Definition py_format (Mt : meta_env) (j : json) : string :=
  match j with
  | JNull => "None"
  | JStr s => s
  | JBool true => "True"
  | JBool false => "False"
  | JNum (Int z) => format_int z
  | _ => format_value Mt j
  end.

(** The identifier as it stands in a row.  The pipeline formats the first
    field of a row and does nothing else with it, so that a value which is
    neither [None] nor a string is carried by its printed form. *)
Definition atom_of_json (Mt : meta_env) (j : json) : atom :=
  match j with
  | JNull => ANone
  | JStr s => AStr s
  | _ => ANum (py_format Mt j)
  end.

Definition lookup_url (keyword : string) (rows : Z) : string :=
  "https://api.crossref.org/works?query=" ++ keyword
  ++ "&filter=has-full-text:true&rows=" ++ format_int rows
  ++ "&mailto=1786293993@qq.com".

(** What [title_doi_journal] asks: [requests.get(api_url)], recorded as a
    request without headers and proxies. *)
Definition lookup_request (keyword : string) (rows : Z) : request :=
  {| req_url := lookup_url keyword rows; req_headers := [];
     req_proxies := None |}.

(** The body of [for work in works] in [title_doi_journal]. *)
Definition info_of (work : json) : xoutcome info :=
  match json_get work "DOI" (JStr "No DOI") with
  | XRaise e => XRaise e
  | XOk doi =>
      match json_get work "container-title" (JArr [JStr "No journal"]) with
      | XRaise e => XRaise e
      | XOk titles =>
          match index0 titles with
          | XRaise e => XRaise e
          | XOk journal =>
              match json_get work "ISSN" (JArr [JStr "No ISSN"]) with
              | XRaise e => XRaise e
              | XOk issns =>
                  match index0 issns with
                  | XRaise e => XRaise e
                  | XOk issn =>
                      XOk {| info_doi := doi; info_journal := journal;
                             info_issn := issn |}
                  end
              end
          end
      end
  end.

(** The loop, [results] being the dictionaries appended so far. *)
Fixpoint infos_of (works : list json) (results : list info)
    : xoutcome (list info) :=
  match works with
  | [] => XOk results
  | work :: rest =>
      match info_of work with
      | XRaise e => XRaise e
      | XOk i => infos_of rest (results ++ [i])
      end
  end.

(** [title_doi_journal] *)
Definition title_doi_journal (E : env) (Mt : meta_env) (keyword : string)
    (rows : Z) : X (option (list info)) :=
  xtry
    (response <-- from_core
                    (requests_get E (lookup_url keyword rows) [] None) ;;
     if fst response =? 200 then
       data <-- xlift (match response_json Mt (snd response) with
                       | Some j => XOk j
                       | None => XRaise (Inner ValueError)
                       end) ;;
       message <-- xlift (subscript data "message") ;;
       works <-- xlift (json_get message "items" (JArr [])) ;;
       works <-- xlift (iterate works) ;;
       results <-- xlift (infos_of works []) ;;
       xprint NoteLookupDone ;;;;
       xret (Some results)
     else
       xprint (NoteLookupStatus (fst response)) ;;;;
       xret None)
    (fun e => xprint (NoteLookupError e) ;;;; xret None).

(** [fetch_impact_factor].  [Factor()] is called outside the [try]. *)
Definition fetch_impact_factor (Mt : meta_env) (issn : json)
    : X (option (atom * atom)) :=
  match factor_new Mt issn with
  | Some e => xraise e
  | None =>
      xtry
        (ak <-- xlift (factor_search Mt issn) ;;
         match ak with
         | [] => xraise (Inner IndexError)
         | (factor, jcr) :: _ => xret (Some (factor, jcr))
         end)
        (fun e => xprint (NoteFactorError e) ;;;; xret None)
  end.

(** The loop [for entry in doi_info: ...], [result_list] being the rows
    appended so far and [item] the [entry] of the source. *)
Fixpoint collect_rows (Mt : meta_env) (doi_info : list info)
    (result_list : list entry) : X (list entry) :=
  match doi_info with
  | [] => xret result_list
  | item :: rest =>
      let issn := info_issn item in
      let doi := info_doi item in
      impact_factors <-- fetch_impact_factor Mt issn ;;
      match impact_factors with
      | None => collect_rows Mt rest result_list
      | Some (factor, jcr) =>
          collect_rows Mt rest
            (result_list ++ [[atom_of_json Mt doi; factor; jcr]])
      end
  end.

(** [get_dois_and_impact_factors] *)
Definition get_dois_and_impact_factors (E : env) (Mt : meta_env)
    (keyword : string) (rows : Z) : X (list entry) :=
  doi_info <-- title_doi_journal E Mt keyword rows ;;
  xprint (NoteInfo doi_info) ;;;;
  match doi_info with
  | None | Some [] => xprint NoteNothingFound ;;;; xret []
  | Some l => collect_rows Mt l []
  end.

(** Concrete surroundings for the lookup. *)
Module LookupScenario.

(** An impact-factor library that finds nothing, behind an index whose
    answers hold no JSON. *)
Definition nothing : meta_env :=
  {| response_json := fun _ => None;
     factor_new := fun _ => None;
     factor_search := fun _ => XOk [];
     format_value := fun _ => "";
     num_lt := fun _ _ => false |}.

(** One work of an answer of the index. *)
Definition work (doi : string) : json :=
  JObj [("DOI", JStr doi);
        ("container-title", JArr [JStr "Journal"]);
        ("ISSN", JArr [JStr "1234-5678"])].

(** The answer that holds the given works. *)
Definition answer (works : list json) : json :=
  JObj [("status", JStr "ok"); ("message", JObj [("items", JArr works)])].

(** An index that answers with the given works, and a library that finds one
    row, with the given factor and quartile, for every ISSN. *)
Definition index (works : list json) (factor jcr : atom) : meta_env :=
  {| response_json := fun _ => Some (answer works);
     factor_new := fun _ => None;
     factor_search := fun _ => XOk [(factor, jcr)];
     format_value := fun _ => "";
     num_lt := fun _ _ => false |}.

(** A network that serves the answer of the index, then the landing page
    and the file of the gateway, behind a policy that allows everything. *)
Definition served (title : string) : env :=
  Scenario.make_env
    (Scenario.script [Response 200 "{...}";
                      Response 200 "<html>landing</html>";
                      Response 200 "%PDF-1.4"])
    (fun _ => Ok (Scenario.landing_page title)) (Some Scenario.allow_all).

End LookupScenario.

(** *** The entry point: [sci_spider] *)

(** [a < b] between two keys: a [TypeError] unless both are strings or both
    are numbers. *)
Definition key_lt (Mt : meta_env) (a b : atom) : option bool :=
  match a, b with
  | AStr x, AStr y => Some (String.ltb x y)
  | ANum x, ANum y => Some (num_lt Mt x y)
  | _, _ => None
  end.

Definition key_ltb (Mt : meta_env) (a b : atom) : bool :=
  match key_lt Mt a b with Some true => true | _ => false end.

(** The key [x[2]] of every row, computed before anything is compared. *)
Fixpoint decorate (l : list entry) : outcome (list (atom * entry)) :=
  match l with
  | [] => Ok []
  | x :: rest =>
      match py_index x 2 with
      | Raise e => Raise e
      | Ok key =>
          match decorate rest with
          | Raise e => Raise e
          | Ok d => Ok ((key, x) :: d)
          end
      end
  end.

(** Puts [x] in front of the first row whose key is not below its own. *)
Fixpoint insert_row (Mt : meta_env) (x : atom * entry)
    (l : list (atom * entry)) : list (atom * entry) :=
  match l with
  | [] => [x]
  | y :: rest =>
      if key_ltb Mt (fst y) (fst x) then y :: insert_row Mt x rest
      else x :: y :: rest
  end.

(** The stable sort of the decorated rows. *)
Fixpoint sort_rows (Mt : meta_env) (l : list (atom * entry))
    : list (atom * entry) :=
  match l with
  | [] => []
  | x :: rest => insert_row Mt x (sort_rows Mt rest)
  end.

Definition is_str (a : atom) : bool :=
  match a with AStr _ => true | _ => false end.
Definition is_num (a : atom) : bool :=
  match a with ANum _ => true | _ => false end.

(** [sorted(doi_list, key=lambda x: x[2])]: an [IndexError] when a row has no
    third field; with two rows or more, a [TypeError] unless the keys are all
    strings or all numbers; the stable sort otherwise. *)
Definition sorted_by_jcr (Mt : meta_env) (doi_list : list entry)
    : xoutcome (list entry) :=
  match decorate doi_list with
  | Raise e => XRaise (Inner e)
  | Ok d =>
      if (length d <? 2)%nat then XOk doi_list
      else if forallb (fun kx => is_str (fst kx)) d
              || forallb (fun kx => is_num (fst kx)) d
      then XOk (List.map snd (sort_rows Mt d))
      else XRaise (Inner TypeError)
  end.

(** The rows asked of the metadata lookup. *)
Definition spider_rows : Z := 100.

(** [sci_spider].  The keyword arguments are those of [sci_hub_crawler], with
    the same defaults. *)
Definition sci_spider (E : env) (Mt : meta_env) (depth : nat)
    (keyword : string) (cfg : config) (cache : option Cache.t) : X unit :=
  xprint NoteCollecting ;;;;
  doi_list <-- get_dois_and_impact_factors E Mt keyword spider_rows ;;
  doi_list_sort_jcr <-- xlift (sorted_by_jcr Mt doi_list) ;;
  match doi_list with
  | [] => xprint NoteEmptyList ;;;; xret tt
  | _ =>
      xprint (NoteFound (Z.of_nat (length doi_list))) ;;;;
      xprint NoteDownloading ;;;;
      from_core (os_makedirs E (dir cfg)) ;;;;
      xtry
        (from_core (sci_hub_crawler E depth doi_list_sort_jcr cfg cache) ;;;;
         xprint NoteFinished)
        (fun e => xprint (NoteRunError e))
  end.

(** *** The script: [if __name__ == '__main__'] *)

Module Main.

Definition keyword : string := "rainbow trout and density".

Definition save_dir : string :=
  "/home/star/3.8t_1/Workspace/wch/new/bake/zsl1/Agent/rainbow trout/"
  ++ keyword.

Definition cache_dir : string :=
  "/home/star/3.8t_1/Workspace/wch/new/bake/zsl1/Agent/rainbow trout/"
  ++ keyword ++ "/cache.txt".

(** The arguments of the call of [sci_spider]: [dir], [start_url] and
    [nolimit] are given, the others are the defaults. *)
Definition arguments : config :=
  {| dir := save_dir; robot_url := None; user_agent := "sheng";
     proxies := None; num_retries := 2; delay := 3;
     start_url := "www.sci-hub.se"; useSSL := true; nolimit := true |}.

(** The script, from [start = time.time()] to the last [print]. *)
Definition run (E : env) (F : fs_env) (Mt : meta_env) (depth : nat)
    : X unit :=
  start <-- from_core time_time ;;
  cache <-- CacheFile.__init__ E F cache_dir ;;
  xtry (sci_spider E Mt depth keyword arguments (Some cache))
       (fun e => xprint (NoteProgramError e)) ;;;;
  finish <-- from_core time_time ;;
  xprint (NoteElapsed (finish - start)).

End Main.

(** *** The list of identifiers from the index: [get_dois_from_crossref] *)

(** [[work.get("DOI") for work in works if work.get("DOI")]] on the list
    [works]. *)
Fixpoint dois_of (works : list json) : xoutcome (list json) :=
  match works with
  | [] => XOk []
  | work :: rest =>
      match json_get work "DOI" JNull with
      | XRaise e => XRaise e
      | XOk doi =>
          match dois_of rest with
          | XRaise e => XRaise e
          | XOk doi_list =>
              XOk (if json_truthy doi then doi :: doi_list else doi_list)
          end
      end
  end.

(** The same on any value that can be iterated. *)
Definition comprehension (works : json) : xoutcome (list json) :=
  match iterate works with
  | XRaise e => XRaise e
  | XOk items => dois_of items
  end.

(** [urllib.parse.quote(s)]: a letter, a digit and the characters [_.-~/]
    stay; every other character is encoded in UTF-8 and each byte becomes
    [%XX].  A character below 128 is one byte; one from 128 to 255 is the two
    bytes [0xC0 + c / 64] and [0x80 + c mod 64]. *)
Definition quote_safe (c : ascii) : bool :=
  PyStr.is_digit c || PyStr.is_upper c || PyStr.is_lower c
  || PyStr.ascii_eqb c "_"%char || PyStr.ascii_eqb c "."%char
  || PyStr.ascii_eqb c "-"%char || PyStr.ascii_eqb c "~"%char
  || PyStr.ascii_eqb c "/"%char.

Definition hex_digit (n : nat) : ascii :=
  if (n <? 10)%nat then ascii_of_nat (48 + n) else ascii_of_nat (55 + n).

(** [%XX] for the byte [b], in front of [rest]. *)
Definition percent_byte (b : nat) (rest : string) : string :=
  String "%"%char
    (String (hex_digit (b / 16)) (String (hex_digit (b mod 16)) rest)).

Definition utf8_bytes (c : ascii) : list nat :=
  let n := PyStr.code c in
  if (n <? 128)%nat then [n] else [(192 + n / 64)%nat; (128 + n mod 64)%nat].

Fixpoint quote (s : string) : string :=
  match s with
  | EmptyString => EmptyString
  | String c r =>
      if quote_safe c then String c (quote r)
      else fold_right percent_byte (quote r) (utf8_bytes c)
  end.

Definition api_url (keyword : string) (rows : Z) : string :=
  "https://api.crossref.org/works?query=" ++ quote keyword
  ++ "&filter=has-full-text:true&rows=" ++ format_int rows
  ++ "&mailto=1786293993@qq.com".

(** What the index is asked: [requests.get(api_url, timeout=30)], recorded
    as a request without headers and proxies. *)
Definition crossref_request (keyword : string) (rows : Z) : request :=
  {| req_url := api_url keyword rows; req_headers := [];
     req_proxies := None |}.

(** [response.raise_for_status()] *)
Definition raise_for_status (status : Z) : X unit :=
  if (400 <=? status) && (status <? 600) then xraise HTTPError else xret tt.

(** [get_dois_from_crossref]; [decode body] is what [response.json()]
    returns for a body, [None] when it raises. *)
Definition get_dois_from_crossref (E : env)
    (decode : string -> option json) (keyword : string) (rows : Z)
    : X (list json) :=
  xtry
    (response <-- from_core (requests_get E (api_url keyword rows) [] None) ;;
     raise_for_status (fst response) ;;;;
     data <-- xlift (match decode (snd response) with
                     | Some j => XOk j
                     | None => XRaise (Inner ValueError)
                     end) ;;
     message <-- xlift (subscript data "message") ;;
     works <-- xlift (json_get message "items" (JArr [])) ;;
     doi_list <-- xlift (comprehension works) ;;
     xret doi_list)
    (fun e => xprint (NoteCrossrefError e) ;;;; xret []).

(** *** Counting the files: [sum_paper.count_pdfs] *)

(** [str.lower] on one character.  Only the letters [A] to [Z] are mapped:
    no other character has a lower-case form that holds one of the
    characters of [.pdf], so the test below sees no difference. *)
Definition lower_char (c : ascii) : ascii :=
  if PyStr.is_upper c then ascii_of_nat (PyStr.code c + 32) else c.

Definition lower (s : string) : string := PyStr.map lower_char s.

(** [s.endswith(suffix)]: one of the tails of [s] is [suffix]. *)
Fixpoint endswith (suffix s : string) : bool :=
  String.eqb s suffix
  || match s with
     | EmptyString => false
     | String _ r => endswith suffix r
     end.

(** [file.lower().endswith('.pdf')] *)
Definition is_pdf (file : string) : bool := endswith ".pdf" (lower file).

(** [count_pdfs], [walk] being what [os.walk] yields for a directory: the
    triples [(root, dirs, files)], in its order. *)
Definition count_pdfs
    (walk : string -> list (string * list string * list string))
    (directory : string) : Z :=
  fold_left
    (fun pdf_count '(root, dirs, files) =>
       fold_left
         (fun pdf_count file =>
            if is_pdf file then pdf_count + 1 else pdf_count)
         files pdf_count)
    (walk directory) 0.

(* ===================================================================== *)
(** ** Auxiliary notions for the further properties                        *)
(* ===================================================================== *)

(** The world after a downloader has announced itself and sent its request
    [k] times in a row. *)
Fixpoint after_rounds (r : request) (announce : msg) (k : nat) (w : world)
    : world :=
  match k with
  | O => w
  | S k' => after_rounds r announce k' (add_sent r (add_out announce w))
  end.

(** The reply to the [i]-th request counted from the state [w]. *)
Definition reply_at (E : env) (r : request) (w : world) (i : nat) : reply :=
  net E (length (sent w) + i) r.

(** A reply with a status from 500 to 599. *)
Definition is_5xx_reply (rp : reply) : bool :=
  match rp with
  | Response status _ => is_5xx status
  | TransportError => false
  end.

(** An element without an [onclick] attribute, or with an empty one. *)
Definition no_onclick (n : node) : bool :=
  negb (truthy_opt (Html.get n "onclick")).

(** A character that is neither a quote nor a newline. *)
Definition plain_char (c : ascii) : bool :=
  negb (PyStr.ascii_eqb c "'"%char) && negb (Re.is_newline c).

(** [w'] can follow [w] in a run: the clock has not gone back, no file has
    left the disk, and the requests, the sleeps (all positive) and the
    output have only been added to. *)
Definition follows (w w' : world) : Prop :=
  now w <= now w'
  /\ (forall p : string, is_Some (disk w !! p) -> is_Some (disk w' !! p))
  /\ (exists l : list request, sent w' = (sent w ++ l)%list)
  /\ (exists l : list Z,
        slept w' = (slept w ++ l)%list /\ Forall (fun d => 0 < d) l)
  /\ (exists l : list msg, out w' = (out w ++ l)%list).

(** The same, with the robots files read and the directories made left as
    they were. *)
Definition follows_in_loop (w w' : world) : Prop :=
  follows w w' /\ robots_read w' = robots_read w /\ dirs w' = dirs w.

(** A computation whose final world is related to its initial one by [R],
    however it ends. *)
Definition keeps {A : Type} (R : world -> world -> Prop) (m : M A) : Prop :=
  forall w : world, R w (snd (m w)).

(** The world once the directories [made] have been created. *)
Definition add_dirs (made : list string) (w : world) : world :=
  fold_left (fun v p => add_dir p v) made w.

(** A computation that sends at most [k] requests, however it ends. *)
Definition sends_at_most {A : Type} (k : nat) (m : M A) : Prop :=
  forall w : world,
    (length (sent (snd (m w))) <= length (sent w) + k)%nat.

(** The row [doi] has an identifier whose landing address holds a non-empty
    value in the mapping [m]. *)
Definition cached_in (m : gmap string string) (cfg : config) (doi : entry)
    : Prop :=
  exists (doi0 : atom) (v : string),
    py_index doi 0 = Ok doi0
    /\ m !! doi_parser doi0 (start_url cfg) (useSSL cfg) = Some v
    /\ v <> "".

(** How the mapping of the cache may change over the rows [rows]: a key of
    the new mapping [m'] either holds what it held in [m], or it is the
    landing address of one of the rows, held nothing or the empty string in
    [m], and now holds an address that starts with [https:]; and a key that
    is not in [m'] was not in [m]. *)
Definition cache_extends (cfg : config) (rows : list entry)
    (m m' : gmap string string) : Prop :=
  forall k : string,
    match m' !! k with
    | None => m !! k = None
    | Some v' =>
        m !! k = Some v'
        \/ ((m !! k = None \/ m !! k = Some "")
            /\ (exists rest : string, v' = "https:" ++ rest)
            /\ exists (doi : entry) (doi0 : atom),
                 In doi rows /\ py_index doi 0 = Ok doi0
                 /\ k = doi_parser doi0 (start_url cfg) (useSSL cfg))
    end.

(** What [sci_hub_crawler] does before its loop: the policy is read and the
    five directories are made. *)
Definition crawler_setup (E : env) (cfg : config) : M (option policy) :=
  rp <- get_robot_parser E (effective_robot_url cfg) ;;
  os_makedirs E (dir cfg) ;;;
  makedirs_all E (quartile_dirs cfg) ;;;
  ret rp.

(** The loop variables before the first turn. *)
Definition initial_state (cache : option Cache.t) : loop_state :=
  {| ls_cache := cache; ls_domains := ∅; download_succ_cnt := 0 |}.

(** The file at [p] is the same in [w'] as in [w]. *)
Definition same_at (p : string) (w w' : world) : Prop :=
  disk w' !! p = disk w !! p.

(** The cache object [c1] at the world [w1] of a run that started with the
    object [c0] at the world [w0]: either nothing has been stored yet, or the
    cache file holds the mapping of the object. *)
Definition mirrored (c0 : Cache.t) (w0 : world) (c1 : Cache.t) (w1 : world)
    : Prop :=
  Cache.cache_dir c1 = Cache.cache_dir c0
  /\ ((Cache.cache c1 = Cache.cache c0
       /\ same_at (Cache.cache_dir c0) w0 w1)
      \/ disk w1 !! Cache.cache_dir c0 = Some (JsonFile (Cache.cache c1))).

(** The quartile of a row: its third field, when that is a string. *)
Definition quartile_of (r : entry) : option string :=
  match py_index r 2 with
  | Ok (AStr q) => Some q
  | _ => None
  end.

(** [a] may stand before [b] in a list ordered by quartile. *)
Definition by_quartile (a b : entry) : Prop :=
  match quartile_of a, quartile_of b with
  | Some x, Some y => String.leb x y = true
  | _, _ => False
  end.

(** The pair that [fetch_impact_factor] returns for an ISSN when [Factor()]
    returns: the fields of the first row found, if there is one. *)
Definition found_factor (Mt : meta_env) (issn : json) : option (atom * atom) :=
  match factor_search Mt issn with
  | XOk (found :: _) => Some found
  | _ => None
  end.

(** The row that [get_dois_and_impact_factors] builds from a dictionary, when
    the impact factor is found. *)
Definition row_of (Mt : meta_env) (item : info) : option entry :=
  match found_factor Mt (info_issn item) with
  | Some (factor, jcr) => Some [atom_of_json Mt (info_doi item); factor; jcr]
  | None => None
  end.

(** The world in which [sci_spider] starts its lookup: the first message is
    printed. *)
Definition collecting (v : xworld) : xworld := snd (xprint NoteCollecting v).

#[global] Instance atom_eq_dec : EqDecision atom.
Proof. solve_decision. Defined.

(** The decorated rows keep the rows, each with its own key. *)
Definition decorated (d : list (atom * entry)) : Prop :=
  Forall (fun kx => py_index (snd kx) 2 = Ok (fst kx)) d.

(** [x] may stand before [y] among the decorated rows. *)
Definition key_le (Mt : meta_env) (x y : atom * entry) : Prop :=
  key_ltb Mt (fst y) (fst x) = false.

(** The identifier of a work, when it has one that counts as true. *)
Definition doi_of (work : json) : option json :=
  match work with
  | JObj members =>
      match member "DOI" members with
      | Some doi => if json_truthy doi then Some doi else None
      | None => None
      end
  | _ => None
  end.

Definition is_object (j : json) : bool :=
  match j with JObj _ => true | _ => false end.

(** A cache file as this program leaves it: none, an empty one, or one
    written by [__setitem__]. *)
Definition own_cache_file (f : option file) : bool :=
  match f with
  | None => true
  | Some (JsonFile _) => true
  | Some (BinFile content) => negb (PyStr.truthy content)
  end.

(** The world after [read_cache] has printed the error [e]. *)
Definition read_failed (e : xexn) (v : xworld) : xworld :=
  {| core := core v;
     notes := notes v ++ [(length (out (core v)), NoteCacheReadError e)] |}.

(** The world after [read_cache] has made the empty file. *)
Definition created_empty (cache_dir : string) (v : xworld) : xworld :=
  {| core := set_disk (<[cache_dir := BinFile ""]> (disk (core v))) (core v);
     notes := notes v |}.

(** A reply with the status 200. *)
Definition answered (r : reply) : bool :=
  match r with
  | Response status _ => status =? 200
  | TransportError => false
  end.

(** The first element of the list that a work has under [key]; the fallback
    when it has no such member; nothing when the member is not a list with
    an element. *)
Definition first_or (members : list (string * json)) (key fallback : string)
    : option json :=
  match member key members with
  | None => Some (JStr fallback)
  | Some (JArr (x :: _)) => Some x
  | Some _ => None
  end.

(** The dictionary that stands for a work of the expected shape: an object
    whose [container-title] and [ISSN], where it has them, are lists with an
    element. *)
Definition listed_work (work : json) : option info :=
  match work with
  | JObj members =>
      match first_or members "container-title" "No journal",
            first_or members "ISSN" "No ISSN" with
      | Some journal, Some issn =>
          Some {| info_doi := default (JStr "No DOI") (member "DOI" members);
                  info_journal := journal; info_issn := issn |}
      | _, _ => None
      end
  | _ => None
  end.

(** The name under which [download_pdf] saves a file, before the directory
    is put in front. *)
Definition saved_name (name : string) : string :=
  get_valid_filename name default_name_len ++ ".pdf".

(** The file names of a walk, in its order. *)
Definition walked_files (triples : list (string * list string * list string))
    : list string :=
  concat (List.map snd triples).

(** The options of the end-to-end scenario: the defaults, with the override
    flag as given. *)
Definition scenario_config (target_dir : string) (nolimit : bool) : config :=
  {| dir := target_dir; robot_url := None; user_agent := "sheng";
     proxies := None; num_retries := 2; delay := 3;
     start_url := "www.sci-hub.wf"; useSSL := true; nolimit := nolimit |}.

(** The world at the end of the one turn of the scenario that starts in
    [w0]: the page and the file requested, the file saved at [path], and the
    cache file rewritten when it can be. *)
Definition scenario_world (E : env) (c : Cache.t) (path content : string)
    (w0 : world) : world :=
  let landing := "https://www.sci-hub.wf/10.1/abc" in
  let headers := [("User-Agent", "sheng")] in
  let file_url := "https://mirror/file.pdf" in
  let w2 := saved_at path content
              (add_sent (page_request file_url headers None)
                 (add_out (MsgDownloadingFile file_url)
                    (add_sent (page_request landing headers None)
                       (add_out (MsgDownloadingPage landing) w0)))) in
  if writable E (Cache.cache_dir c)
  then set_disk (<[Cache.cache_dir c := JsonFile {[ landing := file_url ]}]>
                   (disk w2)) w2
  else add_out (MsgCacheWriteError OSError) w2.

(** The run once the policy is known: [sci_hub_crawler] from the line after
    [rp = get_robot_parser(robot_url)]. *)
Definition crawl_with_policy (E : env) (depth : nat) (doi_list : list entry)
    (cfg : config) (cache : option Cache.t) (rp : option policy)
    : M loop_state :=
  os_makedirs E (dir cfg) ;;;
  makedirs_all E (quartile_dirs cfg) ;;;
  print MsgStart ;;;
  st <- crawl_loop E depth cfg (crawler_headers cfg) rp doi_list
          (initial_state cache) ;;
  print (MsgDone (Z.of_nat (length doi_list)) (download_succ_cnt st)) ;;;
  print (MsgDone (Z.of_nat (length doi_list)) (download_succ_cnt st)) ;;;
  ret st.

(** What a turn reports for the identifier [doi0] when no address may be
    fetched: the cached value, or that the address is blocked. *)
Definition blocked_report (cfg : config) (cache : option Cache.t)
    (doi0 : atom) : msg :=
  let url := doi_parser doi0 (start_url cfg) (useSSL cfg) in
  match cache_hit cache url with
  | Some v => MsgCached v
  | None => MsgBlocked url
  end.

(** Whether the identifier is a cache hit. *)
Definition is_hit (cfg : config) (cache : option Cache.t) (doi0 : atom)
    : bool :=
  match cache_hit cache (doi_parser doi0 (start_url cfg) (useSSL cfg)) with
  | Some _ => true
  | None => false
  end.

(* ===================================================================== *)
(** * Properties                                                           *)
(* ===================================================================== *)

(** ** The embedding at work *)

Example sanitize_title :
  get_valid_filename "Example Title" default_name_len = "Example_Title".
Proof. reflexivity. Qed.

Example sanitize_identifier :
  get_valid_filename "10.1/abc" default_name_len = "10.1_abc".
Proof. reflexivity. Qed.

Example slice_negative : PyStr.slice_to (-1) "abc" = "ab".
Proof. reflexivity. Qed.

Example href_plain :
  Re.findall_first (Some "location.href='//mirror/file.pdf'")
  = Ok "//mirror/file.pdf".
Proof. reflexivity. Qed.

Example href_spaced_and_escaped :
  Re.findall_first (Some "x;location.href = '\/\/mirror\/a.pdf?download=true'")
  = Ok "\/\/mirror\/a.pdf?download=true".
Proof. reflexivity. Qed.

Example href_absent : Re.findall_first (Some "window.open('x')") = Raise IndexError.
Proof. reflexivity. Qed.

Example href_of_none : Re.findall_first None = Raise TypeError.
Proof. reflexivity. Qed.

Example landing_page_button :
  Html.xpath (Scenario.landing_page "Example Title") buttons_path
  = [Elem "button" [("onclick", "location.href='//mirror/file.pdf'")]
       [Text "save"]].
Proof. reflexivity. Qed.

Example landing_page_title :
  Html.strings (Html.xpath (Scenario.landing_page "Example Title")
                  citation_i_path) = []
  /\ Html.strings (Html.xpath (Scenario.landing_page "Example Title")
                     citation_path) = ["Example Title"].
Proof. split; reflexivity. Qed.

Example join_plain : os_path_join "papers" "Q2" = "papers/Q2".
Proof. reflexivity. Qed.

Example join_absolute : os_path_join "papers" "/Q2" = "/Q2".
Proof. reflexivity. Qed.

Example landing_address :
  doi_parser (AStr "10.1/abc") "www.sci-hub.wf" true = Scenario.landing_url.
Proof. reflexivity. Qed.

Example urlparse_of_extracted_address :
  Scenario.scheme "//mirror/file.pdf" = ""
  /\ Scenario.netloc "https://www.sci-hub.wf/10.1/abc" = "www.sci-hub.wf".
Proof. split; reflexivity. Qed.

(** An extracted address with an open bracket in its host: [urlparse]
    refuses it, and [download_pdf] raises before anything is printed or
    sent, although a server stands ready to answer. *)
Example download_pdf_unparsed_address :
  download_pdf
    (Scenario.make_env (Scenario.always 200 "%PDF-1.4") Scenario.no_parse None)
    3 {| title := "Example Title"; onclick := "//[mirror/file.pdf" |}
    [("User-Agent", "sheng")] "papers/Q2" None 2 (Atom (AStr "10.1/abc"))
    Scenario.world0
  = (Raise ValueError, Scenario.world0).
Proof. reflexivity. Qed.

(** A second request to the same host, one time unit after the first, sleeps
    for the two that are missing. *)
Example wait_sleeps_for_the_rest :
  slept (snd (wait Scenario.offline Scenario.landing_url 3
                (Some {[ "www.sci-hub.wf" := 10 ]}) (Scenario.at_time 11)))
  = [2].
Proof. vm_compute. reflexivity. Qed.

(** On a disk that refuses the write, the store is kept in memory and the
    failure is printed. *)
Example setitem_on_read_only_disk :
  let run := Cache.__setitem__ (Scenario.read_only Scenario.offline)
               Scenario.empty_cache "k" "v" Scenario.world0 in
  (exists c, fst run = Ok c /\ Cache.__getitem__ c "k" = Some "v")
  /\ out (snd run) = [MsgCacheWriteError OSError]
  /\ disk (snd run) = ∅.
Proof.
  cbv zeta. split; [|split; vm_compute; reflexivity].
  eexists. split; [vm_compute; reflexivity|]. vm_compute. reflexivity.
Qed.

(** ** File names *)

Section Filename.

Lemma take_length (n : nat) (s : string) :
  String.length (PyStr.take n s) = Nat.min n (String.length s).
Proof.
  revert s; induction n as [|n IH]; intros [|c r]; simpl; auto.
Qed.

Lemma take_all (n : nat) (s : string) :
  (String.length s <= n)%nat -> PyStr.take n s = s.
Proof.
  revert s; induction n as [|n IH]; intros [|c r]; simpl; intros H;
    try reflexivity; try lia.
  f_equal. apply IH. lia.
Qed.

Lemma take_map (f : ascii -> ascii) (n : nat) (s : string) :
  PyStr.take n (PyStr.map f s) = PyStr.map f (PyStr.take n s).
Proof.
  revert s; induction n as [|n IH]; intros [|c r]; simpl; auto.
  now rewrite IH.
Qed.

Lemma take_get (n i : nat) (s : string) :
  (i < n)%nat -> String.get i (PyStr.take n s) = String.get i s.
Proof.
  revert i s; induction n as [|n IH]; intros i [|c r] H; simpl; auto; try lia.
  destruct i as [|i]; auto. apply IH. lia.
Qed.

Lemma get_lt (i : nat) (s : string) (c : ascii) :
  String.get i s = Some c -> (i < String.length s)%nat.
Proof.
  revert i; induction s as [|d r IH]; intros [|i] H; simpl in *;
    try discriminate; try lia.
  apply IH in H. lia.
Qed.

Lemma get_ge (i : nat) (s : string) :
  (String.length s <= i)%nat -> String.get i s = None.
Proof.
  revert i; induction s as [|d r IH]; intros [|i] H; simpl in *;
    try reflexivity; try lia.
  apply IH. lia.
Qed.

Lemma map_get (f : ascii -> ascii) (i : nat) (s : string) :
  String.get i (PyStr.map f s) = option_map f (String.get i s).
Proof.
  revert i; induction s as [|d r IH]; intros [|i]; simpl; auto.
Qed.

Lemma map_length (f : ascii -> ascii) (s : string) :
  String.length (PyStr.map f s) = String.length s.
Proof. induction s; simpl; auto. Qed.

Lemma all_take (p : ascii -> bool) (n : nat) (s : string) :
  PyStr.all p s = true -> PyStr.all p (PyStr.take n s) = true.
Proof.
  revert s; induction n as [|n IH]; intros [|c r]; simpl; auto.
  intros H. apply andb_true_iff in H as [Hc Hr].
  rewrite Hc. simpl. now apply IH.
Qed.

Lemma allowed_underscore : allowed_char "_"%char = true.
Proof. reflexivity. Qed.

Lemma sub_char_allowed (c : ascii) : allowed_char (sub_char c) = true.
Proof.
  unfold sub_char. destruct (allowed_char c) eqn:H; [exact H|reflexivity].
Qed.

Lemma sub_char_fixed (c : ascii) :
  allowed_char c = true -> sub_char c = c.
Proof. unfold sub_char. now intros ->. Qed.

Lemma map_sub_char_allowed (s : string) :
  PyStr.all allowed_char (PyStr.map sub_char s) = true.
Proof.
  induction s as [|c r IH]; simpl; auto.
  now rewrite sub_char_allowed, IH.
Qed.

Lemma map_sub_char_fixed (s : string) :
  PyStr.all allowed_char s = true -> PyStr.map sub_char s = s.
Proof.
  induction s as [|c r IH]; simpl; auto.
  intros H. apply andb_true_iff in H as [Hc Hr].
  now rewrite sub_char_fixed, IH.
Qed.

Lemma get_valid_filename_default (s : string) :
  get_valid_filename s default_name_len
  = PyStr.take 128 (PyStr.map sub_char s).
Proof. reflexivity. Qed.

End Filename.

(** C3.  [get_valid_filename], called with the default length, is idempotent;
    its result has at most 128 characters (the first 128 places of the
    input), all of them in the class [[0-9A-Za-z-,._;]]; and each character of
    the result is the character of the input at the same place when that one
    is in the class, and ['_'] otherwise. *)
Theorem get_valid_filename_idempotent_bounded (s : string) :
  let r := get_valid_filename s default_name_len in
  get_valid_filename r default_name_len = r
  /\ PyStr.len r <= 128
  /\ PyStr.len r = Z.min 128 (PyStr.len s)
  /\ PyStr.all allowed_char r = true
  /\ (forall i : nat,
        String.get i r =
        if (i <? 128)%nat
        then option_map (fun c => if allowed_char c then c else "_"%char)
               (String.get i s)
        else None).
Proof.
  cbv zeta. rewrite !get_valid_filename_default.
  set (r := PyStr.take 128 (PyStr.map sub_char s)).
  assert (Hall : PyStr.all allowed_char r = true)
    by (apply all_take, map_sub_char_allowed).
  assert (Hlen : String.length r = Nat.min 128 (String.length s))
    by (unfold r; now rewrite take_length, map_length).
  repeat split.
  - rewrite (map_sub_char_fixed r Hall). apply take_all. lia.
  - unfold PyStr.len. lia.
  - unfold PyStr.len. lia.
  - exact Hall.
  - intros i. destruct (i <? 128)%nat eqn:Hi.
    + apply Nat.ltb_lt in Hi. unfold r.
      now rewrite (take_get 128 i _ Hi), map_get.
    + apply Nat.ltb_ge in Hi. apply get_ge. lia.
Qed.

(** ** The monad *)

Section MonadFacts.

Context {A B : Type}.

Lemma bind_ok (m : M A) (k : A -> M B) (w w' : world) (a : A) :
  m w = (Ok a, w') -> bind m k w = k a w'.
Proof. unfold bind. now intros ->. Qed.

Lemma bind_raise (m : M A) (k : A -> M B) (w w' : world) (e : exn) :
  m w = (Raise e, w') -> bind m k w = (Raise e, w').
Proof. unfold bind. now intros ->. Qed.

Lemma try_except_ok (m : M A) (c : exn -> bool) (h : exn -> M A)
    (w w' : world) (a : A) :
  m w = (Ok a, w') -> try_except m c h w = (Ok a, w').
Proof. unfold try_except. now intros ->. Qed.

Lemma try_except_caught (m : M A) (c : exn -> bool) (h : exn -> M A)
    (w w' : world) (e : exn) :
  m w = (Raise e, w') -> c e = true -> try_except m c h w = h e w'.
Proof. unfold try_except. now intros -> ->. Qed.

Lemma try_except_passed (m : M A) (c : exn -> bool) (h : exn -> M A)
    (w w' : world) (e : exn) :
  m w = (Raise e, w') -> c e = false ->
  try_except m c h w = (Raise e, w').
Proof. unfold try_except. now intros -> ->. Qed.

End MonadFacts.

(** ** The cache *)

(** C9.  [Cache.__setitem__] never raises.  It returns the object with the
    mapping updated at the key, so that a lookup of the key gives the value,
    whether or not the backing file could be written.  When the file can be
    written it receives the whole updated mapping; when it cannot, the
    failure is printed, the disk is left as it was and the update of the
    mapping stays. *)
Theorem cache_setitem_keeps_memory (E : env) (self : Cache.t)
    (key value : string) (w : world) :
  exists (self' : Cache.t) (w' : world),
    Cache.__setitem__ E self key value w = (Ok self', w')
    /\ Cache.cache self' = <[key := value]> (Cache.cache self)
    /\ Cache.cache_dir self' = Cache.cache_dir self
    /\ Cache.__getitem__ self' key = Some value
    /\ w' = (if writable E (Cache.cache_dir self)
             then set_disk (<[Cache.cache_dir self :=
                                JsonFile (Cache.cache self')]> (disk w)) w
             else add_out (MsgCacheWriteError OSError) w).
Proof.
  exists {| Cache.cache_dir := Cache.cache_dir self;
            Cache.cache := <[key := value]> (Cache.cache self) |}.
  unfold Cache.__setitem__, Cache.__getitem__, bind, try_except, open_write,
    print, ret; simpl.
  destruct (writable E (Cache.cache_dir self)); simpl;
    eexists; (split; [reflexivity|]);
    (repeat split; apply lookup_insert_eq).
Qed.

(** ** The rate limiter *)

Section Wait.

Variable E : env.

Lemma wait_unfold (url : string) (delay : Z) (domains : gmap string Z)
    (w : world) :
  wait E url delay (Some domains) w =
  let host := url_netloc E url in
  let w' :=
    match domains !! host with
    | Some t =>
        if (0 <? delay) && (0 <? delay - (now w - t))
        then add_slept (delay - (now w - t))
               (set_now (now w + (delay - (now w - t))) w)
        else w
    | None => w
    end in
  (Ok (<[host := now w']> domains), w').
Proof.
  unfold wait, bind, time_time, time_sleep, ret. cbv zeta.
  destruct (domains !! url_netloc E url) as [t|]; [|reflexivity].
  destruct (0 <? delay); [|reflexivity]. simpl.
  destruct (0 <? delay - (now w - t)); reflexivity.
Qed.

(** With no dictionary passed, nothing is remembered and nothing delays. *)
Lemma wait_without_dictionary (url : string) (delay : Z) (w : world) :
  wait E url delay None w = (Ok {[ url_netloc E url := now w ]}, w).
Proof.
  unfold wait, bind, time_time, ret. cbv zeta.
  now rewrite lookup_empty.
Qed.

End Wait.

(** C8.  A call of [wait] returns, and
    - when the host has no recorded time, the world is left as it was: no
      sleep, the clock untouched;
    - when the host has the recorded time [t], the call returns no earlier
      than [t + delay] (for a positive [delay], or for any [delay] when [t] is
      not in the future);
    - it sleeps at most once, and only for this host's sake: with any other
      dictionary that agrees on this host the world after the call is the
      same;
    - the dictionary after the call is the one before it with this host set to
      the time at which the call returns. *)
Theorem wait_rate_limit (E : env) (url : string) (delay : Z)
    (domains : gmap string Z) (w : world) :
  let host := url_netloc E url in
  exists (domains' : gmap string Z) (w' : world),
    wait E url delay (Some domains) w = (Ok domains', w')
    /\ (domains !! host = None -> w' = w)
    /\ (forall t : Z, domains !! host = Some t ->
          0 < delay \/ t <= now w -> t + delay <= now w')
    /\ (forall other : gmap string Z, other !! host = domains !! host ->
          snd (wait E url delay (Some other) w) = w')
    /\ domains' = <[host := now w']> domains
    /\ now w <= now w'.
Proof.
  cbv zeta. rewrite wait_unfold. cbv zeta.
  eexists _, _. split; [reflexivity|].
  split; [now intros ->|].
  split.
  { intros t -> Hcase.
    destruct (0 <? delay) eqn:Hd; simpl.
    - destruct (0 <? delay - (now w - t)) eqn:Hs; simpl; lia.
    - lia. }
  split.
  { intros other Hother. rewrite wait_unfold. cbv zeta. now rewrite Hother. }
  split; [reflexivity|].
  destruct (domains !! url_netloc E url) as [t|]; [|lia].
  destruct ((0 <? delay) && (0 <? delay - (now w - t))) eqn:Hc; simpl; lia.
Qed.

(** A second call for the host one time unit after the first, with the default
    interval of 3, returns at time 13 when the first was recorded at 10. *)
Lemma wait_rate_limit_witness :
  exists (domains' : gmap string Z) (w' : world),
    wait Scenario.offline "https://www.sci-hub.wf/10.1/abc" 3
      (Some {[ "www.sci-hub.wf" := 10 ]}) (Scenario.at_time 11)
    = (Ok domains', w')
    /\ 10 + 3 <= now w'.
Proof.
  destruct (wait_rate_limit Scenario.offline "https://www.sci-hub.wf/10.1/abc"
              3 {[ "www.sci-hub.wf" := 10 ]} (Scenario.at_time 11))
    as (domains' & w' & Hrun & _ & Hwait & _).
  exists domains', w'. split; [exact Hrun|].
  apply (Hwait 10); [vm_compute; reflexivity | left; lia].
Defined.

(** ** The link extractor *)

Section LinkExtractor.

Variable E : env.

Lemma get_link_xpath_unfold (html : option string) (w : world) :
  get_link_xpath E html w =
  match fromstring E html with
  | Raise e => (Ok None, add_out (MsgParseError e) w)
  | Ok tree =>
      match controls tree with
      | [] => (Ok None, add_out MsgNotIndexed w)
      | a => match extracted tree a with
             | Ok l => (Ok (Some l), w)
             | Raise e => (Ok None, add_out (MsgParseError e) w)
             end
      end
  end.
Proof.
  unfold get_link_xpath, try_except, bind, lift, print, ret, controls,
    extracted.
  destruct (fromstring E html) as [tree|e]; [|reflexivity].
  destruct (Html.xpath tree buttons_path) as [|b bs]; simpl.
  - destruct (Html.xpath tree anchors_path) as [|c cs]; simpl;
      [reflexivity|].
    destruct (Re.findall_first _) as [href|e]; [|reflexivity].
    destruct (py_index _ 0) as [t0|e]; reflexivity.
  - destruct (Re.findall_first _) as [href|e]; [|reflexivity].
    destruct (py_index _ 0) as [t0|e]; reflexivity.
Qed.

End LinkExtractor.

(** C7.  [get_link_xpath] returns on every input, whatever the parser does
    with it; it never raises.  When the parse succeeds and neither the button
    selector nor the anchor selector finds an element, the result is [None]
    and the only thing printed is the not-indexed notice.  When the parse
    raises, the result is [None] and the error is printed. *)
Theorem get_link_xpath_never_raises (E : env) (html : option string)
    (w : world) :
  exists (r : option link) (w' : world),
    get_link_xpath E html w = (Ok r, w')
    /\ (forall tree : node, fromstring E html = Ok tree ->
          Html.xpath tree buttons_path = [] ->
          Html.xpath tree anchors_path = [] ->
          r = None /\ w' = add_out MsgNotIndexed w)
    /\ (forall e : exn, fromstring E html = Raise e ->
          r = None /\ w' = add_out (MsgParseError e) w)
    /\ (w' = w \/ exists m : msg, w' = add_out m w).
Proof.
  rewrite get_link_xpath_unfold.
  destruct (fromstring E html) as [tree|e].
  - assert (Hnone : forall t : node, Ok tree = Ok t ->
              Html.xpath t buttons_path = [] ->
              Html.xpath t anchors_path = [] -> controls tree = []).
    { intros t Ht Hb Ha. inversion Ht; subst. unfold controls.
      now rewrite Hb. }
    destruct (controls tree) as [|c cs].
    + eexists _, _. split; [reflexivity|].
      split; [now intros|]. split; [discriminate|]. eauto.
    + destruct (extracted tree (c :: cs)) as [l|e];
        (eexists _, _; split; [reflexivity|]);
        (split; [intros t Ht Hb Ha; now specialize (Hnone t Ht Hb Ha)|]);
        (split; [discriminate|]); eauto.
  - eexists _, _. split; [reflexivity|].
    split; [discriminate|].
    split; [intros e' He; inversion He; now subst|]. eauto.
Qed.

(** On a page without download controls the extractor answers [None] and
    prints the notice. *)
Lemma get_link_xpath_never_raises_witness :
  exists (r : option link) (w' : world),
    get_link_xpath
      (Scenario.make_env (Scenario.script [])
         (fun _ => Ok Scenario.page_not_indexed) None)
      (Some "<html>...</html>") Scenario.world0 = (Ok r, w')
    /\ r = None /\ w' = add_out MsgNotIndexed Scenario.world0.
Proof.
  destruct (get_link_xpath_never_raises
              (Scenario.make_env (Scenario.script [])
                 (fun _ => Ok Scenario.page_not_indexed) None)
              (Some "<html>...</html>") Scenario.world0)
    as (r & w' & Hrun & Hnone & _).
  exists r, w'. split; [exact Hrun|].
  apply (Hnone Scenario.page_not_indexed); reflexivity.
Defined.

(** ** The two downloaders *)

Section Retry.

Variable E : env.

Lemma try_except_transparent {A : Type} (m : M A) (h : exn -> M A)
    (w : world) :
  (forall w', m w <> (Raise RequestException, w')) ->
  try_except m is_RequestException h w = m w.
Proof.
  unfold try_except. intros Hno.
  destruct (m w) as [[a|e] w'] eqn:Hm; [reflexivity|].
  destruct e; simpl; try reflexivity. now destruct (Hno w').
Qed.

Lemma should_retry_spec (n status : Z) :
  should_retry n status = is_5xx status && negb (n =? 0).
Proof. unfold should_retry, truthy_int, is_5xx. apply andb_comm. Qed.

Lemma ge_400_spec (status : Z) : (status >=? 400) = negb (status <? 400).
Proof. rewrite Z.geb_leb. apply Z.leb_antisym. Qed.

(** *** [download] *)

Lemma download_never_RequestException (depth : nat) (url : string)
    (headers : list (string * string))
    (proxies : option (list (string * string))) (n : Z) (w w' : world) :
  download E depth url headers proxies n w <> (Raise RequestException, w').
Proof.
  destruct depth as [|d]; [discriminate|].
  simpl. unfold bind at 1, print. unfold try_except.
  destruct (bind _ _ _) as [[a|e] w2] eqn:Hbody; [discriminate|].
  destruct e; simpl; discriminate.
Qed.

Lemma download_step (url : string) (headers : list (string * string))
    (proxies : option (list (string * string))) :
  retries_on_5xx_only E (page_request url headers proxies)
    (MsgDownloadingPage url)
    (fun depth n => download E depth url headers proxies n)
    (fun body => ret (Some body))
    None MsgPageFailed (MsgPageError RequestException).
Proof.
  intros depth n w w1. simpl.
  unfold bind at 1, print. fold (add_out (MsgDownloadingPage url) w).
  unfold try_except, bind at 1, requests_get.
  change (length (sent (add_out (MsgDownloadingPage url) w)))
    with (length (sent w)).
  fold (page_request url headers proxies).
  destruct (net E (length (sent w)) (page_request url headers proxies))
    as [status body|]; [|reflexivity].
  fold w1. rewrite ge_400_spec, should_retry_spec.
  destruct (status <? 400); simpl; [reflexivity|].
  destruct (is_5xx status && negb (n =? 0)); [|reflexivity].
  destruct (download E depth url headers proxies (n - 1) w1)
    as [[a|e] w2] eqn:Hrec; [reflexivity|].
  destruct e; simpl; try reflexivity.
  now apply download_never_RequestException in Hrec.
Qed.

(** *** [download_pdf] *)

Lemma save_pdf_sent (result : link) (dir : string) (doi : pyval)
    (content : string) (w : world) :
  sent (snd (save_pdf E result dir doi content w)) = sent w.
Proof.
  unfold save_pdf, bind, lift, open_write, print, ret.
  destruct (as_str _) as [name|e]; [|reflexivity].
  destruct (writable E _); reflexivity.
Qed.

Lemma save_pdf_never_RequestException (result : link) (dir : string)
    (doi : pyval) (content : string) (w w' : world) :
  save_pdf E result dir doi content w <> (Raise RequestException, w').
Proof.
  unfold save_pdf, bind, lift, open_write, print, ret.
  destruct (as_str _) as [name|e] eqn:Hname.
  - destruct (writable E _); discriminate.
  - unfold as_str in Hname.
    destruct (name_source result doi) as [[]|]; inversion Hname;
      discriminate.
Qed.

Lemma download_pdf_never_RequestException (depth : nat) (result : link)
    (headers : list (string * string)) (dir : string)
    (proxies : option (list (string * string))) (n : Z) (doi : pyval)
    (w w' : world) :
  download_pdf E depth result headers dir proxies n doi w
  <> (Raise RequestException, w').
Proof.
  destruct depth as [|d]; [discriminate|].
  simpl. unfold bind at 1, urlparse.
  destruct (url_valid E (onclick result)); [|discriminate].
  unfold bind at 1, print. unfold try_except.
  destruct (bind _ _ _) as [[a|e] w2] eqn:Hbody; [discriminate|].
  destruct e; simpl; discriminate.
Qed.

(** On an address that [urlparse] refuses, [download_pdf] raises before it
    prints or sends anything. *)
Lemma download_pdf_unparsed (depth : nat) (result : link)
    (headers : list (string * string)) (dir : string)
    (proxies : option (list (string * string))) (n : Z) (doi : pyval)
    (w : world) :
  url_valid E (onclick result) = false ->
  download_pdf E (S depth) result headers dir proxies n doi w
  = (Raise ValueError, w).
Proof. intros Hv. simpl. unfold bind at 1, urlparse. now rewrite Hv. Qed.

Lemma download_pdf_step (result : link) (headers : list (string * string))
    (dir : string) (proxies : option (list (string * string)))
    (doi : pyval) :
  url_valid E (onclick result) = true ->
  retries_on_5xx_only E (pdf_request E result headers proxies)
    (MsgDownloadingFile (pdf_url E result))
    (fun depth n => download_pdf E depth result headers dir proxies n doi)
    (save_pdf E result dir doi)
    false MsgFileFailed (MsgFileError RequestException).
Proof.
  intros Hvalid depth n w w1. simpl.
  unfold bind at 1, urlparse. rewrite Hvalid. cbv beta iota.
  unfold bind at 1, print. fold (add_out (MsgDownloadingFile (pdf_url E result)) w).
  unfold try_except, bind at 1, requests_get.
  change (length (sent (add_out (MsgDownloadingFile (pdf_url E result)) w)))
    with (length (sent w)).
  fold (pdf_request E result headers proxies).
  destruct (net E (length (sent w)) (pdf_request E result headers proxies))
    as [status body|]; [|reflexivity].
  fold w1. rewrite ge_400_spec, should_retry_spec.
  destruct (status <? 400); simpl.
  - destruct (save_pdf E result dir doi body w1) as [[a|e] w2] eqn:Hsave;
      [reflexivity|].
    destruct e; simpl; try reflexivity.
    now apply save_pdf_never_RequestException in Hsave.
  - destruct (is_5xx status && negb (n =? 0)); [|reflexivity].
    destruct (download_pdf E depth result headers dir proxies (n - 1) doi w1)
      as [[a|e] w2] eqn:Hrec; [reflexivity|].
    destruct e; simpl; try reflexivity.
    now apply download_pdf_never_RequestException in Hrec.
Qed.

(** *** The bound, for any downloader that follows the discipline *)

Lemma discipline_bounded {A : Type} (r : request) (announce : msg)
    (run : nat -> Z -> M A) (success : string -> M A) (failure : A)
    (failed : Z -> msg) (errored : msg) :
  retries_on_5xx_only E r announce run success failure failed errored ->
  (forall body w, sent (snd (success body w)) = sent w) ->
  bounded_by_budget E r run failure.
Proof.
  intros Hstep Hsucc depth.
  induction depth as [|d IH]; intros n w Hn Hdepth; [lia|].
  rewrite Hstep. cbv zeta.
  set (w1 := add_sent r (add_out announce w)).
  assert (Hw1 : sent w1 = (sent w ++ [r])%list) by reflexivity.
  assert (Hlen1 : length (sent w1) = S (length (sent w)))
    by (rewrite Hw1, length_app; simpl; lia).
  destruct (net E (length (sent w)) r) as [status body|] eqn:Hnet.
  - destruct (status <? 400) eqn:Hlt.
    + split.
      * exists 1%nat. rewrite Hsucc, Hw1. simpl. split; [reflexivity|lia].
      * intros Hp. destruct (Hp (length (sent w))) as (s & b & Hs & H5);
          [lia|].
        rewrite Hnet in Hs. inversion Hs; subst.
        unfold is_5xx in H5. lia.
    + destruct (is_5xx status && negb (n =? 0)) eqn:Hretry.
      * apply andb_true_iff in Hretry as [_ Hn0].
        apply negb_true_iff, Z.eqb_neq in Hn0.
        destruct (IH (n - 1) w1) as [(k & Hk & Hbound) Hpers]; [lia|lia|].
        split.
        -- exists (S k). rewrite Hk, Hw1, <- app_assoc. simpl.
           split; [reflexivity|lia].
        -- intros Hp. destruct Hpers as (w' & Hrun & Hsent).
           { intros i Hi. apply Hp. lia. }
           exists w'. split; [exact Hrun|].
           rewrite Hsent, Hw1, <- app_assoc. simpl.
           replace (Z.to_nat n + 1)%nat with (S (Z.to_nat (n - 1) + 1))
             by lia.
           reflexivity.
      * split.
        -- exists 1%nat. simpl. split; [reflexivity|lia].
        -- intros Hp. destruct (Hp (length (sent w))) as (s & b & Hs & H5);
             [lia|].
           rewrite Hnet in Hs. inversion Hs; subst. rewrite H5 in Hretry.
           simpl in Hretry. apply negb_false_iff, Z.eqb_eq in Hretry.
           subst n. eexists. split; [reflexivity|]. reflexivity.
  - split.
    + exists 1%nat. simpl. split; [reflexivity|lia].
    + intros Hp. destruct (Hp (length (sent w))) as (s & b & Hs & _); [lia|].
      rewrite Hnet in Hs. discriminate.
Qed.

End Retry.

(** C1, as the code has it.  [download] and [download_pdf] follow the same
    discipline.  Each call sends one request; a status below 400 gives the
    body (to the caller for [download], to the lines that save the file for
    [download_pdf]); a status from 400 to 499, or any status of 600 and more,
    and a transport failure end the call with a failure at once; a status
    from 500 to 599 makes the call start again with the budget decreased,
    as long as the budget is not zero.  For a budget [n >= 0] a run therefore
    sends at most [n + 1] requests, and exactly [n + 1] before it fails when
    the server keeps answering 5xx.  [download_pdf] parses the extracted
    address before all this, outside its [try]: the discipline is the one it
    follows once [urlparse] has accepted the address, and on an address that
    [urlparse] refuses it raises a [ValueError] with nothing printed and
    nothing sent. *)
Theorem downloaders_retry_on_5xx_within_budget (E : env) (url : string)
    (headers : list (string * string))
    (proxies : option (list (string * string))) (result : link)
    (dir : string) (doi : pyval) :
  (retries_on_5xx_only E (page_request url headers proxies)
     (MsgDownloadingPage url)
     (fun depth n => download E depth url headers proxies n)
     (fun body => ret (Some body))
     None MsgPageFailed (MsgPageError RequestException)
   /\ bounded_by_budget E (page_request url headers proxies)
        (fun depth n => download E depth url headers proxies n) None)
  /\ (url_valid E (onclick result) = true ->
      retries_on_5xx_only E (pdf_request E result headers proxies)
        (MsgDownloadingFile (pdf_url E result))
        (fun depth n => download_pdf E depth result headers dir proxies n doi)
        (save_pdf E result dir doi)
        false MsgFileFailed (MsgFileError RequestException)
      /\ bounded_by_budget E (pdf_request E result headers proxies)
           (fun depth n =>
              download_pdf E depth result headers dir proxies n doi)
           false)
  /\ (url_valid E (onclick result) = false ->
      forall (depth : nat) (n : Z) (w : world),
        download_pdf E (S depth) result headers dir proxies n doi w
        = (Raise ValueError, w)).
Proof.
  split; [split|split].
  - apply download_step.
  - eapply discipline_bounded; [apply download_step|reflexivity].
  - intros Hvalid. split.
    + now apply download_pdf_step.
    + eapply discipline_bounded; [now apply download_pdf_step|].
      intros body w. apply save_pdf_sent.
  - intros Hvalid depth n w. now apply download_pdf_unparsed.
Qed.

(** With the default budget of 2, against a server that always answers 503,
    [download] sends three requests and returns [None]. *)
Lemma downloaders_retry_on_5xx_within_budget_witness :
  let E := Scenario.make_env (Scenario.always 503 "busy") Scenario.no_parse
             None in
  let r := page_request "https://www.sci-hub.wf/10.1/abc" [] None in
  exists w' : world,
    download E 3 "https://www.sci-hub.wf/10.1/abc" [] None 2 Scenario.world0
    = (Ok None, w')
    /\ sent w' = [r; r; r].
Proof.
  intros E r.
  destruct (downloaders_retry_on_5xx_within_budget E
              "https://www.sci-hub.wf/10.1/abc" [] None
              {| title := ""; onclick := "" |} "" (Atom ANone))
    as [[_ Hbound] _].
  destruct (Hbound 3%nat 2 Scenario.world0) as [_ Hpersistent];
    [lia | simpl; lia |].
  destruct Hpersistent as (w' & Hrun & Hsent).
  - intros i _. exists 503, "busy". split; reflexivity.
  - exists w'. split; [exact Hrun | exact Hsent].
Defined.

(** C1, as stated, fails for a negative budget: with the budget -1 a 503 is
    retried, so that two requests are sent where the claim allows
    [num_retries + 1 = 0]; and against a server that always answers 503 the
    calls nest until the interpreter gives up. *)
Lemma download_negative_budget_retries :
  let E := Scenario.make_env
             (Scenario.script [Response 503 "busy"; Response 200 "page"])
             Scenario.no_parse None in
  let E503 := Scenario.make_env (Scenario.always 503 "busy")
                Scenario.no_parse None in
  let run := download E 2 "https://www.sci-hub.wf/10.1/abc" [] None (-1)
               Scenario.world0 in
  let run503 := download E503 40 "https://www.sci-hub.wf/10.1/abc" [] None
                  (-1) Scenario.world0 in
  fst run = Ok (Some "page")
  /\ length (sent (snd run)) = 2%nat
  /\ ~ (Z.of_nat (length (sent (snd run))) <= -1 + 1)
  /\ fst run503 = Raise RecursionError
  /\ length (sent (snd run503)) = 40%nat.
Proof.
  cbv zeta. repeat split; try (vm_compute; reflexivity).
  vm_compute. intros H. now apply H.
Qed.

(** ** The orchestrator *)

Section Crawler.

Variable E : env.

Lemma bind_inv {A B : Type} (m : M A) (k : A -> M B) (w w' : world)
    (b : B) :
  bind m k w = (Ok b, w') ->
  exists (a : A) (w1 : world), m w = (Ok a, w1) /\ k a w1 = (Ok b, w').
Proof.
  unfold bind. destruct (m w) as [[a|e] w1]; [eauto|discriminate].
Qed.

(** *** The three ways through one turn of the loop *)

Lemma crawl_step_no_identifier (depth : nat) (cfg : config)
    (headers : list (string * string)) (rp : option policy) (doi : entry)
    (st : loop_state) (w : world) (e : exn) :
  py_index doi 0 = Raise e ->
  crawl_step E depth cfg headers rp doi st w = (Raise e, w).
Proof. unfold crawl_step, bind, lift. now intros ->. Qed.

Lemma crawl_step_cache_hit (depth : nat) (cfg : config)
    (headers : list (string * string)) (rp : option policy) (doi : entry)
    (doi0 : atom) (st : loop_state) (w : world) (v : string) :
  py_index doi 0 = Ok doi0 ->
  cache_hit (ls_cache st) (doi_parser doi0 (start_url cfg) (useSSL cfg))
  = Some v ->
  crawl_step E depth cfg headers rp doi st w
  = (Ok (counted st), add_out (MsgCached v) w).
Proof.
  intros H0 Hc. unfold crawl_step, bind at 1, lift. rewrite H0.
  cbv beta iota zeta. rewrite Hc. reflexivity.
Qed.

Lemma crawl_step_blocked (depth : nat) (cfg : config)
    (headers : list (string * string)) (rp : option policy) (doi : entry)
    (doi0 : atom) (st : loop_state) (w : world) :
  let url := doi_parser doi0 (start_url cfg) (useSSL cfg) in
  py_index doi 0 = Ok doi0 ->
  cache_hit (ls_cache st) url = None ->
  allowed rp (user_agent cfg) url (nolimit cfg) = false ->
  crawl_step E depth cfg headers rp doi st w
  = (Ok st, add_out (MsgBlocked url) w).
Proof.
  intros url H0 Hc Ha. unfold crawl_step, bind at 1, lift. rewrite H0.
  cbv beta iota zeta. fold url. rewrite Hc, Ha. reflexivity.
Qed.

Lemma crawl_step_allowed (depth : nat) (cfg : config)
    (headers : list (string * string)) (rp : option policy) (doi : entry)
    (doi0 : atom) (st : loop_state) (w : world) :
  let url := doi_parser doi0 (start_url cfg) (useSSL cfg) in
  py_index doi 0 = Ok doi0 ->
  cache_hit (ls_cache st) url = None ->
  allowed rp (user_agent cfg) url (nolimit cfg) = true ->
  crawl_step E depth cfg headers rp doi st w
  = fetch E depth cfg headers url doi st w.
Proof.
  intros url H0 Hc Ha. unfold crawl_step, bind at 1, lift. rewrite H0.
  cbv beta iota zeta. fold url. rewrite Hc, Ha. reflexivity.
Qed.

(** *** The counter *)

Lemma fetch_counter (depth : nat) (cfg : config)
    (headers : list (string * string)) (url : string) (doi : entry)
    (st st' : loop_state) (w w' : world) :
  fetch E depth cfg headers url doi st w = (Ok st', w') ->
  download_succ_cnt st' = download_succ_cnt st
  \/ download_succ_cnt st' = download_succ_cnt st + 1.
Proof.
  unfold fetch. intros H.
  apply bind_inv in H as (domains & w1 & _ & H).
  apply bind_inv in H as (html & w2 & _ & H).
  apply bind_inv in H as (result & w3 & _ & H).
  destruct result as [result|].
  - apply bind_inv in H as (q & w4 & _ & H).
    apply bind_inv in H as (q' & w5 & _ & H).
    apply bind_inv in H as (saved & w6 & _ & H).
    destruct saved.
    + apply bind_inv in H as (c & w7 & _ & H).
      inversion H; subst. right. reflexivity.
    + inversion H; subst. left. reflexivity.
  - inversion H; subst. left. reflexivity.
Qed.

Lemma crawl_step_counter (depth : nat) (cfg : config)
    (headers : list (string * string)) (rp : option policy) (doi : entry)
    (st st' : loop_state) (w w' : world) :
  crawl_step E depth cfg headers rp doi st w = (Ok st', w') ->
  download_succ_cnt st' = download_succ_cnt st
  \/ download_succ_cnt st' = download_succ_cnt st + 1.
Proof.
  unfold crawl_step. intros H.
  apply bind_inv in H as (doi0 & w1 & _ & H).
  destruct (cache_hit _ _) as [v|].
  - inversion H; subst. right. reflexivity.
  - destruct (allowed _ _ _ _).
    + now apply fetch_counter in H.
    + inversion H; subst. left. reflexivity.
Qed.

Lemma crawl_loop_counter (depth : nat) (cfg : config)
    (headers : list (string * string)) (rp : option policy)
    (doi_list : list entry) (st st' : loop_state) (w w' : world) :
  crawl_loop E depth cfg headers rp doi_list st w = (Ok st', w') ->
  download_succ_cnt st <= download_succ_cnt st'
  <= download_succ_cnt st + Z.of_nat (length doi_list).
Proof.
  revert st w. induction doi_list as [|doi rest IH]; intros st w H.
  - inversion H; subst. simpl. lia.
  - simpl in H. apply bind_inv in H as (st1 & w1 & Hstep & Hrest).
    apply crawl_step_counter in Hstep. apply IH in Hrest.
    simpl length. lia.
Qed.

Lemma sci_hub_crawler_report (depth : nat) (doi_list : list entry)
    (cfg : config) (cache : option Cache.t) (st : loop_state)
    (w w' : world) :
  sci_hub_crawler E depth doi_list cfg cache w = (Ok st, w') ->
  0 <= download_succ_cnt st <= Z.of_nat (length doi_list)
  /\ exists before : list msg,
       out w' = (before ++
                 [MsgDone (Z.of_nat (length doi_list))
                    (download_succ_cnt st);
                  MsgDone (Z.of_nat (length doi_list))
                    (download_succ_cnt st)])%list.
Proof.
  unfold sci_hub_crawler. intros H.
  apply bind_inv in H as (rp & w1 & _ & H).
  apply bind_inv in H as (u1 & w2 & _ & H).
  apply bind_inv in H as (u2 & w3 & _ & H).
  apply bind_inv in H as (u3 & w4 & _ & H).
  apply bind_inv in H as (st1 & w5 & Hloop & H).
  apply crawl_loop_counter in Hloop. simpl in Hloop.
  unfold bind, print, ret in H. inversion H; subst.
  split; [lia|].
  exists (out w5). simpl. now rewrite <- app_assoc.
Qed.

End Crawler.

(** *** What one turn sends *)

Section Requests.

Variable E : env.

(** A downloader that follows the discipline sends its request [r] some
    number of times, at least once when it has room for one call. *)
Lemma discipline_sends {A : Type} (r : request) (announce : msg)
    (run : nat -> Z -> M A) (success : string -> M A) (failure : A)
    (failed : Z -> msg) (errored : msg) :
  retries_on_5xx_only E r announce run success failure failed errored ->
  (forall body w, sent (snd (success body w)) = sent w) ->
  (forall n w, snd (run O n w) = w) ->
  forall (depth : nat) (n : Z) (w : world),
  exists k : nat,
    sent (snd (run depth n w)) = (sent w ++ repeat r k)%list
    /\ (0 < depth -> 0 < k)%nat.
Proof.
  intros Hstep Hsucc Hzero depth.
  induction depth as [|d IH]; intros n w.
  - exists O. rewrite Hzero, app_nil_r. split; [reflexivity|lia].
  - rewrite Hstep. cbv zeta.
    set (w1 := add_sent r (add_out announce w)).
    assert (Hw1 : sent w1 = (sent w ++ [r])%list) by reflexivity.
    destruct (net E (length (sent w)) r) as [status body|].
    + destruct (status <? 400).
      * exists 1%nat. rewrite Hsucc, Hw1. split; [reflexivity|lia].
      * destruct (is_5xx status && negb (n =? 0)).
        -- destruct (IH (n - 1) w1) as (k & Hk & _).
           exists (S k). rewrite Hk, Hw1, <- app_assoc.
           split; [reflexivity|lia].
        -- exists 1%nat. split; [reflexivity|lia].
    + exists 1%nat. split; [reflexivity|lia].
Qed.

Lemma download_sends (depth : nat) (url : string)
    (headers : list (string * string))
    (proxies : option (list (string * string))) (n : Z) (w : world) :
  exists k : nat,
    sent (snd (download E depth url headers proxies n w))
    = (sent w ++ repeat (page_request url headers proxies) k)%list
    /\ (0 < depth -> 0 < k)%nat.
Proof.
  apply (discipline_sends _ _
           (fun depth n => download E depth url headers proxies n)
           _ _ _ _ (download_step E url headers proxies));
    reflexivity.
Qed.

Lemma download_pdf_sends (depth : nat) (result : link)
    (headers : list (string * string)) (dir : string)
    (proxies : option (list (string * string))) (n : Z) (doi : pyval)
    (w : world) :
  exists k : nat,
    sent (snd (download_pdf E depth result headers dir proxies n doi w))
    = (sent w ++ repeat (pdf_request E result headers proxies) k)%list.
Proof.
  destruct (url_valid E (onclick result)) eqn:Hvalid.
  - destruct (discipline_sends _ _
                (fun depth n =>
                   download_pdf E depth result headers dir proxies n doi)
                _ _ _ _
                (download_pdf_step E result headers dir proxies doi Hvalid)
                (save_pdf_sent E result dir doi)
                (fun _ _ => eq_refl) depth n w) as (k & Hk & _).
    now exists k.
  - exists O. rewrite app_nil_r. destruct depth as [|d]; [reflexivity|].
    now rewrite download_pdf_unparsed.
Qed.

Lemma get_link_xpath_sent (html : option string) (w : world) :
  sent (snd (get_link_xpath E html w)) = sent w.
Proof.
  rewrite get_link_xpath_unfold.
  destruct (fromstring E html) as [tree|e]; [|reflexivity].
  destruct (controls tree) as [|c cs]; [reflexivity|].
  destruct (extracted tree (c :: cs)); reflexivity.
Qed.

Lemma setitem_unfold (self : Cache.t) (key value : string) (w : world) :
  Cache.__setitem__ E self key value w =
  let self' := {| Cache.cache_dir := Cache.cache_dir self;
                  Cache.cache := <[key := value]> (Cache.cache self) |} in
  (Ok self',
   if writable E (Cache.cache_dir self)
   then set_disk (<[Cache.cache_dir self := JsonFile (Cache.cache self')]>
                    (disk w)) w
   else add_out (MsgCacheWriteError OSError) w).
Proof.
  unfold Cache.__setitem__, bind, try_except, open_write, print, ret; simpl.
  destruct (writable E (Cache.cache_dir self)); reflexivity.
Qed.

(** Closes a goal about the requests sent, from what is known of the
    current world. *)
Ltac sent_done H := simpl; rewrite H; eexists; reflexivity.

Lemma wait_returns (url : string) (delay : Z) (domains : gmap string Z)
    (w : world) :
  exists (domains' : gmap string Z) (w' : world),
    wait E url delay (Some domains) w = (Ok domains', w')
    /\ sent w' = sent w.
Proof.
  rewrite wait_unfold. cbv zeta. eexists _, _. split; [reflexivity|].
  destruct (domains !! url_netloc E url); [destruct (_ && _)|];
    reflexivity.
Qed.

(** The pipeline opens with the request for the landing page and sends
    nothing before it. *)
Lemma fetch_sends_landing_first (depth : nat) (cfg : config)
    (headers : list (string * string)) (url : string) (doi : entry)
    (st : loop_state) (w : world) :
  (0 < depth)%nat ->
  exists later : list request,
    sent (snd (fetch E depth cfg headers url doi st w))
    = (sent w ++ page_request url headers (proxies cfg) :: later)%list.
Proof.
  intros Hdepth. unfold fetch.
  destruct (wait_returns url (delay cfg) (ls_domains st) w)
    as (domains & w1 & Hwait & Hw1).
  unfold bind at 1. rewrite Hwait.
  destruct (download_sends depth url headers (proxies cfg)
              (num_retries cfg) w1) as (k & Hk & Hpos).
  specialize (Hpos Hdepth). destruct k as [|k]; [lia|].
  rewrite Hw1 in Hk. simpl in Hk.
  unfold bind at 1.
  destruct (download E depth url headers (proxies cfg) (num_retries cfg) w1)
    as [[html|e] w2]; simpl in Hk; [|sent_done Hk].
  unfold bind at 1.
  pose proof (get_link_xpath_sent html w2) as Hx.
  destruct (get_link_xpath E html w2) as [[result|e] w3]; simpl in Hx;
    rewrite Hk in Hx; [|sent_done Hx].
  destruct result as [result|]; [|sent_done Hx].
  unfold bind at 1, lift.
  destruct (py_index doi 2) as [q|e]; [|sent_done Hx].
  unfold bind at 1.
  destruct (as_str (Atom q)) as [q'|e]; [|sent_done Hx].
  unfold bind at 1.
  destruct (download_pdf_sends depth result headers
              (os_path_join (dir cfg) q') (proxies cfg) (num_retries cfg)
              (Row doi) w3) as (j & Hj).
  destruct (download_pdf E depth result headers _ _ _ _ w3)
    as [[saved|e] w4]; simpl in Hj; rewrite Hx, <- app_assoc in Hj;
    simpl in Hj; [|sent_done Hj].
  destruct saved; [|sent_done Hj].
  simpl ls_cache. destruct (ls_cache st) as [c|].
  - unfold bind at 1. unfold bind at 1. rewrite setitem_unfold. cbv zeta.
    unfold ret. destruct (writable E (Cache.cache_dir c)); sent_done Hj.
  - unfold bind, ret. sent_done Hj.
Qed.

(** Without a policy and without the override, a turn sends nothing,
    whatever becomes of it. *)
Lemma crawl_step_blocked_sends_nothing (depth : nat) (cfg : config)
    (headers : list (string * string)) (doi : entry) (st : loop_state)
    (w : world) :
  nolimit cfg = false ->
  sent (snd (crawl_step E depth cfg headers None doi st w)) = sent w.
Proof.
  intros Hno. unfold crawl_step, bind at 1, lift.
  destruct (py_index doi 0) as [doi0|e]; [|reflexivity].
  destruct (cache_hit _ _) as [v|]; [reflexivity|].
  unfold allowed. rewrite Hno. reflexivity.
Qed.

Lemma crawl_loop_blocked_sends_nothing (depth : nat) (cfg : config)
    (headers : list (string * string)) (doi_list : list entry)
    (st : loop_state) (w : world) :
  nolimit cfg = false ->
  sent (snd (crawl_loop E depth cfg headers None doi_list st w)) = sent w.
Proof.
  intros Hno. revert st w.
  induction doi_list as [|doi rest IH]; intros st w; [reflexivity|].
  simpl. unfold bind.
  pose proof (crawl_step_blocked_sends_nothing depth cfg headers doi st w
                Hno) as Hstep.
  destruct (crawl_step E depth cfg headers None doi st w) as [[st1|e] w1];
    simpl in Hstep; [|exact Hstep].
  now rewrite IH.
Qed.

Lemma get_robot_parser_none (robot_url : string) (w : world) :
  robots E robot_url = None ->
  get_robot_parser E robot_url w
  = (Ok None,
     add_out (MsgRobotsError OSError) (add_robots_read robot_url w)).
Proof. unfold get_robot_parser, try_except. now intros ->. Qed.

Lemma get_robot_parser_some (robot_url : string) (rp : policy)
    (w : world) :
  robots E robot_url = Some rp ->
  get_robot_parser E robot_url w
  = (Ok (Some rp), add_robots_read robot_url w).
Proof. unfold get_robot_parser, try_except. now intros ->. Qed.

Lemma makedirs_all_sent (paths : list string) (w : world) :
  sent (snd (makedirs_all E paths w)) = sent w.
Proof.
  revert w. induction paths as [|p rest IH]; intros w; [reflexivity|].
  simpl. unfold bind, os_makedirs.
  destruct (mkdir_ok E p); [|reflexivity]. now rewrite IH.
Qed.

Lemma sci_hub_crawler_blocked_sends_nothing (depth : nat)
    (doi_list : list entry) (cfg : config) (cache : option Cache.t)
    (w : world) :
  robots E (effective_robot_url cfg) = None ->
  nolimit cfg = false ->
  sent (snd (sci_hub_crawler E depth doi_list cfg cache w)) = sent w.
Proof.
  intros Hrobots Hno. unfold sci_hub_crawler. cbv zeta.
  unfold bind at 1. rewrite (get_robot_parser_none _ _ Hrobots).
  set (w0 := add_out _ _).
  assert (H0 : sent w0 = sent w) by reflexivity.
  cbv beta iota. unfold bind at 1, os_makedirs.
  destruct (mkdir_ok E (dir cfg)); [|exact H0].
  unfold bind at 1.
  pose proof (makedirs_all_sent (quartile_dirs cfg) (add_dir (dir cfg) w0))
    as Hdirs.
  destruct (makedirs_all E _ _) as [[u|e] w1]; cbv beta iota;
    [|exact Hdirs].
  unfold bind at 1, print. unfold bind at 1.
  pose proof (crawl_loop_blocked_sends_nothing depth cfg
                (crawler_headers cfg) doi_list
                {| ls_cache := cache; ls_domains := ∅;
                   download_succ_cnt := 0 |}
                (add_out MsgStart w1) Hno) as Hloop.
  destruct (crawl_loop E depth cfg _ None doi_list _ _) as [[st|e] w2];
    cbv beta iota; [|simpl in Hloop, Hdirs |- *; now rewrite Hloop, Hdirs].
  unfold bind, print, ret. cbv beta iota. simpl in Hloop, Hdirs |- *.
  now rewrite Hloop, Hdirs.
Qed.

End Requests.

(** C2, as the code has it.  When a cache object is supplied and holds a
    non-empty value [v] under the landing-page address of an identifier, the
    turn for that identifier touches nothing but standard output, where it
    prints the value: no request is sent, no robots file read, no sleep taken,
    the clock and the disk are as before; the success counter grows by
    exactly one; and the loop goes on with the next identifier. *)
Theorem cached_identifier_skips_pipeline (E : env) (depth : nat)
    (cfg : config) (headers : list (string * string)) (rp : option policy)
    (doi : entry) (rest : list entry) (doi0 : atom) (st : loop_state)
    (c : Cache.t) (v : string) (w : world) :
  let url := doi_parser doi0 (start_url cfg) (useSSL cfg) in
  py_index doi 0 = Ok doi0 ->
  ls_cache st = Some c ->
  Cache.cache c !! url = Some v ->
  v <> "" ->
  exists (st' : loop_state) (w' : world),
    crawl_step E depth cfg headers rp doi st w = (Ok st', w')
    /\ download_succ_cnt st' = download_succ_cnt st + 1
    /\ ls_cache st' = ls_cache st
    /\ sent w' = sent w
    /\ robots_read w' = robots_read w
    /\ slept w' = slept w
    /\ now w' = now w
    /\ disk w' = disk w
    /\ out w' = (out w ++ [MsgCached v])%list
    /\ crawl_loop E depth cfg headers rp (doi :: rest) st w
       = crawl_loop E depth cfg headers rp rest st' w'.
Proof.
  intros url Hdoi Hcache Hkey Hv.
  assert (Hhit : cache_hit (ls_cache st) url = Some v).
  { unfold cache_hit, Cache.__getitem__. rewrite Hcache, Hkey.
    destruct v; [contradiction|reflexivity]. }
  pose proof (crawl_step_cache_hit E depth cfg headers rp doi doi0 st w v
                Hdoi Hhit) as Hstep.
  exists (counted st), (add_out (MsgCached v) w).
  split; [exact Hstep|].
  repeat (split; [reflexivity|]).
  simpl. unfold bind. now rewrite Hstep.
Qed.

(** A cached address is skipped even where the policy denies everything. *)
Lemma cached_identifier_skips_pipeline_witness :
  exists (st' : loop_state) (w' : world),
    crawl_step Scenario.offline 3 (default_config "papers") []
      (Some Scenario.deny_all) Scenario.row
      (Scenario.start (Some (Scenario.cache_with "https://mirror/file.pdf")))
      Scenario.world0 = (Ok st', w')
    /\ download_succ_cnt st' = 0 + 1
    /\ sent w' = [].
Proof.
  destruct (cached_identifier_skips_pipeline Scenario.offline 3
              (default_config "papers") [] (Some Scenario.deny_all)
              Scenario.row [] (AStr "10.1/abc")
              (Scenario.start
                 (Some (Scenario.cache_with "https://mirror/file.pdf")))
              (Scenario.cache_with "https://mirror/file.pdf")
              "https://mirror/file.pdf" Scenario.world0)
    as (st' & w' & Hrun & Hcnt & _ & Hsent & _).
  - reflexivity.
  - reflexivity.
  - vm_compute. reflexivity.
  - discriminate.
  - exists st', w'. split; [exact Hrun|]. split; [exact Hcnt|exact Hsent].
Defined.

(** C2, as stated, fails when the address is a key of the cache with an empty
    value: [cache[url]] is then falsy, the turn goes on to the policy check
    and the page fetch, a request is sent, and (the fetch failing here) the
    counter is not increased. *)
Lemma cached_empty_value_is_fetched_again :
  let c := Scenario.cache_with "" in
  let run := crawl_step Scenario.offline 3 (default_config "papers") []
               (Some Scenario.allow_all) Scenario.row
               (Scenario.start (Some c)) Scenario.world0 in
  Cache.cache c !! Scenario.landing_url = Some ""
  /\ doi_parser (AStr "10.1/abc") "www.sci-hub.wf" true = Scenario.landing_url
  /\ sent (snd run) = [page_request Scenario.landing_url [] None]
  /\ exists st' : loop_state,
       fst run = Ok st' /\ download_succ_cnt st' = 0.
Proof.
  cbv zeta. split; [vm_compute; reflexivity|].
  split; [reflexivity|]. split; [vm_compute; reflexivity|].
  eexists. split; [vm_compute; reflexivity|]. reflexivity.
Qed.

(** C10.  In a run that reaches its report, the counter lies between 0 and
    the number of identifiers, and it is that counter and that number which
    the report prints; one turn of the loop leaves the counter as it was or
    adds one to it, never more. *)
Theorem success_count_at_most_identifiers (E : env) (depth : nat)
    (doi_list : list entry) (cfg : config) (cache : option Cache.t)
    (st : loop_state) (w w' : world) :
  sci_hub_crawler E depth doi_list cfg cache w = (Ok st, w') ->
  0 <= download_succ_cnt st <= Z.of_nat (length doi_list)
  /\ (exists before : list msg,
        out w' = (before ++
                  [MsgDone (Z.of_nat (length doi_list)) (download_succ_cnt st);
                   MsgDone (Z.of_nat (length doi_list))
                     (download_succ_cnt st)])%list)
  /\ (forall (headers : list (string * string)) (rp : option policy)
        (doi : entry) (s s' : loop_state) (v v' : world),
        crawl_step E depth cfg headers rp doi s v = (Ok s', v') ->
        download_succ_cnt s' = download_succ_cnt s
        \/ download_succ_cnt s' = download_succ_cnt s + 1).
Proof.
  intros Hrun. apply sci_hub_crawler_report in Hrun as [Hcnt Hout].
  split; [exact Hcnt|]. split; [exact Hout|].
  intros headers rp doi s s' v v'. apply crawl_step_counter.
Qed.

(** The run of the end-to-end scenario reaches its report with a counter of
    one, for one identifier. *)
Lemma success_count_at_most_identifiers_witness :
  exists (st : loop_state) (w' : world),
    sci_hub_crawler (Scenario.gateway "Example Title") 3 [Scenario.row]
      (default_config "papers") (Some Scenario.empty_cache) Scenario.world0
    = (Ok st, w')
    /\ 0 <= download_succ_cnt st <= 1.
Proof.
  eexists _, _. split.
  - vm_compute. reflexivity.
  - eapply (success_count_at_most_identifiers (Scenario.gateway "Example Title")
              3 [Scenario.row] (default_config "papers")
              (Some Scenario.empty_cache) _ Scenario.world0 _).
    vm_compute. reflexivity.
Defined.

(** ** Saving the file *)

Section Saving.

Variable E : env.

Lemma save_pdf_named (result : link) (dir : string) (doi : pyval)
    (content name : string) (w : world) :
  as_str (name_source result doi) = Ok name ->
  save_pdf E result dir doi content w =
  if writable E (pdf_path dir name)
  then (Ok true, saved_at (pdf_path dir name) content w)
  else (Raise OSError, w).
Proof.
  intros Hname. unfold save_pdf, bind at 1, lift. rewrite Hname.
  cbv beta iota zeta. unfold bind, open_write, print, ret. fold (pdf_path dir name).
  destruct (writable E (pdf_path dir name)); reflexivity.
Qed.

Lemma save_pdf_unnamed (result : link) (dir : string) (doi : pyval)
    (content : string) (w : world) (e : exn) :
  as_str (name_source result doi) = Raise e ->
  save_pdf E result dir doi content w = (Raise e, w).
Proof.
  intros Hname. unfold save_pdf, bind at 1, lift. now rewrite Hname.
Qed.

(** With a title of fewer than five characters and a whole row as the
    fallback, nothing can be named. *)
Lemma save_pdf_short_title_row (result : link) (dir : string) (r : entry)
    (content : string) (w : world) :
  PyStr.len (title result) < 5 ->
  save_pdf E result dir (Row r) content w = (Raise TypeError, w).
Proof.
  intros Hshort. apply save_pdf_unnamed. unfold name_source.
  destruct (PyStr.len (title result) >=? 5) eqn:Hc; [lia|reflexivity].
Qed.

(** The name of the saved file never starts with a slash, so that the file
    lands under the directory it is joined to. *)
Lemma pdf_path_under_dir (dir name : string) :
  pdf_path dir name =
  let filename := get_valid_filename name default_name_len ++ ".pdf" in
  if PyStr.truthy dir
  then if PyStr.ends_with_char "/"%char dir then dir ++ filename
       else dir ++ "/" ++ filename
  else filename.
Proof.
  cbv zeta. unfold pdf_path, os_path_join.
  assert (Hstart : PyStr.starts_with_char "/"%char
                     (get_valid_filename name default_name_len ++ ".pdf")
                   = false).
  { rewrite get_valid_filename_default. destruct name as [|c r].
    - reflexivity.
    - change (PyStr.ascii_eqb "/"%char (sub_char c) = false).
      pose proof (sub_char_allowed c) as Hc.
      destruct (PyStr.ascii_eqb "/"%char (sub_char c)) eqn:Heq;
        [|reflexivity].
      apply Ascii.eqb_eq in Heq. rewrite <- Heq in Hc. discriminate Hc. }
  rewrite Hstart. destruct (PyStr.truthy dir); reflexivity.
Qed.

Lemma name_source_title (result : link) (doi : pyval) :
  5 <= PyStr.len (title result) ->
  name_source result doi = Atom (AStr (title result)).
Proof.
  intros H. unfold name_source.
  destruct (PyStr.len (title result) >=? 5) eqn:Hc; [reflexivity|lia].
Qed.

Lemma name_source_fallback (result : link) (doi : pyval) :
  PyStr.len (title result) < 5 ->
  name_source result doi = doi.
Proof.
  intros H. unfold name_source.
  destruct (PyStr.len (title result) >=? 5) eqn:Hc; [lia|reflexivity].
Qed.

Lemma download_ok (depth : nat) (url : string)
    (headers : list (string * string))
    (proxies : option (list (string * string))) (n : Z) (w : world)
    (status : Z) (body : string) :
  net E (length (sent w)) (page_request url headers proxies)
  = Response status body ->
  status < 400 ->
  download E (S depth) url headers proxies n w
  = (Ok (Some body),
     add_sent (page_request url headers proxies)
       (add_out (MsgDownloadingPage url) w)).
Proof.
  intros Hnet Hlt.
  rewrite (download_step E url headers proxies depth n w). cbv zeta.
  rewrite Hnet. destruct (status <? 400) eqn:Hc; [reflexivity|lia].
Qed.

Lemma download_pdf_ok (depth : nat) (result : link)
    (headers : list (string * string)) (dir : string)
    (proxies : option (list (string * string))) (n : Z) (doi : pyval)
    (w : world) (status : Z) (content : string) :
  url_valid E (onclick result) = true ->
  net E (length (sent w)) (pdf_request E result headers proxies)
  = Response status content ->
  status < 400 ->
  download_pdf E (S depth) result headers dir proxies n doi w
  = save_pdf E result dir doi content
      (add_sent (pdf_request E result headers proxies)
         (add_out (MsgDownloadingFile (pdf_url E result)) w)).
Proof.
  intros Hvalid Hnet Hlt.
  rewrite (download_pdf_step E result headers dir proxies doi Hvalid depth n
             w).
  cbv zeta.
  rewrite Hnet. destruct (status <? 400) eqn:Hc; [reflexivity|lia].
Qed.

Lemma makedirs_all_ok (paths : list string) (w : world) :
  (forall p, mkdir_ok E p = true) ->
  makedirs_all E paths w = (Ok tt, fold_left (fun v p => add_dir p v) paths w).
Proof.
  intros Hok. revert w.
  induction paths as [|p rest IH]; intros w; [reflexivity|].
  simpl. unfold bind, os_makedirs. rewrite Hok. apply IH.
Qed.

End Saving.

(** ** The end-to-end scenario *)

Section EndToEnd.

Variable E : env.

Lemma ends_with_char_app (c : ascii) (a b : string) :
  b <> "" ->
  PyStr.ends_with_char c (a ++ b) = PyStr.ends_with_char c b.
Proof.
  intros Hb. induction a as [|d a IH]; [reflexivity|].
  simpl. rewrite IH.
  destruct (a ++ b) eqn:Hab; [|reflexivity].
  destruct a; simpl in Hab; [contradiction|discriminate].
Qed.

Lemma append_assoc (a b c : string) : (a ++ b) ++ c = a ++ (b ++ c).
Proof.
  induction a as [|d a IH]; [reflexivity|].
  change (String d ((a ++ b) ++ c) = String d (a ++ b ++ c)).
  now f_equal.
Qed.

Lemma truthy_app (a b : string) :
  PyStr.truthy b = true -> PyStr.truthy (a ++ b) = true.
Proof. destruct a; simpl; auto. Qed.

(** The path of the saved file, for a plain target directory. *)
Lemma scenario_path (target_dir : string) :
  PyStr.truthy target_dir = true ->
  PyStr.ends_with_char "/"%char target_dir = false ->
  pdf_path (os_path_join target_dir "Q2") "Example Title"
  = target_dir ++ "/Q2/Example_Title.pdf".
Proof.
  intros Hne Hslash. unfold pdf_path.
  change (get_valid_filename "Example Title" default_name_len ++ ".pdf")
    with "Example_Title.pdf".
  unfold os_path_join at 2. rewrite Hne, Hslash. simpl.
  unfold os_path_join. simpl PyStr.starts_with_char.
  rewrite truthy_app by reflexivity.
  rewrite ends_with_char_app by discriminate. simpl.
  now rewrite !append_assoc.
Qed.

Lemma extracted_scenario (page : node) (button : node) :
  Html.get button "onclick" = Some "location.href='//mirror/file.pdf'" ->
  Html.strings (Html.xpath page citation_i_path) = [] ->
  Html.strings (Html.xpath page citation_path) = ["Example Title"] ->
  extracted page [button]
  = Ok {| title := "Example Title"; onclick := "//mirror/file.pdf" |}.
Proof.
  intros Hclick Hi Ht. unfold extracted. simpl scan_onclick.
  rewrite Hclick. simpl truthy_opt. cbv iota.
  change (Re.findall_first (Some "location.href='//mirror/file.pdf'"))
    with (@Ok string "//mirror/file.pdf").
  cbv beta iota zeta. rewrite Hi. simpl Nat.eqb. cbv iota.
  rewrite Ht. reflexivity.
Qed.

Lemma makedirs_all_in (paths : list string) (w : world) :
  (forall p, In p paths -> mkdir_ok E p = true) ->
  makedirs_all E paths w = (Ok tt, fold_left (fun v p => add_dir p v) paths w).
Proof.
  revert w. induction paths as [|p rest IH]; intros w Hok; [reflexivity|].
  simpl. unfold bind, os_makedirs. rewrite (Hok p) by now left.
  apply IH. intros q Hq. apply Hok. now right.
Qed.

(** The one turn of the scenario, under any policy outcome that lets the
    landing address through. *)
Lemma scenario_turn (depth : nat) (target_dir : string) (nol : bool)
    (rpo : option policy) (factor : atom) (c : Cache.t)
    (page button : node) (html content : string) (status1 status2 : Z)
    (w0 : world) :
  let cfg := scenario_config target_dir nol in
  let landing := "https://www.sci-hub.wf/10.1/abc" in
  let headers := [("User-Agent", "sheng")] in
  let file_url := "https://mirror/file.pdf" in
  let path := pdf_path (os_path_join target_dir "Q2") "Example Title" in
  let cached : gmap string string := {[ landing := file_url ]} in
  allowed rpo "sheng" landing nol = true ->
  Cache.cache c = ∅ ->
  net E (length (sent w0)) (page_request landing headers None)
  = Response status1 html ->
  status1 < 400 ->
  fromstring_str E html = Ok page ->
  Html.xpath page buttons_path = [button] ->
  Html.get button "onclick" = Some "location.href='//mirror/file.pdf'" ->
  Html.strings (Html.xpath page citation_i_path) = [] ->
  Html.strings (Html.xpath page citation_path) = ["Example Title"] ->
  url_valid E "//mirror/file.pdf" = true ->
  url_scheme E "//mirror/file.pdf" = "" ->
  net E (S (length (sent w0))) (page_request file_url headers None)
  = Response status2 content ->
  status2 < 400 ->
  writable E path = true ->
  exists domains : gmap string Z,
    crawl_loop E (S depth) cfg headers rpo
      [[AStr "10.1/abc"; factor; AStr "Q2"]] (initial_state (Some c)) w0
    = (Ok {| ls_cache := Some {| Cache.cache_dir := Cache.cache_dir c;
                                 Cache.cache := cached |};
             ls_domains := domains; download_succ_cnt := 1 |},
       scenario_world E c path content w0).
Proof.
  intros cfg landing headers file_url path cached Hallow Hempty Hnet1 Hs1
    Hparse Hbuttons Hclick Hti Htd Hvalid Hscheme Hnet2 Hs2 Hpw.
  unfold crawl_loop. unfold bind at 1.
  rewrite (crawl_step_allowed E (S depth) cfg headers rpo
             [AStr "10.1/abc"; factor; AStr "Q2"] (AStr "10.1/abc")
             (initial_state (Some c)) w0 eq_refl).
  2: { unfold cache_hit, Cache.__getitem__, initial_state. simpl ls_cache.
       cbv beta iota. rewrite Hempty. now rewrite lookup_empty. }
  2: { exact Hallow. }
  change (doi_parser (AStr "10.1/abc") (start_url cfg) (useSSL cfg))
    with landing.
  unfold fetch. unfold bind at 1. rewrite wait_unfold. cbv zeta.
  unfold initial_state. simpl ls_domains. rewrite lookup_empty.
  cbv beta iota. unfold bind at 1.
  change (proxies cfg) with (@None (list (string * string))).
  rewrite (download_ok E depth landing headers None (num_retries cfg) w0
             status1 html Hnet1 Hs1).
  cbv beta iota.
  set (w1 := add_sent _ _).
  assert (Hw1 : length (sent w1) = S (length (sent w0)))
    by (unfold w1; simpl; rewrite length_app, Nat.add_1_r; reflexivity).
  unfold bind at 1. rewrite get_link_xpath_unfold.
  unfold fromstring. rewrite Hparse. unfold controls. rewrite Hbuttons.
  rewrite (extracted_scenario page button Hclick Hti Htd).
  cbv beta iota.
  set (result := {| title := "Example Title"; onclick := "//mirror/file.pdf" |}).
  change (py_index [AStr "10.1/abc"; factor; AStr "Q2"] 2)
    with (@Ok atom (AStr "Q2")).
  unfold bind at 1, lift. cbv beta iota.
  unfold bind at 1, as_str. cbv beta iota.
  assert (Hurl : pdf_url E result = file_url).
  { unfold pdf_url. simpl onclick. rewrite Hscheme. reflexivity. }
  assert (Hreq : pdf_request E result headers None
                 = page_request file_url headers None).
  { unfold pdf_request. now rewrite Hurl. }
  unfold bind at 1. change (dir cfg) with target_dir.
  rewrite (download_pdf_ok E depth result headers
             (os_path_join target_dir "Q2") None (num_retries cfg)
             (Row [AStr "10.1/abc"; factor; AStr "Q2"]) w1 status2 content
             Hvalid)
    by (rewrite ?Hreq, ?Hw1; assumption).
  rewrite Hurl, Hreq.
  rewrite (save_pdf_named E result (os_path_join target_dir "Q2") _ content
             "Example Title") by reflexivity.
  fold path. rewrite Hpw. cbv beta iota.
  simpl ls_cache. unfold bind at 1. unfold bind at 1.
  rewrite setitem_unfold. cbv zeta. rewrite Hempty. unfold ret.
  cbv beta iota.
  change (<[landing := "https:" ++ onclick result]> (∅ : gmap string string))
    with cached.
  unfold bind, ret. cbv beta iota.
  eexists. reflexivity.
Qed.

(** The fields of the world at the end of the turn. *)
Lemma scenario_world_fields (c : Cache.t) (path content : string)
    (w0 : world) :
  let landing := "https://www.sci-hub.wf/10.1/abc" in
  let headers := [("User-Agent", "sheng")] in
  let file_url := "https://mirror/file.pdf" in
  let cached : gmap string string := {[ landing := file_url ]} in
  let w1 := scenario_world E c path content w0 in
  sent w1 = (sent w0 ++ [page_request landing headers None;
                         page_request file_url headers None])%list
  /\ disk w1
     = (if writable E (Cache.cache_dir c)
        then <[Cache.cache_dir c := JsonFile cached]>
               (<[path := BinFile content]> (disk w0))
        else <[path := BinFile content]> (disk w0))
  /\ out w1
     = (out w0 ++ [MsgDownloadingPage landing; MsgDownloadingFile file_url;
                   MsgFileSaved path]
        ++ (if writable E (Cache.cache_dir c) then []
            else [MsgCacheWriteError OSError]))%list
  /\ now w1 = now w0 /\ slept w1 = slept w0
  /\ robots_read w1 = robots_read w0 /\ dirs w1 = dirs w0.
Proof.
  cbv zeta. unfold scenario_world.
  destruct (writable E (Cache.cache_dir c)); simpl;
    rewrite <- ?app_assoc; simpl; repeat split; reflexivity.
Qed.

End EndToEnd.

(** C5, as the code has it.  The rows of the identifier list have three
    fields, the quartile being the third.  Take the list
    [[("10.1/abc", factor, "Q2")]], an empty cache, a robots policy that
    allows the landing address, a target directory that can be made together
    with its four quartile sub-directories, and a gateway whose landing page
    has one button with [onclick="location.href='//mirror/file.pdf'"] and the
    citation text ["Example Title"]; let both fetches be answered with a
    status below 400 and the file at [target_dir/Q2/Example_Title.pdf] be
    writable.  Then the run with the default options fetches the page and
    the file, saves the file at that path, leaves the cache object mapping
    the landing address to [https://mirror/file.pdf], and reports one success
    for one identifier.  The file is the only one written besides the cache
    file, which holds the same mapping when it can be written; when it cannot,
    that is printed and changes nothing else. *)
Theorem end_to_end_three_field_row (E : env) (depth : nat)
    (target_dir : string) (factor : atom) (c : Cache.t) (rp : policy)
    (page button : node) (html content : string) (status1 status2 : Z)
    (w : world) :
  let cfg := default_config target_dir in
  let landing := "https://www.sci-hub.wf/10.1/abc" in
  let headers := [("User-Agent", "sheng")] in
  let file_url := "https://mirror/file.pdf" in
  let path := pdf_path (os_path_join target_dir "Q2") "Example Title" in
  let cached : gmap string string := {[ landing := file_url ]} in
  Cache.cache c = ∅ ->
  robots E "https://www.sci-hub.wf/robots.txt" = Some rp ->
  rp "sheng" landing = true ->
  (forall p, In p (target_dir :: quartile_dirs cfg) -> mkdir_ok E p = true) ->
  net E (length (sent w)) (page_request landing headers None)
  = Response status1 html ->
  status1 < 400 ->
  fromstring_str E html = Ok page ->
  Html.xpath page buttons_path = [button] ->
  Html.get button "onclick" = Some "location.href='//mirror/file.pdf'" ->
  Html.strings (Html.xpath page citation_i_path) = [] ->
  Html.strings (Html.xpath page citation_path) = ["Example Title"] ->
  url_valid E "//mirror/file.pdf" = true ->
  url_scheme E "//mirror/file.pdf" = "" ->
  net E (S (length (sent w))) (page_request file_url headers None)
  = Response status2 content ->
  status2 < 400 ->
  writable E path = true ->
  exists (st : loop_state) (w' : world),
    sci_hub_crawler E (S depth) [[AStr "10.1/abc"; factor; AStr "Q2"]] cfg
      (Some c) w = (Ok st, w')
    /\ download_succ_cnt st = 1
    /\ ls_cache st = Some {| Cache.cache_dir := Cache.cache_dir c;
                             Cache.cache := cached |}
    /\ disk w' = (if writable E (Cache.cache_dir c)
                  then <[Cache.cache_dir c := JsonFile cached]>
                         (<[path := BinFile content]> (disk w))
                  else <[path := BinFile content]> (disk w))
    /\ (Cache.cache_dir c <> path ->
        disk w' !! path = Some (BinFile content))
    /\ (forall p : string,
          p <> path -> p <> Cache.cache_dir c -> disk w' !! p = disk w !! p)
    /\ sent w' = (sent w ++ [page_request landing headers None;
                             page_request file_url headers None])%list
    /\ out w' = (out w ++ [MsgStart; MsgDownloadingPage landing;
                           MsgDownloadingFile file_url; MsgFileSaved path]
                 ++ (if writable E (Cache.cache_dir c) then []
                     else [MsgCacheWriteError OSError])
                 ++ [MsgDone 1 1; MsgDone 1 1])%list
    /\ (PyStr.truthy target_dir = true ->
        PyStr.ends_with_char "/"%char target_dir = false ->
        path = target_dir ++ "/Q2/Example_Title.pdf").
Proof.
  intros cfg landing headers file_url path cached Hempty Hrobots Hallow Hmk
    Hnet1 Hs1 Hparse Hbuttons Hclick Hti Htd Hvalid Hscheme Hnet2 Hs2 Hpw.
  unfold sci_hub_crawler. cbv zeta.
  change (effective_robot_url cfg) with "https://www.sci-hub.wf/robots.txt".
  change (crawler_headers cfg) with headers.
  unfold bind at 1. rewrite (get_robot_parser_some E _ rp _ Hrobots).
  cbv beta iota.
  unfold bind at 1, os_makedirs. change (dir cfg) with target_dir.
  rewrite (Hmk target_dir) by now left.
  unfold bind at 1.
  rewrite (makedirs_all_in E (quartile_dirs cfg))
    by (intros p Hp; apply Hmk; now right).
  cbv beta iota. unfold bind at 1, print.
  set (w0 := add_out MsgStart _).
  assert (Hw0 : sent w0 = sent w) by reflexivity.
  assert (Hd0 : disk w0 = disk w) by reflexivity.
  assert (Ho0 : out w0 = (out w ++ [MsgStart])%list) by reflexivity.
  clearbody w0.
  destruct (scenario_turn E depth target_dir false (Some rp) factor c page
              button html content status1 status2 w0) as (domains & Hloop);
    try assumption.
  { unfold allowed. change (rp "sheng" landing || false = true).
    now rewrite Hallow. }
  { now rewrite Hw0. }
  { now rewrite Hw0. }
  unfold bind at 1.
  change (crawl_loop E (S depth) cfg headers (Some rp)
            [[AStr "10.1/abc"; factor; AStr "Q2"]]
            {| ls_cache := Some c; ls_domains := ∅; download_succ_cnt := 0 |}
            w0)
    with (crawl_loop E (S depth) (scenario_config target_dir false)
            [("User-Agent", "sheng")] (Some rp)
            [[AStr "10.1/abc"; factor; AStr "Q2"]] (initial_state (Some c))
            w0).
  rewrite Hloop. cbv beta iota.
  destruct (scenario_world_fields E c path content w0)
    as (Hsent & Hdisk & Hout & _).
  fold path. set (w1 := scenario_world E c path content w0) in *.
  clearbody w1.
  unfold bind, print, ret. cbv beta iota.
  eexists _, _. split; [reflexivity|].
  split; [reflexivity|]. split; [reflexivity|]. simpl.
  rewrite Hdisk, Hsent, Hout, Hd0, Hw0, Ho0.
  split; [reflexivity|]. split.
  { intros Hcp. destruct (writable E (Cache.cache_dir c)).
    - rewrite lookup_insert_ne by exact Hcp. apply lookup_insert_eq.
    - apply lookup_insert_eq. }
  split.
  { intros p Hp Hc. destruct (writable E (Cache.cache_dir c)).
    - rewrite lookup_insert_ne by congruence.
      now rewrite lookup_insert_ne by congruence.
    - now rewrite lookup_insert_ne by congruence. }
  split; [reflexivity|]. split.
  { destruct (writable E (Cache.cache_dir c)); rewrite <- !app_assoc;
      reflexivity. }
  apply scenario_path.
Qed.

(** The scenario run on a concrete gateway, with the target directory
    [papers]. *)
Lemma end_to_end_three_field_row_witness :
  exists (st : loop_state) (w' : world),
    sci_hub_crawler (Scenario.gateway "Example Title") 3 [Scenario.row]
      (default_config "papers") (Some Scenario.empty_cache) Scenario.world0
    = (Ok st, w')
    /\ download_succ_cnt st = 1
    /\ disk w' !! "papers/Q2/Example_Title.pdf" = Some (BinFile "%PDF-1.4").
Proof.
  destruct (end_to_end_three_field_row (Scenario.gateway "Example Title") 2
              "papers" (ANum "1.5") Scenario.empty_cache Scenario.allow_all
              (Scenario.landing_page "Example Title")
              (Elem "button"
                 [("onclick", "location.href='//mirror/file.pdf'")]
                 [Text "save"])
              "<html>landing</html>" "%PDF-1.4" 200 200 Scenario.world0)
    as (st & w' & Hrun & Hcnt & _ & _ & Hfile & _).
  - reflexivity.
  - reflexivity.
  - reflexivity.
  - intros p _. reflexivity.
  - reflexivity.
  - lia.
  - reflexivity.
  - reflexivity.
  - reflexivity.
  - reflexivity.
  - reflexivity.
  - reflexivity.
  - reflexivity.
  - reflexivity.
  - lia.
  - reflexivity.
  - exists st, w'. split; [exact Hrun|]. split; [exact Hcnt|].
    apply Hfile. intros H. vm_compute in H. discriminate H.
Defined.

(** C5, as stated, fails: on the two-field row [("10.1/abc", "Q2")] the page
    is fetched and parsed, and then [doi[2]] raises [IndexError]; no file is
    requested or saved, the cache stays empty and no count is reported. *)
Lemma end_to_end_pair_raises_IndexError :
  let run := sci_hub_crawler (Scenario.gateway "Example Title") 3
               [Scenario.pair] (default_config "papers")
               (Some Scenario.empty_cache) Scenario.world0 in
  fst run = Raise IndexError
  /\ disk (snd run) = ∅
  /\ sent (snd run)
     = [page_request Scenario.landing_url [("User-Agent", "sheng")] None]
  /\ out (snd run)
     = [MsgStart; MsgDownloadingPage Scenario.landing_url].
Proof. cbv zeta. repeat split; vm_compute; reflexivity. Qed.

(** ** Without a policy *)

Section MissingPolicy.

Variable E : env.

Lemma add_outs_fields (ms : list msg) (w : world) :
  let w' := fold_left (fun v m => add_out m v) ms w in
  now w' = now w /\ disk w' = disk w /\ sent w' = sent w
  /\ slept w' = slept w /\ out w' = (out w ++ ms)%list.
Proof.
  cbv zeta. revert w. induction ms as [|m ms IH]; intros w; simpl.
  - rewrite app_nil_r. tauto.
  - destruct (IH (add_out m w)) as (? & ? & ? & ? & Ho).
    simpl in *. rewrite Ho, <- app_assoc. tauto.
Qed.

Lemma add_dirs_fields (made : list string) (w : world) :
  now (add_dirs made w) = now w /\ disk (add_dirs made w) = disk w
  /\ sent (add_dirs made w) = sent w /\ slept (add_dirs made w) = slept w
  /\ out (add_dirs made w) = out w
  /\ robots_read (add_dirs made w) = robots_read w
  /\ dirs (add_dirs made w) = (dirs w ++ made)%list.
Proof.
  revert w. induction made as [|p made IH]; intros w; simpl.
  - rewrite app_nil_r. tauto.
  - destruct (IH (add_dir p w)) as (? & ? & ? & ? & ? & ? & Hd).
    simpl in *. rewrite Hd, <- app_assoc. tauto.
Qed.

Lemma sci_hub_crawler_with_policy (depth : nat) (doi_list : list entry)
    (cfg : config) (cache : option Cache.t) (w : world) :
  sci_hub_crawler E depth doi_list cfg cache w
  = (rp <- get_robot_parser E (effective_robot_url cfg) ;;
     crawl_with_policy E depth doi_list cfg cache rp) w.
Proof. reflexivity. Qed.

(** With the override on, the loop does not look at the policy. *)
Lemma crawl_loop_nolimit (depth : nat) (cfg : config)
    (headers : list (string * string)) (rp rp' : option policy)
    (doi_list : list entry) (st : loop_state) (w : world) :
  nolimit cfg = true ->
  crawl_loop E depth cfg headers rp doi_list st w
  = crawl_loop E depth cfg headers rp' doi_list st w.
Proof.
  intros Hyes. revert st w.
  induction doi_list as [|doi rest IH]; intros st w; [reflexivity|].
  simpl. unfold bind.
  assert (Hstep : crawl_step E depth cfg headers rp doi st w
                  = crawl_step E depth cfg headers rp' doi st w).
  { unfold crawl_step, bind, lift.
    destruct (py_index doi 0) as [doi0|e]; [|reflexivity]. cbv zeta.
    destruct (cache_hit _ _); [reflexivity|].
    unfold allowed. rewrite Hyes, !orb_true_r. reflexivity. }
  rewrite Hstep.
  destruct (crawl_step E depth cfg headers rp' doi st w) as [[st1|e] w1];
    [apply IH|reflexivity].
Qed.

(** Without a policy and without the override, the loop reports every row and
    changes nothing but the counter and the output. *)
Lemma crawl_loop_blocked_reports (depth : nat) (cfg : config)
    (headers : list (string * string)) (doi_list : list entry)
    (ids : list atom) (st : loop_state) (w : world) :
  nolimit cfg = false ->
  Forall2 (fun doi d => py_index doi 0 = Ok d) doi_list ids ->
  crawl_loop E depth cfg headers None doi_list st w
  = (Ok {| ls_cache := ls_cache st; ls_domains := ls_domains st;
           download_succ_cnt :=
             download_succ_cnt st
             + Z.of_nat (length (List.filter (is_hit cfg (ls_cache st)) ids))
        |},
     fold_left (fun v m => add_out m v)
       (List.map (blocked_report cfg (ls_cache st)) ids) w).
Proof.
  intros Hno Hids. revert st w.
  induction Hids as [|doi d rest ids' Hd _ IH]; intros st w.
  - destruct st as [c doms n]. simpl. now rewrite Z.add_0_r.
  - simpl crawl_loop. unfold bind. cbn [List.map List.filter fold_left].
    destruct (cache_hit (ls_cache st)
                (doi_parser d (start_url cfg) (useSSL cfg))) as [v|] eqn:Hhit.
    + assert (Hb : blocked_report cfg (ls_cache st) d = MsgCached v)
        by (unfold blocked_report; cbv zeta; now rewrite Hhit).
      assert (Hi : is_hit cfg (ls_cache st) d = true)
        by (unfold is_hit; now rewrite Hhit).
      rewrite (crawl_step_cache_hit E depth cfg headers None doi d st w v Hd
                 Hhit).
      rewrite (IH (counted st) (add_out (MsgCached v) w)).
      change (ls_cache (counted st)) with (ls_cache st).
      change (ls_domains (counted st)) with (ls_domains st).
      change (download_succ_cnt (counted st))
        with (download_succ_cnt st + 1).
      rewrite Hb, Hi. cbn [length]. do 3 f_equal. lia.
    + assert (Hb : blocked_report cfg (ls_cache st) d
                   = MsgBlocked (doi_parser d (start_url cfg) (useSSL cfg)))
        by (unfold blocked_report; cbv zeta; now rewrite Hhit).
      assert (Hi : is_hit cfg (ls_cache st) d = false)
        by (unfold is_hit; now rewrite Hhit).
      rewrite (crawl_step_blocked E depth cfg headers None doi d st w Hd
                 Hhit)
        by (unfold allowed; now rewrite Hno).
      rewrite (IH st (add_out (MsgBlocked _) w)).
      now rewrite Hb, Hi.
Qed.

End MissingPolicy.

(** C6.  Take a run whose robots file cannot be read: [get_robot_parser]
    prints the error and returns [None], and the run goes on.
    - With [nolimit] off the run sends no request at all, whatever the list.
      When the directories can be made and every row has an identifier, it
      ends normally, and what it prints between the start message and the
      report is, row by row and in order, the cached value for a cache hit and
      the notice that the address is blocked for every other identifier; the
      count is the number of cache hits, and the cache, the disk and the
      clock are as they were.
    - With [nolimit] on the run is, from the line after the policy is read,
      the very run of a policy that allows every address.  A turn for an
      identifier that is no cache hit is the pipeline, and its first request
      is the one for the landing page; and on the gateway of the end-to-end
      scenario the run goes through the whole pipeline: the page and the file
      are requested, the file is saved, the address is stored in the cache
      and one success is counted. *)
Theorem missing_policy_blocks_unless_nolimit (E : env) (depth : nat)
    (cfg : config) :
  robots E (effective_robot_url cfg) = None ->
  let w_read := fun w : world =>
    add_out (MsgRobotsError OSError)
      (add_robots_read (effective_robot_url cfg) w) in
  (forall w : world,
     get_robot_parser E (effective_robot_url cfg) w = (Ok None, w_read w))
  /\ (nolimit cfg = false ->
      (forall (doi_list : list entry) (cache : option Cache.t) (w : world),
         sent (snd (sci_hub_crawler E depth doi_list cfg cache w)) = sent w)
      /\ (forall (doi_list : list entry) (ids : list atom)
                 (cache : option Cache.t) (w : world),
            (forall p, In p (dir cfg :: quartile_dirs cfg) ->
                       mkdir_ok E p = true) ->
            Forall2 (fun doi d => py_index doi 0 = Ok d) doi_list ids ->
            exists (st : loop_state) (w' : world),
              sci_hub_crawler E depth doi_list cfg cache w = (Ok st, w')
              /\ ls_cache st = cache
              /\ download_succ_cnt st
                 = Z.of_nat (length (List.filter (is_hit cfg cache) ids))
              /\ sent w' = sent w
              /\ disk w' = disk w
              /\ slept w' = slept w
              /\ now w' = now w
              /\ out w'
                 = (out w ++ [MsgRobotsError OSError; MsgStart]
                    ++ List.map (blocked_report cfg cache) ids
                    ++ [MsgDone (Z.of_nat (length doi_list))
                          (download_succ_cnt st);
                        MsgDone (Z.of_nat (length doi_list))
                          (download_succ_cnt st)])%list)
      /\ (forall (headers : list (string * string)) (doi : entry)
                 (doi0 : atom) (st : loop_state) (w : world),
            py_index doi 0 = Ok doi0 ->
            cache_hit (ls_cache st)
              (doi_parser doi0 (start_url cfg) (useSSL cfg)) = None ->
            crawl_step E depth cfg headers None doi st w
            = (Ok st,
               add_out
                 (MsgBlocked (doi_parser doi0 (start_url cfg) (useSSL cfg)))
                 w)))
  /\ (nolimit cfg = true ->
      (forall (doi_list : list entry) (cache : option Cache.t) (w : world),
         sci_hub_crawler E depth doi_list cfg cache w
         = crawl_with_policy E depth doi_list cfg cache
             (Some (fun _ _ => true)) (w_read w))
      /\ (forall (headers : list (string * string)) (doi : entry)
                 (doi0 : atom) (st : loop_state) (w : world),
            py_index doi 0 = Ok doi0 ->
            cache_hit (ls_cache st)
              (doi_parser doi0 (start_url cfg) (useSSL cfg)) = None ->
            crawl_step E depth cfg headers None doi st w
            = fetch E depth cfg headers
                (doi_parser doi0 (start_url cfg) (useSSL cfg)) doi st w
            /\ ((0 < depth)%nat ->
                exists later : list request,
                  sent (snd (crawl_step E depth cfg headers None doi st w))
                  = (sent w
                     ++ page_request
                          (doi_parser doi0 (start_url cfg) (useSSL cfg))
                          headers (proxies cfg) :: later)%list))
      /\ (forall (d : nat) (target_dir : string) (factor : atom)
                 (c : Cache.t) (page button : node) (html content : string)
                 (status1 status2 : Z) (w : world),
            let landing := "https://www.sci-hub.wf/10.1/abc" in
            let headers := [("User-Agent", "sheng")] in
            let file_url := "https://mirror/file.pdf" in
            let path :=
              pdf_path (os_path_join target_dir "Q2") "Example Title" in
            let cached : gmap string string := {[ landing := file_url ]} in
            depth = S d ->
            cfg = scenario_config target_dir true ->
            Cache.cache c = ∅ ->
            (forall p, In p (dir cfg :: quartile_dirs cfg) ->
                       mkdir_ok E p = true) ->
            net E (length (sent w)) (page_request landing headers None)
            = Response status1 html ->
            status1 < 400 ->
            fromstring_str E html = Ok page ->
            Html.xpath page buttons_path = [button] ->
            Html.get button "onclick"
            = Some "location.href='//mirror/file.pdf'" ->
            Html.strings (Html.xpath page citation_i_path) = [] ->
            Html.strings (Html.xpath page citation_path)
            = ["Example Title"] ->
            url_valid E "//mirror/file.pdf" = true ->
            url_scheme E "//mirror/file.pdf" = "" ->
            net E (S (length (sent w))) (page_request file_url headers None)
            = Response status2 content ->
            status2 < 400 ->
            writable E path = true ->
            exists (st : loop_state) (w' : world),
              sci_hub_crawler E depth [[AStr "10.1/abc"; factor; AStr "Q2"]]
                cfg (Some c) w = (Ok st, w')
              /\ download_succ_cnt st = 1
              /\ ls_cache st
                 = Some {| Cache.cache_dir := Cache.cache_dir c;
                           Cache.cache := cached |}
              /\ sent w'
                 = (sent w ++ [page_request landing headers None;
                               page_request file_url headers None])%list
              /\ (Cache.cache_dir c <> path ->
                  disk w' !! path = Some (BinFile content))
              /\ out w'
                 = (out w ++ [MsgRobotsError OSError; MsgStart;
                              MsgDownloadingPage landing;
                              MsgDownloadingFile file_url; MsgFileSaved path]
                    ++ (if writable E (Cache.cache_dir c) then []
                        else [MsgCacheWriteError OSError])
                    ++ [MsgDone 1 1; MsgDone 1 1])%list)).
Proof.
  intros Hrobots w_read.
  assert (Hread : forall w : world,
            get_robot_parser E (effective_robot_url cfg) w
            = (Ok None, w_read w))
    by (intros w; now apply get_robot_parser_none).
  split; [exact Hread|]. split.
  - intros Hno. split; [|split].
    + intros doi_list cache w.
      now apply sci_hub_crawler_blocked_sends_nothing.
    + intros doi_list ids cache w Hmk Hids.
      rewrite sci_hub_crawler_with_policy. unfold bind at 1.
      rewrite Hread. cbv beta iota. unfold crawl_with_policy.
      unfold bind at 1, os_makedirs. rewrite (Hmk (dir cfg)) by now left.
      unfold bind at 1.
      rewrite (makedirs_all_in E (quartile_dirs cfg))
        by (intros p Hp; apply Hmk; now right).
      cbv beta iota. unfold bind at 1, print. unfold bind at 1.
      rewrite (crawl_loop_blocked_reports E depth cfg (crawler_headers cfg)
                 doi_list ids (initial_state cache) _ Hno Hids).
      cbv beta iota.
      destruct (add_dirs_fields (quartile_dirs cfg)
                  (add_dir (dir cfg) (w_read w)))
        as (Hn' & Hd' & Hs' & Hz' & Ho' & _).
      change (fold_left (fun v p => add_dir p v) (quartile_dirs cfg)
                (add_dir (dir cfg) (w_read w)))
        with (add_dirs (quartile_dirs cfg) (add_dir (dir cfg) (w_read w))).
      set (wd := add_dirs (quartile_dirs cfg) _) in *. clearbody wd.
      simpl in Hn', Hd', Hs', Hz', Ho'.
      destruct (add_outs_fields (List.map (blocked_report cfg cache) ids)
                  (add_out MsgStart wd)) as (Hn & Hd & Hs & Hz & Ho).
      simpl in Hn, Hd, Hs, Hz, Ho.
      rewrite Hn' in Hn. rewrite Hd' in Hd. rewrite Hs' in Hs.
      rewrite Hz' in Hz. rewrite Ho' in Ho.
      clear Hn' Hd' Hs' Hz' Ho'.
      simpl ls_cache. simpl download_succ_cnt.
      set (wl := fold_left (fun v m => add_out m v) _ _) in *.
      clearbody wl.
      unfold bind, print, ret. cbv beta iota.
      eexists _, _. split; [reflexivity|].
      split; [reflexivity|]. split; [reflexivity|]. simpl.
      rewrite Hs, Hd, Hz, Hn, Ho.
      repeat split; try reflexivity.
      rewrite <- !app_assoc. reflexivity.
    + intros headers doi doi0 st w Hdoi Hmiss.
      apply (crawl_step_blocked E depth cfg headers None doi doi0 st w Hdoi
               Hmiss).
      unfold allowed. now rewrite Hno.
  - intros Hyes. split; [|split].
    + intros doi_list cache w.
      rewrite sci_hub_crawler_with_policy. unfold bind at 1.
      rewrite Hread. cbv beta iota. unfold crawl_with_policy.
      unfold bind.
      destruct (os_makedirs E (dir cfg) (w_read w)) as [[u|e] w1];
        [|reflexivity].
      destruct (makedirs_all E (quartile_dirs cfg) w1) as [[u2|e] w2];
        [|reflexivity].
      destruct (print MsgStart w2) as [[u3|e] w3]; [|reflexivity].
      now rewrite (crawl_loop_nolimit E depth cfg (crawler_headers cfg) None
                     (Some (fun _ _ => true)) doi_list (initial_state cache)
                     w3 Hyes).
    + intros headers doi doi0 st w Hdoi Hmiss.
      assert (Hnone : crawl_step E depth cfg headers None doi st w
                      = fetch E depth cfg headers
                          (doi_parser doi0 (start_url cfg) (useSSL cfg)) doi
                          st w).
      { apply (crawl_step_allowed E depth cfg headers None doi doi0 st w Hdoi
                 Hmiss).
        unfold allowed. now rewrite Hyes. }
      split; [exact Hnone|].
      intros Hdepth. rewrite Hnone. now apply fetch_sends_landing_first.
    + intros d target_dir factor c page button html content status1 status2
        w landing headers file_url path cached Hdepth Hcfg Hempty Hmk Hnet1
        Hs1 Hparse Hbuttons Hclick Hti Htd Hvalid Hscheme Hnet2 Hs2 Hpw.
      rewrite sci_hub_crawler_with_policy. unfold bind at 1.
      rewrite Hread. cbv beta iota. unfold crawl_with_policy.
      unfold bind at 1, os_makedirs. rewrite (Hmk (dir cfg)) by now left.
      unfold bind at 1.
      rewrite (makedirs_all_in E (quartile_dirs cfg))
        by (intros p Hp; apply Hmk; now right).
      cbv beta iota. unfold bind at 1, print.
      destruct (add_dirs_fields (quartile_dirs cfg)
                  (add_dir (dir cfg) (w_read w)))
        as (_ & Hd' & Hs' & _ & Ho' & _).
      change (fold_left (fun v p => add_dir p v) (quartile_dirs cfg)
                (add_dir (dir cfg) (w_read w)))
        with (add_dirs (quartile_dirs cfg) (add_dir (dir cfg) (w_read w))).
      set (wd := add_dirs (quartile_dirs cfg) _) in *. clearbody wd.
      simpl in Hd', Hs', Ho'.
      set (w0 := add_out MsgStart wd).
      assert (Hw0 : sent w0 = sent w) by exact Hs'.
      assert (Hd0 : disk w0 = disk w) by exact Hd'.
      assert (Ho0 : out w0 = (out w ++ [MsgRobotsError OSError; MsgStart])%list)
        by (unfold w0; simpl; rewrite Ho', <- app_assoc; reflexivity).
      clearbody w0. subst depth cfg.
      destruct (scenario_turn E d target_dir true None factor c page button
                  html content status1 status2 w0) as (domains & Hloop);
        try assumption; try reflexivity.
      { now rewrite Hw0. }
      { now rewrite Hw0. }
      unfold bind at 1.
      change (crawler_headers (scenario_config target_dir true))
        with [("User-Agent", "sheng")].
      rewrite Hloop. cbv beta iota.
      destruct (scenario_world_fields E c path content w0)
        as (Hsent & Hdisk & Hout & _).
      fold path. set (w1 := scenario_world E c path content w0) in *.
      clearbody w1.
      unfold bind, print, ret. cbv beta iota.
      eexists _, _. split; [reflexivity|].
      split; [reflexivity|]. split; [reflexivity|]. simpl.
      rewrite Hdisk, Hsent, Hout, Hd0, Hw0, Ho0.
      split; [reflexivity|]. split.
      { intros Hcp. destruct (writable E (Cache.cache_dir c)).
        - rewrite lookup_insert_ne by exact Hcp. apply lookup_insert_eq.
        - apply lookup_insert_eq. }
      destruct (writable E (Cache.cache_dir c)); rewrite <- !app_assoc;
        reflexivity.
Qed.

(** With the robots file out of reach and the defaults, the run on one row
    sends nothing and reports the identifier as blocked. *)
Lemma missing_policy_blocks_unless_nolimit_witness :
  exists (st : loop_state) (w' : world),
    sci_hub_crawler Scenario.offline 3 [Scenario.row]
      (default_config "papers") None Scenario.world0 = (Ok st, w')
    /\ sent w' = []
    /\ out w' = [MsgRobotsError OSError; MsgStart;
                 MsgBlocked Scenario.landing_url; MsgDone 1 0; MsgDone 1 0].
Proof.
  destruct (missing_policy_blocks_unless_nolimit Scenario.offline 3
              (default_config "papers")) as (_ & Hoff & _).
  - reflexivity.
  - destruct Hoff as (_ & Hreport & _); [reflexivity|].
    destruct (Hreport [Scenario.row] [AStr "10.1/abc"] None Scenario.world0)
      as (st & w' & Hrun & _ & Hcnt & Hsent & _ & _ & _ & Hout).
    + intros p _. reflexivity.
    + repeat constructor.
    + exists st, w'. split; [exact Hrun|]. split; [exact Hsent|].
      rewrite Hout, Hcnt. reflexivity.
Defined.

(** C4 on the code.  The orchestrator hands [download_pdf] the whole row as
    the fallback name.  With a title of fewer than five characters the
    fallback is taken, [re.sub] is given a list, and the run ends in a
    [TypeError] after the file was fetched, with nothing saved.  Called with
    the identifier itself, as its signature announces, [download_pdf] saves
    the file under the sanitised identifier. *)
Theorem short_title_fallback_is_the_row :
  let run := sci_hub_crawler (Scenario.gateway "Abc") 3 [Scenario.row]
               (default_config "papers") (Some Scenario.empty_cache)
               Scenario.world0 in
  let direct := download_pdf
                  (Scenario.make_env (Scenario.always 200 "%PDF-1.4")
                     Scenario.no_parse None)
                  3 {| title := "Abc"; onclick := "//mirror/file.pdf" |}
                  [("User-Agent", "sheng")] "papers/Q2" None 2
                  (Atom (AStr "10.1/abc")) Scenario.world0 in
  fst run = Raise TypeError
  /\ disk (snd run) = ∅
  /\ length (sent (snd run)) = 2%nat
  /\ fst direct = Ok true
  /\ disk (snd direct) = {[ "papers/Q2/10.1_abc.pdf" := BinFile "%PDF-1.4" ]}.
Proof. cbv zeta. repeat split; vm_compute; reflexivity. Qed.

(* ===================================================================== *)
(** * Further properties of the code                                       *)
(* ===================================================================== *)

(** ** File names, for any length *)

Section FilenameAnyLength.

Lemma slice_to_length (n : Z) (s : string) :
  PyStr.len (PyStr.slice_to n s)
  = if 0 <=? n then Z.min n (PyStr.len s) else Z.max 0 (PyStr.len s + n).
Proof.
  unfold PyStr.slice_to, PyStr.len.
  destruct (0 <=? n) eqn:Hn; rewrite take_length; lia.
Qed.

Lemma slice_to_all (p : ascii -> bool) (n : Z) (s : string) :
  PyStr.all p s = true -> PyStr.all p (PyStr.slice_to n s) = true.
Proof.
  unfold PyStr.slice_to. destruct (0 <=? n); apply all_take.
Qed.

End FilenameAnyLength.

(** X1.  For every string and every [name_len], negative ones included, the
    result of [get_valid_filename] holds characters of the class only.  Its
    length is [min(name_len, len)] for [name_len >= 0], and [max(0, len +
    name_len)] for a negative [name_len], which cuts that many characters off
    the end.  Applied again with the same [name_len], it gives the same name
    when [name_len >= 0], and cuts once more when it is negative. *)
Theorem get_valid_filename_any_length (s : string) (n : Z) :
  let r := get_valid_filename s n in
  PyStr.all allowed_char r = true
  /\ PyStr.len r
     = (if 0 <=? n then Z.min n (PyStr.len s)
        else Z.max 0 (PyStr.len s + n))
  /\ (if 0 <=? n then get_valid_filename r n = r
      else PyStr.len (get_valid_filename r n)
           = Z.max 0 (PyStr.len s + n + n)).
Proof.
  cbv zeta. unfold get_valid_filename.
  set (m := PyStr.map sub_char s).
  assert (Hm : PyStr.all allowed_char m = true) by apply map_sub_char_allowed.
  assert (Hlen : PyStr.len m = PyStr.len s)
    by (unfold PyStr.len, m; now rewrite map_length).
  assert (Hr : PyStr.all allowed_char (PyStr.slice_to n m) = true)
    by now apply slice_to_all.
  split; [exact Hr|]. split; [now rewrite slice_to_length, Hlen|].
  rewrite (map_sub_char_fixed _ Hr).
  destruct (0 <=? n) eqn:Hn.
  - unfold PyStr.slice_to at 1. rewrite Hn. apply take_all.
    pose proof (slice_to_length n m) as H. rewrite Hn in H.
    unfold PyStr.len in H. lia.
  - rewrite slice_to_length, Hn, slice_to_length, Hn, Hlen. lia.
Qed.

(** ** The address of the file *)

Section PdfUrl.

Lemma string_app_cons (c : ascii) (a b : string) :
  String c a ++ b = String c (a ++ b).
Proof. reflexivity. Qed.

Lemma remove_char_app (c : ascii) (a b : string) :
  PyStr.remove_char c (a ++ b)
  = PyStr.remove_char c a ++ PyStr.remove_char c b.
Proof.
  induction a as [|d a IH]; [reflexivity|].
  rewrite string_app_cons. simpl PyStr.remove_char.
  destruct (PyStr.ascii_eqb c d); [exact IH|].
  rewrite string_app_cons. now f_equal.
Qed.

Lemma remove_char_gone (c : ascii) (s : string) :
  PyStr.all (fun d => negb (PyStr.ascii_eqb c d)) (PyStr.remove_char c s)
  = true.
Proof.
  induction s as [|d s IH]; [reflexivity|]. simpl.
  destruct (PyStr.ascii_eqb c d) eqn:Hcd; [exact IH|].
  simpl. now rewrite Hcd, IH.
Qed.

Lemma remove_char_absent (c : ascii) (s : string) :
  PyStr.all (fun d => negb (PyStr.ascii_eqb c d)) s = true ->
  PyStr.remove_char c s = s.
Proof.
  induction s as [|d s IH]; [reflexivity|]. simpl. intros H.
  apply andb_true_iff in H as [Hd Hs].
  apply negb_true_iff in Hd. rewrite Hd. now rewrite IH.
Qed.

End PdfUrl.

(** X2.  The address [download_pdf] requests never holds a backslash.  It is
    the extracted address with its backslashes removed, behind [https:] when
    [urlparse] finds no scheme in the extracted address and as it stands
    otherwise; removing the backslashes from it a second time changes
    nothing. *)
Theorem pdf_url_is_backslash_free (E : env) (result : link) :
  PyStr.all (fun d => negb (PyStr.ascii_eqb "\"%char d)) (pdf_url E result)
  = true
  /\ pdf_url E result
     = (if PyStr.truthy (url_scheme E (onclick result)) then "" else "https:")
       ++ PyStr.remove_char "\"%char (onclick result)
  /\ PyStr.remove_char "\"%char (pdf_url E result) = pdf_url E result.
Proof.
  assert (Hfree : PyStr.all (fun d => negb (PyStr.ascii_eqb "\"%char d))
                    (pdf_url E result) = true)
    by (unfold pdf_url; apply remove_char_gone).
  split; [exact Hfree|]. split.
  - unfold pdf_url.
    destruct (PyStr.truthy (url_scheme E (onclick result))); simpl negb;
      cbv iota; [reflexivity|].
    now rewrite remove_char_app.
  - now apply remove_char_absent.
Qed.

(** ** What the downloaders return, and when *)

Section Trace.

Variable E : env.

Lemma after_rounds_sent (r : request) (announce : msg) (k : nat) (w : world) :
  sent (after_rounds r announce k w) = (sent w ++ repeat r k)%list.
Proof.
  revert w. induction k as [|k IH]; intros w; simpl.
  - now rewrite app_nil_r.
  - rewrite IH. simpl. now rewrite <- app_assoc.
Qed.

Lemma after_rounds_rest (r : request) (announce : msg) (k : nat) (w : world) :
  disk (after_rounds r announce k w) = disk w
  /\ now (after_rounds r announce k w) = now w
  /\ slept (after_rounds r announce k w) = slept w
  /\ robots_read (after_rounds r announce k w) = robots_read w
  /\ dirs (after_rounds r announce k w) = dirs w.
Proof.
  revert w. induction k as [|k IH]; intros w; simpl; [tauto|].
  destruct (IH (add_sent r (add_out announce w))) as (? & ? & ? & ? & ?).
  tauto.
Qed.

Lemma after_rounds_succ (r : request) (announce : msg) (k : nat) (w : world) :
  after_rounds r announce (S k) w
  = add_sent r (add_out announce (after_rounds r announce k w)).
Proof.
  revert w. induction k as [|k IH]; intros w; [reflexivity|].
  change (after_rounds r announce (S (S k)) w)
    with (after_rounds r announce (S k) (add_sent r (add_out announce w))).
  now rewrite IH.
Qed.

(** How a run of a downloader that follows the discipline ends: after [k]
    replies with a 5xx status that were retried, either the room for nested
    calls is used up, or the next reply settles the call. *)
Lemma discipline_trace {A : Type} (r : request) (announce : msg)
    (run : nat -> Z -> M A) (success : string -> M A) (failure : A)
    (failed : Z -> msg) (errored : msg) :
  retries_on_5xx_only E r announce run success failure failed errored ->
  forall (depth : nat) (n : Z) (w : world),
  exists k : nat,
    (k <= depth)%nat
    /\ (forall i : nat, (i < k)%nat ->
          is_5xx_reply (reply_at E r w i) = true /\ n - Z.of_nat i <> 0)
    /\ ((k = depth
         /\ run depth n w
            = run O (n - Z.of_nat k) (after_rounds r announce k w))
        \/ ((k < depth)%nat
            /\ is_5xx_reply (reply_at E r w k) && negb (n - Z.of_nat k =? 0)
               = false
            /\ run depth n w =
               let w1 := after_rounds r announce (S k) w in
               match reply_at E r w k with
               | Response status body =>
                   if status <? 400 then success body w1
                   else (Ok failure, add_out (failed status) w1)
               | TransportError => (Ok failure, add_out errored w1)
               end)).
Proof.
  intros Hstep depth. induction depth as [|d IH]; intros n w.
  - exists O. split; [lia|]. split; [intros i Hi; lia|].
    left. split; [reflexivity|]. simpl. now rewrite Z.sub_0_r.
  - rewrite Hstep. cbv zeta.
    set (w1 := add_sent r (add_out announce w)).
    assert (Hlen : length (sent w1) = S (length (sent w)))
      by (unfold w1; simpl; rewrite length_app; simpl; lia).
    assert (Hat : forall i, reply_at E r w1 i = reply_at E r w (S i)).
    { intros i. unfold reply_at. rewrite Hlen. f_equal. lia. }
    assert (H0 : net E (length (sent w)) r = reply_at E r w 0)
      by (unfold reply_at; f_equal; lia).
    rewrite H0.
    destruct (reply_at E r w 0) as [status body|] eqn:Hreply.
    + destruct (status <? 400) eqn:Hlt.
      * exists O. split; [lia|]. split; [intros i Hi; lia|].
        right. split; [lia|]. rewrite Hreply. simpl.
        unfold is_5xx. rewrite Hlt. split; [|reflexivity].
        destruct (500 <=? status) eqn:H5; [lia|reflexivity].
      * destruct (is_5xx status && negb (n =? 0)) eqn:Hretry.
        -- apply andb_true_iff in Hretry as [H5 Hn0].
           apply negb_true_iff, Z.eqb_neq in Hn0.
           destruct (IH (n - 1) w1) as (k & Hk & Hbefore & Hend).
           exists (S k). split; [lia|]. split.
           { intros [|i] Hi.
             - rewrite Hreply. simpl. split; [exact H5|lia].
             - destruct (Hbefore i) as [Hb Hne]; [lia|].
               rewrite Hat in Hb. split; [exact Hb|lia]. }
           replace (n - Z.of_nat (S k)) with (n - 1 - Z.of_nat k) by lia.
           destruct Hend as [[Hkd Hrun]|(Hkd & Hstop & Hrun)].
           ++ left. split; [lia|]. rewrite Hrun, Hkd. reflexivity.
           ++ right. split; [lia|]. rewrite <- Hat. split; [exact Hstop|].
              rewrite Hrun. reflexivity.
        -- exists O. split; [lia|]. split; [intros i Hi; lia|].
           right. split; [lia|]. rewrite Hreply. simpl.
           rewrite Z.sub_0_r. split; [exact Hretry|]. now rewrite Hlt.
    + exists O. split; [lia|]. split; [intros i Hi; lia|].
      right. split; [lia|]. rewrite Hreply. split; reflexivity.
Qed.

End Trace.

(** X3.  Whenever [download] returns, it has sent its request some [k + 1]
    times and nothing else; the first [k] replies had a status from 500 to
    599; and the value returned is settled by the last reply alone: a body is
    returned only if it is the body of that reply and its status is below
    400, and [None] only if that reply is a transport failure or has a status
    of 400 or more.  The disk, the clock and the sleeps are untouched. *)
Theorem download_result_is_last_reply (E : env) (depth : nat) (url : string)
    (headers : list (string * string))
    (proxies : option (list (string * string))) (n : Z)
    (res : option string) (w w' : world) :
  let r := page_request url headers proxies in
  download E depth url headers proxies n w = (Ok res, w') ->
  exists k : nat,
    sent w' = (sent w ++ repeat r (S k))%list
    /\ (forall i : nat, (i < k)%nat -> is_5xx_reply (reply_at E r w i) = true)
    /\ match res with
       | Some body =>
           exists status : Z,
             reply_at E r w k = Response status body /\ status < 400
       | None =>
           match reply_at E r w k with
           | Response status _ => 400 <= status
           | TransportError => True
           end
       end
    /\ disk w' = disk w /\ now w' = now w /\ slept w' = slept w.
Proof.
  intros r Hrun.
  destruct (discipline_trace E r (MsgDownloadingPage url)
              (fun depth n => download E depth url headers proxies n)
              (fun body => ret (Some body)) None MsgPageFailed
              (MsgPageError RequestException)
              (download_step E url headers proxies) depth n w)
    as (k & _ & Hbefore & [[_ Hend]|(_ & _ & Hend)]);
    cbv beta in Hend; rewrite Hend in Hrun.
  - discriminate Hrun.
  - exists k. cbv zeta in Hrun.
    destruct (after_rounds_rest r (MsgDownloadingPage url) (S k) w)
      as (Hdisk & Hnow & Hslept & _).
    pose proof (after_rounds_sent r (MsgDownloadingPage url) (S k) w) as Hsent.
    assert (Hfive : forall i : nat, (i < k)%nat ->
                      is_5xx_reply (reply_at E r w i) = true)
      by (intros i Hi; now destruct (Hbefore i Hi)).
    destruct (reply_at E r w k) as [status body|].
    + destruct (status <? 400) eqn:Hlt; inversion Hrun; subst.
      * repeat split; try assumption. exists status. split; [reflexivity|lia].
      * repeat split; try assumption. lia.
    + inversion Hrun; subst. repeat split; assumption.
Qed.

(** A 503 and then a 200: the body of the second reply is returned, after two
    requests. *)
Lemma download_result_is_last_reply_witness :
  let E := Scenario.make_env
             (Scenario.script [Response 503 "busy"; Response 200 "page"])
             Scenario.no_parse None in
  exists (w' : world) (k : nat),
    download E 3 Scenario.landing_url [] None 2 Scenario.world0
    = (Ok (Some "page"), w')
    /\ sent w'
       = ([] ++ repeat (page_request Scenario.landing_url [] None) (S k))%list.
Proof.
  intros E.
  destruct (download E 3 Scenario.landing_url [] None 2 Scenario.world0)
    as [o w'] eqn:Hrun.
  assert (Ho : o = Ok (Some "page"))
    by (apply (f_equal fst) in Hrun; vm_compute in Hrun; now subst o).
  subst o. exists w'.
  destruct (download_result_is_last_reply E 3 Scenario.landing_url [] None 2
              (Some "page") Scenario.world0 w' Hrun) as (k & Hsent & _).
  exists k. split; [reflexivity|exact Hsent].
Defined.


(** ** Identifiers and addresses *)

Section Addresses.

Lemma append_cancel_l (p a b : string) : p ++ a = p ++ b -> a = b.
Proof.
  induction p as [|c p IH]; [trivial|].
  rewrite !string_app_cons. intros H. inversion H. auto.
Qed.

End Addresses.

(** X5.  For one gateway and one scheme, two identifiers that give the same
    landing address print the same: identifiers that differ as text never
    share a cache key. *)
Theorem doi_parser_injective (doi1 doi2 : atom) (start_url : string)
    (useSSL : bool) :
  doi_parser doi1 start_url useSSL = doi_parser doi2 start_url useSSL ->
  format_atom doi1 = format_atom doi2.
Proof.
  unfold doi_parser. cbv zeta. intros H.
  repeat apply append_cancel_l in H. exact H.
Qed.

(** The identifier [None] and the string [None] share their address, and
    print the same. *)
Lemma doi_parser_injective_witness :
  format_atom ANone = format_atom (AStr "None").
Proof.
  apply (doi_parser_injective ANone (AStr "None") "www.sci-hub.wf" true).
  reflexivity.
Defined.

(** ** What the link extractor returns *)

Section Extraction.

Variable E : env.

Lemma scan_onclick_falsy (a : list node) (init : option string) :
  forallb no_onclick a = true ->
  truthy_opt init = false ->
  truthy_opt (scan_onclick a init) = false.
Proof.
  revert init. induction a as [|x a IH]; intros init Ha Hinit; [exact Hinit|].
  simpl in Ha. apply andb_true_iff in Ha as [Hx Ha].
  unfold no_onclick in Hx. apply negb_true_iff in Hx.
  simpl. rewrite Hx. now apply IH.
Qed.

Lemma scan_onclick_truthy (a : list node) (init : option string)
    (attr : string) :
  scan_onclick a init = Some attr ->
  PyStr.truthy attr = true ->
  truthy_opt init = false ->
  exists (pre : list node) (x : node) (post : list node),
    a = (pre ++ x :: post)%list
    /\ forallb no_onclick pre = true
    /\ Html.get x "onclick" = Some attr.
Proof.
  revert init. induction a as [|x a IH]; intros init Hscan Hattr Hinit.
  - simpl in Hscan. subst init. simpl in Hinit. congruence.
  - simpl in Hscan.
    destruct (truthy_opt (Html.get x "onclick")) eqn:Hx.
    + exists [], x, a. repeat split; assumption.
    + destruct (IH _ Hscan Hattr Hx) as (pre & y & post & -> & Hpre & Hy).
      exists (x :: pre), y, post. repeat split; [|exact Hy].
      simpl. unfold no_onclick at 1. now rewrite Hx.
Qed.

Lemma lazy_until_quote_plain (s g : string) :
  Re.lazy_until_quote s = Some g -> PyStr.all plain_char g = true.
Proof.
  revert g. induction s as [|c s IH]; intros g H; [discriminate|].
  simpl in H. destruct (PyStr.ascii_eqb c "'"%char) eqn:Hq.
  - inversion H. reflexivity.
  - destruct (Re.is_newline c) eqn:Hn; [discriminate|].
    destruct (Re.lazy_until_quote s) as [g'|]; [|discriminate].
    inversion H; subst. simpl. unfold plain_char at 1.
    rewrite Hq, Hn. simpl. now apply IH.
Qed.

Lemma match_here_plain (s g : string) :
  Re.match_here s = Some g -> PyStr.all plain_char g = true.
Proof.
  unfold Re.match_here.
  destruct (Re.literal "location" s) as [s1|]; [|discriminate].
  destruct (Re.any_char s1) as [s2|]; [|discriminate].
  destruct (Re.literal "href" s2) as [s3|]; [|discriminate].
  destruct (Re.literal "=" (Re.spaces s3)) as [s4|]; [|discriminate].
  destruct (Re.literal "'" (Re.spaces s4)) as [s5|]; [|discriminate].
  apply lazy_until_quote_plain.
Qed.

Lemma search_plain (s g : string) :
  Re.search s = Some g -> PyStr.all plain_char g = true.
Proof.
  induction s as [|c s IH]; intros H.
  - vm_compute in H. discriminate H.
  - change (Re.search (String c s))
      with (match Re.match_here (String c s) with
            | Some g' => Some g'
            | None => Re.search s
            end) in H.
    destruct (Re.match_here (String c s)) eqn:Hm.
    + inversion H; subst. now apply match_here_plain in Hm.
    + now apply IH.
Qed.

Lemma findall_first_falsy (o : option string) :
  truthy_opt o = false ->
  Re.findall_first o = Raise TypeError
  \/ Re.findall_first o = Raise IndexError.
Proof.
  destruct o as [[|c s]|]; simpl; intros H; try discriminate.
  - right. reflexivity.
  - left. reflexivity.
Qed.

Lemma findall_first_ok (o : option string) (g : string) :
  Re.findall_first o = Ok g ->
  exists attr : string,
    o = Some attr /\ Re.search attr = Some g /\ PyStr.truthy attr = true.
Proof.
  destruct o as [attr|]; simpl; [|discriminate].
  destruct (Re.search attr) as [g'|] eqn:Hs; [|discriminate].
  intros H. inversion H; subst. exists attr.
  repeat split; [exact Hs|]. destruct attr; [discriminate Hs|reflexivity].
Qed.

End Extraction.

(** X6.  When [get_link_xpath] returns a link, it has printed nothing; the
    page was parsed; among the download controls (the buttons, or else the
    anchors) there is a first one with a non-empty [onclick], and the address
    of the link is what the pattern [location.href = '...'] captures in that
    attribute, which holds neither a quote nor a newline; the title is the
    first text of the italic child of the citation block, or, when there is
    none, the first text of the block itself. *)
Theorem get_link_xpath_link_is_extracted (E : env) (html : option string)
    (l : link) (w w' : world) :
  get_link_xpath E html w = (Ok (Some l), w') ->
  w' = w
  /\ exists (tree : node) (pre : list node) (x : node) (post : list node)
       (attr : string),
       fromstring E html = Ok tree
       /\ controls tree = (pre ++ x :: post)%list
       /\ forallb no_onclick pre = true
       /\ Html.get x "onclick" = Some attr
       /\ Re.search attr = Some (onclick l)
       /\ PyStr.all plain_char (onclick l) = true
       /\ match Html.strings (Html.xpath tree citation_i_path) with
          | t :: _ => title l = t
          | [] => exists rest : list string,
                    Html.strings (Html.xpath tree citation_path)
                    = title l :: rest
          end.
Proof.
  rewrite get_link_xpath_unfold.
  destruct (fromstring E html) as [tree|e]; [|discriminate].
  destruct (controls tree) as [|c cs] eqn:Hcontrols; [discriminate|].
  destruct (extracted tree (c :: cs)) as [l'|e] eqn:Hex; [|discriminate].
  intros H. inversion H; subst l' w'. clear H. split; [reflexivity|].
  unfold extracted in Hex.
  destruct (Re.findall_first (scan_onclick (c :: cs) None)) as [href|e]
    eqn:Hfind; [|discriminate].
  apply findall_first_ok in Hfind as (attr & Hscan & Hsearch & Hattr).
  apply scan_onclick_truthy in Hscan as (pre & x & post & Hsplit & Hpre & Hx);
    [|exact Hattr|reflexivity].
  cbv zeta in Hex.
  destruct (py_index _ 0) as [title0|e] eqn:Htitle; [|discriminate].
  inversion Hex; subst l. clear Hex. simpl.
  exists tree, pre, x, post, attr.
  split; [reflexivity|]. split; [now rewrite Hcontrols|].
  split; [exact Hpre|].
  split; [exact Hx|]. split; [exact Hsearch|].
  split; [now apply search_plain in Hsearch|].
  unfold py_index in Htitle.
  destruct (Html.strings (Html.xpath tree citation_i_path)) as [|t ts].
  - simpl in Htitle.
    destruct (Html.strings (Html.xpath tree citation_path)) as [|t ts];
      simpl in Htitle; [discriminate|].
    inversion Htitle. now exists ts.
  - simpl in Htitle. now inversion Htitle.
Qed.

(** On the landing page of the scenario the link is the one of the button. *)
Lemma get_link_xpath_link_is_extracted_witness :
  let E := Scenario.gateway "Example Title" in
  exists w' : world,
    get_link_xpath E (Some "<html>landing</html>") Scenario.world0
    = (Ok (Some {| title := "Example Title";
                   onclick := "//mirror/file.pdf" |}), w')
    /\ w' = Scenario.world0.
Proof.
  intros E. eexists. split; [vm_compute; reflexivity|].
  eapply (get_link_xpath_link_is_extracted E (Some "<html>landing</html>")
            {| title := "Example Title"; onclick := "//mirror/file.pdf" |}
            Scenario.world0 _).
  vm_compute. reflexivity.
Defined.

(** X7.  A page that has download controls of which none carries a non-empty
    [onclick] is not reported as missing from the gateway: the pattern is
    then applied to [None] or to the empty string, and the extractor returns
    [None] after printing a [TypeError] or an [IndexError] as a parse
    error. *)
Theorem get_link_xpath_without_onclick (E : env) (html : option string)
    (tree : node) (w : world) :
  fromstring E html = Ok tree ->
  controls tree <> [] ->
  forallb no_onclick (controls tree) = true ->
  exists e : exn,
    get_link_xpath E html w = (Ok None, add_out (MsgParseError e) w)
    /\ (e = TypeError \/ e = IndexError).
Proof.
  intros Hparse Hsome Hnone. rewrite get_link_xpath_unfold, Hparse.
  destruct (controls tree) as [|c cs] eqn:Hcontrols; [contradiction|].
  unfold extracted.
  pose proof (scan_onclick_falsy (c :: cs) None Hnone eq_refl) as Hfalsy.
  destruct (findall_first_falsy _ Hfalsy) as [-> | ->]; eauto.
Qed.

(** A page whose only button has no [onclick]. *)
Lemma get_link_xpath_without_onclick_witness :
  let page := Elem "div" [("id", "buttons")] [Elem "button" [] [Text "save"]] in
  let E := Scenario.make_env (Scenario.script []) (fun _ => Ok page) None in
  exists e : exn,
    get_link_xpath E (Some "<div>") Scenario.world0
    = (Ok None, add_out (MsgParseError e) Scenario.world0)
    /\ (e = TypeError \/ e = IndexError).
Proof.
  intros page E.
  apply (get_link_xpath_without_onclick E (Some "<div>") page Scenario.world0).
  - reflexivity.
  - vm_compute. discriminate.
  - vm_compute. reflexivity.
Defined.

(** ** The rate limiter, call after call *)

(** X8.  [wait] keeps the recorded times in the past: if no host is recorded
    at a time later than the clock before the call, none is after it. *)
Theorem wait_keeps_times_in_past (E : env) (url : string) (delay : Z)
    (domains domains' : gmap string Z) (w w' : world) :
  (forall (h : string) (t : Z), domains !! h = Some t -> t <= now w) ->
  wait E url delay (Some domains) w = (Ok domains', w') ->
  forall (h : string) (t : Z), domains' !! h = Some t -> t <= now w'.
Proof.
  intros Hpast Hrun h t Hh. rewrite wait_unfold in Hrun. cbv zeta in Hrun.
  match type of Hrun with
  | (Ok (<[_ := now ?v]> _), _) = _ => remember v as w1 eqn:Hw1
  end.
  assert (Hmono : now w <= now w1).
  { rewrite Hw1. destruct (domains !! url_netloc E url) as [t0|]; [|lia].
    destruct ((0 <? delay) && (0 <? delay - (now w - t0))) eqn:Hc; simpl;
      lia. }
  clear Hw1. inversion Hrun; subst domains' w'. clear Hrun.
  destruct (decide (url_netloc E url = h)) as [Heq|Hne].
  - rewrite Heq, lookup_insert_eq in Hh. inversion Hh. lia.
  - rewrite lookup_insert_ne in Hh by exact Hne.
    apply Hpast in Hh. lia.
Qed.

(** After the second call of the witness of C8 the host is recorded at 13,
    the time at which that call returns. *)
Lemma wait_keeps_times_in_past_witness :
  13 <= now (add_slept 2 (set_now 13 (Scenario.at_time 11))).
Proof.
  apply (wait_keeps_times_in_past Scenario.offline Scenario.landing_url 3
           {[ "www.sci-hub.wf" := 10 ]}
           (<[ "www.sci-hub.wf" := 13 ]> {[ "www.sci-hub.wf" := 10 ]})
           (Scenario.at_time 11)
           (add_slept 2 (set_now 13 (Scenario.at_time 11))))
    with (h := "www.sci-hub.wf").
  - intros h' t' H'. destruct (decide ("www.sci-hub.wf" = h')) as [<-|Hne].
    + rewrite lookup_singleton_eq in H'. inversion H'. simpl. lia.
    + rewrite lookup_singleton_ne in H' by exact Hne. discriminate.
  - vm_compute. reflexivity.
  - vm_compute. reflexivity.
Defined.

(** X9.  Two calls of [wait] in immediate succession for addresses of one
    host, on the same dictionary: the second call sleeps for the whole
    [delay] when [delay] is positive and not at all otherwise, whatever the
    dictionary held before the first; and the host ends up recorded at the
    time at which the second call returns. *)
Theorem wait_twice_in_succession (E : env) (url1 url2 : string) (delay : Z)
    (domains : gmap string Z) (w : world) :
  url_netloc E url1 = url_netloc E url2 ->
  exists (d1 d2 : gmap string Z) (w1 w2 : world),
    wait E url1 delay (Some domains) w = (Ok d1, w1)
    /\ wait E url2 delay (Some d1) w1 = (Ok d2, w2)
    /\ now w2 = now w1 + Z.max 0 delay
    /\ slept w2 = (if 0 <? delay then slept w1 ++ [delay] else slept w1)%list
    /\ d2 !! url_netloc E url2 = Some (now w2).
Proof.
  intros Hhost.
  assert (Hfirst : exists w1 : world,
            wait E url1 delay (Some domains) w
            = (Ok (<[url_netloc E url1 := now w1]> domains), w1))
    by (rewrite wait_unfold; cbv zeta; now eexists).
  destruct Hfirst as (w1 & Hfirst).
  pose proof (wait_unfold E url2 delay
                (<[url_netloc E url1 := now w1]> domains) w1) as Hsecond.
  cbv zeta in Hsecond. rewrite Hhost, lookup_insert_eq in Hsecond.
  replace (delay - (now w1 - now w1)) with delay in Hsecond by lia.
  rewrite <- Hhost in Hsecond at 1.
  eexists _, _, w1, _. split; [exact Hfirst|]. split; [exact Hsecond|].
  rewrite lookup_insert_eq.
  destruct (0 <? delay) eqn:Hd; simpl; repeat split; try reflexivity; lia.
Qed.

Lemma wait_twice_in_succession_witness :
  exists (d1 d2 : gmap string Z) (w1 w2 : world),
    wait Scenario.offline "https://www.sci-hub.wf/10.1/abc" 3 (Some ∅)
      Scenario.world0 = (Ok d1, w1)
    /\ wait Scenario.offline "https://www.sci-hub.wf/10.2/xyz" 3 (Some d1) w1
       = (Ok d2, w2)
    /\ now w2 = now w1 + Z.max 0 3.
Proof.
  destruct (wait_twice_in_succession Scenario.offline
              "https://www.sci-hub.wf/10.1/abc"
              "https://www.sci-hub.wf/10.2/xyz" 3 ∅ Scenario.world0)
    as (d1 & d2 & w1 & w2 & H1 & H2 & Hnow & _).
  - reflexivity.
  - exists d1, d2, w1, w2. repeat split; assumption.
Defined.

(** ** What a run leaves behind *)

Section Frame.

Variable E : env.

Lemma follows_refl (w : world) : follows w w.
Proof.
  unfold follows. split; [lia|]. split; [auto|].
  split; [exists []; now rewrite app_nil_r|].
  split; [exists []; split; [now rewrite app_nil_r|constructor]|].
  exists []. now rewrite app_nil_r.
Qed.

Lemma follows_trans (w1 w2 w3 : world) :
  follows w1 w2 -> follows w2 w3 -> follows w1 w3.
Proof.
  intros (Hn1 & Hd1 & (l1 & Hs1) & (z1 & Hz1 & Hp1) & (o1 & Ho1))
         (Hn2 & Hd2 & (l2 & Hs2) & (z2 & Hz2 & Hp2) & (o2 & Ho2)).
  unfold follows. split; [lia|]. split; [auto|].
  split; [exists (l1 ++ l2)%list; now rewrite Hs2, Hs1, app_assoc|].
  split.
  - exists (z1 ++ z2)%list. split; [now rewrite Hz2, Hz1, app_assoc|].
    apply Forall_app. now split.
  - exists (o1 ++ o2)%list. now rewrite Ho2, Ho1, app_assoc.
Qed.

Lemma in_loop_refl (w : world) : follows_in_loop w w.
Proof. split; [apply follows_refl|split; reflexivity]. Qed.

Lemma in_loop_trans (w1 w2 w3 : world) :
  follows_in_loop w1 w2 -> follows_in_loop w2 w3 -> follows_in_loop w1 w3.
Proof.
  intros (H1 & Hr1 & Hd1) (H2 & Hr2 & Hd2).
  split; [now apply (follows_trans w1 w2 w3)|]. split; congruence.
Qed.

Lemma in_loop_out (m : msg) (w : world) : follows_in_loop w (add_out m w).
Proof.
  split; [|split; reflexivity].
  unfold follows. simpl. split; [lia|]. split; [auto|].
  split; [exists []; now rewrite app_nil_r|].
  split; [exists []; split; [now rewrite app_nil_r|constructor]|].
  now exists [m].
Qed.

Lemma in_loop_sent (r : request) (w : world) : follows_in_loop w (add_sent r w).
Proof.
  split; [|split; reflexivity].
  unfold follows. simpl. split; [lia|]. split; [auto|].
  split; [now exists [r]|].
  split; [exists []; split; [now rewrite app_nil_r|constructor]|].
  exists []. now rewrite app_nil_r.
Qed.

Lemma in_loop_write (p : string) (f : file) (w : world) :
  follows_in_loop w (set_disk (<[p := f]> (disk w)) w).
Proof.
  split; [|split; reflexivity].
  unfold follows. simpl. split; [lia|]. split.
  - intros q Hq. destruct (decide (p = q)) as [->|Hne].
    + rewrite lookup_insert_eq. eauto.
    + now rewrite lookup_insert_ne.
  - split; [exists []; now rewrite app_nil_r|].
    split; [exists []; split; [now rewrite app_nil_r|constructor]|].
    exists []. now rewrite app_nil_r.
Qed.

Lemma in_loop_sleep (d : Z) (w : world) :
  0 < d -> follows_in_loop w (add_slept d (set_now (now w + d) w)).
Proof.
  intros Hd. split; [|split; reflexivity].
  unfold follows. simpl. split; [lia|]. split; [auto|].
  split; [exists []; now rewrite app_nil_r|].
  split; [exists [d]; split; [reflexivity|now repeat constructor]|].
  exists []. now rewrite app_nil_r.
Qed.

(** *** Composition *)

Lemma keeps_ret {A : Type} (a : A) : keeps follows_in_loop (ret a).
Proof. intros w. apply in_loop_refl. Qed.

Lemma keeps_lift {A : Type} (o : outcome A) : keeps follows_in_loop (lift o).
Proof. intros w. apply in_loop_refl. Qed.

Lemma keeps_raise {A : Type} (e : exn) : keeps follows_in_loop (@raise A e).
Proof. intros w. apply in_loop_refl. Qed.

Lemma keeps_print (m : msg) : keeps follows_in_loop (print m).
Proof. intros w. apply in_loop_out. Qed.

Lemma keeps_bind {A B : Type} (m : M A) (k : A -> M B) :
  keeps follows_in_loop m -> (forall a, keeps follows_in_loop (k a)) ->
  keeps follows_in_loop (bind m k).
Proof.
  intros Hm Hk w. unfold bind. specialize (Hm w).
  destruct (m w) as [[a|e] w1]; simpl in Hm; [|exact Hm].
  apply (in_loop_trans w w1); [exact Hm|apply Hk].
Qed.

Lemma keeps_try_except {A : Type} (m : M A) (c : exn -> bool)
    (h : exn -> M A) :
  keeps follows_in_loop m -> (forall e, keeps follows_in_loop (h e)) ->
  keeps follows_in_loop (try_except m c h).
Proof.
  intros Hm Hh w. unfold try_except. specialize (Hm w).
  destruct (m w) as [[a|e] w1]; simpl in Hm; [exact Hm|].
  destruct (c e); [|exact Hm].
  apply (in_loop_trans w w1); [exact Hm|apply Hh].
Qed.

(** *** The parts of a turn *)

Lemma keeps_requests_get (url : string) (headers : list (string * string))
    (proxies : option (list (string * string))) :
  keeps follows_in_loop (requests_get E url headers proxies).
Proof.
  intros w. unfold requests_get. cbv zeta.
  destruct (net E _ _); apply in_loop_sent.
Qed.

Lemma keeps_open_write (path : string) (f : file) :
  keeps follows_in_loop (open_write E path f).
Proof.
  intros w. unfold open_write.
  destruct (writable E path); [apply in_loop_write|apply in_loop_refl].
Qed.

Lemma keeps_wait (url : string) (delay : Z) (domains : gmap string Z) :
  keeps follows_in_loop (wait E url delay (Some domains)).
Proof.
  intros w. rewrite wait_unfold. cbv zeta. simpl.
  destruct (domains !! url_netloc E url) as [t|]; [|apply in_loop_refl].
  destruct ((0 <? delay) && (0 <? delay - (now w - t))) eqn:Hc;
    [|apply in_loop_refl].
  apply in_loop_sleep. lia.
Qed.

Lemma keeps_download (depth : nat) (url : string)
    (headers : list (string * string))
    (proxies : option (list (string * string))) (n : Z) :
  keeps follows_in_loop (download E depth url headers proxies n).
Proof.
  revert n. induction depth as [|d IH]; intros n; [apply keeps_raise|].
  simpl. apply keeps_bind; [apply keeps_print|]. intros _.
  apply keeps_try_except.
  - apply keeps_bind; [apply keeps_requests_get|]. intros [status text].
    destruct (status >=? 400); [|apply keeps_ret].
    destruct (should_retry n status); [apply IH|].
    apply keeps_bind; [apply keeps_print|]. intros _. apply keeps_ret.
  - intros e. apply keeps_bind; [apply keeps_print|]. intros _.
    apply keeps_ret.
Qed.

Lemma keeps_save_pdf (result : link) (dir : string) (doi : pyval)
    (content : string) :
  keeps follows_in_loop (save_pdf E result dir doi content).
Proof.
  unfold save_pdf. apply keeps_bind; [apply keeps_lift|]. intros name.
  cbv zeta. apply keeps_bind; [apply keeps_open_write|]. intros _.
  apply keeps_bind; [apply keeps_print|]. intros _. apply keeps_ret.
Qed.

Lemma keeps_download_pdf (depth : nat) (result : link)
    (headers : list (string * string)) (dir : string)
    (proxies : option (list (string * string))) (n : Z) (doi : pyval) :
  keeps follows_in_loop
    (download_pdf E depth result headers dir proxies n doi).
Proof.
  revert n. induction depth as [|d IH]; intros n; [apply keeps_raise|].
  simpl. apply keeps_bind.
  { intros w. unfold urlparse.
    destruct (url_valid E (onclick result)); apply in_loop_refl. }
  intros _. apply keeps_bind; [apply keeps_print|]. intros _.
  apply keeps_try_except.
  - apply keeps_bind; [apply keeps_requests_get|]. intros [status text].
    destruct (status >=? 400); [|apply keeps_save_pdf].
    destruct (should_retry n status); [apply IH|].
    apply keeps_bind; [apply keeps_print|]. intros _. apply keeps_ret.
  - intros e. apply keeps_bind; [apply keeps_print|]. intros _.
    apply keeps_ret.
Qed.

Lemma keeps_get_link_xpath (html : option string) :
  keeps follows_in_loop (get_link_xpath E html).
Proof.
  intros w. rewrite get_link_xpath_unfold.
  destruct (fromstring E html) as [tree|e]; [|apply in_loop_out].
  destruct (controls tree) as [|c cs]; [apply in_loop_out|].
  destruct (extracted tree (c :: cs)); [apply in_loop_refl|apply in_loop_out].
Qed.

Lemma keeps_setitem (self : Cache.t) (key value : string) :
  keeps follows_in_loop (Cache.__setitem__ E self key value).
Proof.
  intros w. rewrite setitem_unfold. cbv zeta. simpl.
  destruct (writable E (Cache.cache_dir self));
    [apply in_loop_write|apply in_loop_out].
Qed.

Lemma keeps_fetch (depth : nat) (cfg : config)
    (headers : list (string * string)) (url : string) (doi : entry)
    (st : loop_state) :
  keeps follows_in_loop (fetch E depth cfg headers url doi st).
Proof.
  unfold fetch. apply keeps_bind; [apply keeps_wait|]. intros domains.
  apply keeps_bind; [apply keeps_download|]. intros html.
  apply keeps_bind; [apply keeps_get_link_xpath|]. intros [result|];
    [|apply keeps_ret].
  cbv zeta. apply keeps_bind; [apply keeps_lift|]. intros q.
  apply keeps_bind; [apply keeps_lift|]. intros q'.
  apply keeps_bind; [apply keeps_download_pdf|]. intros [|];
    [|apply keeps_ret].
  apply keeps_bind; [|intros c; apply keeps_ret].
  simpl ls_cache. destruct (ls_cache st) as [c|]; [|apply keeps_ret].
  apply keeps_bind; [apply keeps_setitem|]. intros c'. apply keeps_ret.
Qed.

Lemma keeps_crawl_step (depth : nat) (cfg : config)
    (headers : list (string * string)) (rp : option policy) (doi : entry)
    (st : loop_state) :
  keeps follows_in_loop (crawl_step E depth cfg headers rp doi st).
Proof.
  unfold crawl_step. apply keeps_bind; [apply keeps_lift|]. intros doi0.
  cbv zeta. destruct (cache_hit _ _) as [v|].
  - apply keeps_bind; [apply keeps_print|]. intros _. apply keeps_ret.
  - destruct (allowed _ _ _ _); [apply keeps_fetch|].
    apply keeps_bind; [apply keeps_print|]. intros _. apply keeps_ret.
Qed.

Lemma keeps_crawl_loop (depth : nat) (cfg : config)
    (headers : list (string * string)) (rp : option policy)
    (doi_list : list entry) (st : loop_state) :
  keeps follows_in_loop (crawl_loop E depth cfg headers rp doi_list st).
Proof.
  revert st. induction doi_list as [|doi rest IH]; intros st;
    [apply keeps_ret|].
  simpl. apply keeps_bind; [apply keeps_crawl_step|]. intros st'. apply IH.
Qed.

End Frame.

Section WholeRun.

Variable E : env.

Lemma follows_same (w w' : world) :
  now w' = now w -> disk w' = disk w -> sent w' = sent w ->
  slept w' = slept w -> out w' = out w -> follows w w'.
Proof.
  intros Hn Hd Hs Hz Ho. unfold follows. rewrite Hn, Hd, Hs, Hz, Ho.
  apply follows_refl.
Qed.

Lemma makedirs_all_made (paths : list string) (w : world) :
  exists made : list string,
    made `prefix_of` paths
    /\ snd (makedirs_all E paths w) = add_dirs made w
    /\ (made = paths \/ exists e, fst (makedirs_all E paths w) = Raise e).
Proof.
  revert w. induction paths as [|p rest IH]; intros w.
  - exists []. split; [reflexivity|]. split; [reflexivity|now left].
  - simpl. unfold bind, os_makedirs. destruct (mkdir_ok E p).
    + destruct (IH (add_dir p w)) as (made & Hpre & Hw & Hall).
      exists (p :: made). split; [now apply prefix_cons|].
      split; [exact Hw|]. destruct Hall as [->|He]; [now left|now right].
    + exists []. split; [apply prefix_nil|]. split; [reflexivity|].
      right. now exists OSError.
Qed.

End WholeRun.

(** X10.  However a run of [sci_hub_crawler] ends, normally or with an
    exception, on any list and in any surroundings: the clock has not gone
    back; no file that was on the disk has left it; the requests, the sleeps
    (each of them positive) and the output have only been added to; the
    robots file has been read exactly once, at the policy address; and the
    directories made are the first ones, in order, of the target directory
    and its four quartile sub-directories. *)
Theorem run_only_adds (E : env) (depth : nat) (doi_list : list entry)
    (cfg : config) (cache : option Cache.t) (w : world) :
  let w' := snd (sci_hub_crawler E depth doi_list cfg cache w) in
  follows w w'
  /\ robots_read w' = (robots_read w ++ [effective_robot_url cfg])%list
  /\ exists made : list string,
       made `prefix_of` (dir cfg :: quartile_dirs cfg)
       /\ dirs w' = (dirs w ++ made)%list.
Proof.
  intros w'.
  assert (Hgoal : forall v : world, v = w' ->
            follows w v
            /\ robots_read v = (robots_read w ++ [effective_robot_url cfg])%list
            /\ exists made : list string,
                 made `prefix_of` (dir cfg :: quartile_dirs cfg)
                 /\ dirs v = (dirs w ++ made)%list); [|now apply Hgoal].
  intros v Hv. unfold w' in Hv. clear w'.
  unfold sci_hub_crawler in Hv. cbv zeta in Hv. unfold bind at 1 in Hv.
  assert (Hrobots : exists (rp : option policy) (w0 : world),
            get_robot_parser E (effective_robot_url cfg) w = (Ok rp, w0)
            /\ follows w w0
            /\ robots_read w0
               = (robots_read w ++ [effective_robot_url cfg])%list
            /\ dirs w0 = dirs w).
  { destruct (robots E (effective_robot_url cfg)) as [rp|] eqn:Hr.
    - rewrite (get_robot_parser_some E _ rp w Hr). eexists _, _.
      split; [reflexivity|]. split; [now apply follows_same|]. now split.
    - rewrite (get_robot_parser_none E _ w Hr). eexists _, _.
      split; [reflexivity|]. split; [|now split].
      apply (follows_trans _ (add_robots_read (effective_robot_url cfg) w));
        [now apply follows_same|].
      apply in_loop_out. }
  destruct Hrobots as (rp & w0 & Hrp & Hf0 & Hr0 & Hd0).
  rewrite Hrp in Hv. clear Hrp.
  unfold bind at 1, os_makedirs in Hv.
  destruct (mkdir_ok E (dir cfg)).
  2: { simpl in Hv. subst v. split; [exact Hf0|]. split; [exact Hr0|].
       exists []. split; [apply prefix_nil|]. now rewrite app_nil_r. }
  unfold bind at 1 in Hv.
  destruct (makedirs_all_made E (quartile_dirs cfg) (add_dir (dir cfg) w0))
    as (made & Hpre & Hw1 & _).
  destruct (add_dirs_fields made (add_dir (dir cfg) w0))
    as (Hn & Hdk & Hs & Hz & Ho & Hr & Hd).
  assert (Hf1 : follows w (add_dirs made (add_dir (dir cfg) w0))).
  { apply (follows_trans _ w0); [exact Hf0|]. now apply follows_same. }
  assert (Hr1 : robots_read (add_dirs made (add_dir (dir cfg) w0))
                = (robots_read w ++ [effective_robot_url cfg])%list)
    by (rewrite Hr; exact Hr0).
  assert (Hd1 : dirs (add_dirs made (add_dir (dir cfg) w0))
                = (dirs w ++ dir cfg :: made)%list)
    by (rewrite Hd; simpl; rewrite Hd0, <- app_assoc; reflexivity).
  assert (Hpre1 : (dir cfg :: made) `prefix_of` (dir cfg :: quartile_dirs cfg))
    by now apply prefix_cons.
  clear Hn Hdk Hs Hz Ho Hr Hd.
  destruct (makedirs_all E (quartile_dirs cfg) (add_dir (dir cfg) w0))
    as [[u|e] w1]; simpl in Hw1; subst w1.
  2: { simpl in Hv. subst v. split; [exact Hf1|]. split; [exact Hr1|]. eauto. }
  cbv beta iota in Hv. subst v.
  destruct (keeps_bind (print MsgStart)
              (fun _ =>
                 st <- crawl_loop E depth cfg (crawler_headers cfg) rp
                         doi_list
                         {| ls_cache := cache; ls_domains := ∅;
                            download_succ_cnt := 0 |} ;;
                 print (MsgDone (Z.of_nat (length doi_list))
                          (download_succ_cnt st)) ;;;
                 print (MsgDone (Z.of_nat (length doi_list))
                          (download_succ_cnt st)) ;;;
                 ret st)
              (keeps_print MsgStart)
              (fun _ =>
                 keeps_bind _ _
                   (keeps_crawl_loop E depth cfg (crawler_headers cfg) rp
                      doi_list _)
                   (fun st =>
                      keeps_bind _ _ (keeps_print _)
                        (fun _ =>
                           keeps_bind _ _ (keeps_print _)
                             (fun _ => keeps_ret st))))
              (add_dirs made (add_dir (dir cfg) w0)))
    as (Hfm & Hrm & Hdm).
  split; [now apply (follows_trans _ (add_dirs made (add_dir (dir cfg) w0)))|].
  split; [congruence|].
  exists (dir cfg :: made). split; [exact Hpre1|congruence].
Qed.


(** ** How many requests a run sends *)

Section RequestBudget.

Variable E : env.

Lemma sends_weaken {A : Type} (k k' : nat) (m : M A) :
  (k <= k')%nat -> sends_at_most k m -> sends_at_most k' m.
Proof. intros Hk Hm w. specialize (Hm w). lia. Qed.

Lemma sends_same {A : Type} (m : M A) :
  (forall w, sent (snd (m w)) = sent w) -> sends_at_most 0 m.
Proof. intros H w. rewrite H. lia. Qed.

Lemma sends_bind {A B : Type} (k1 k2 : nat) (m : M A) (k : A -> M B) :
  sends_at_most k1 m -> (forall a, sends_at_most k2 (k a)) ->
  sends_at_most (k1 + k2) (bind m k).
Proof.
  intros Hm Hk w. unfold bind. specialize (Hm w).
  destruct (m w) as [[a|e] w1]; simpl in Hm |- *; [|lia].
  specialize (Hk a w1). lia.
Qed.

Lemma sends_bind_0 {A B : Type} (k2 : nat) (m : M A) (k : A -> M B) :
  sends_at_most 0 m -> (forall a, sends_at_most k2 (k a)) ->
  sends_at_most k2 (bind m k).
Proof. intros Hm Hk. now apply (sends_bind 0 k2). Qed.

Lemma sends_print (m : msg) : sends_at_most 0 (print m).
Proof. now apply sends_same. Qed.

Lemma sends_ret {A : Type} (k : nat) (a : A) : sends_at_most k (ret a).
Proof. intros w. simpl. lia. Qed.

Lemma sends_lift {A : Type} (o : outcome A) : sends_at_most 0 (lift o).
Proof. now apply sends_same. Qed.

Lemma sends_wait (url : string) (delay : Z) (domains : gmap string Z) :
  sends_at_most 0 (wait E url delay (Some domains)).
Proof.
  apply sends_same. intros w.
  destruct (wait_returns E url delay domains w) as (d & w1 & -> & Hs).
  exact Hs.
Qed.

Lemma sends_budget {A : Type} (r : request) (run : nat -> Z -> M A)
    (failure : A) (depth : nat) (n : Z) :
  bounded_by_budget E r run failure ->
  0 <= n -> (Z.to_nat n < depth)%nat ->
  sends_at_most (Z.to_nat n + 1) (run depth n).
Proof.
  intros Hb Hn Hd w. destruct (Hb depth n w Hn Hd) as [(k & Hk & Hle) _].
  rewrite Hk, length_app, repeat_length. lia.
Qed.

Lemma sends_fetch (depth : nat) (cfg : config)
    (headers : list (string * string)) (url : string) (doi : entry)
    (st : loop_state) :
  0 <= num_retries cfg -> (Z.to_nat (num_retries cfg) < depth)%nat ->
  sends_at_most (2 * (Z.to_nat (num_retries cfg) + 1))
    (fetch E depth cfg headers url doi st).
Proof.
  intros Hn Hd. set (b := (Z.to_nat (num_retries cfg) + 1)%nat).
  replace (2 * b)%nat with (b + b)%nat by lia.
  unfold fetch. apply sends_bind_0; [apply sends_wait|]. intros domains.
  apply sends_bind.
  { apply (sends_budget (page_request url headers (proxies cfg))
             (fun depth n => download E depth url headers (proxies cfg) n)
             None); [|exact Hn|exact Hd].
    eapply discipline_bounded; [apply download_step|reflexivity]. }
  intros html. apply sends_bind_0.
  { apply sends_same. apply get_link_xpath_sent. }
  intros [result|]; [|apply sends_ret]. cbv zeta.
  apply sends_bind_0; [apply sends_lift|]. intros q.
  apply sends_bind_0; [apply sends_lift|]. intros q'.
  replace b with (b + 0)%nat by lia. apply sends_bind.
  { destruct (url_valid E (onclick result)) eqn:Hvalid.
    - apply (sends_budget (pdf_request E result headers (proxies cfg))
               (fun depth n =>
                  download_pdf E depth result headers
                    (os_path_join (dir cfg) q') (proxies cfg) n (Row doi))
               false); [|exact Hn|exact Hd].
      eapply discipline_bounded; [now apply download_pdf_step|].
      intros body w. apply save_pdf_sent.
    - intros w. destruct depth as [|d]; [lia|].
      rewrite (download_pdf_unparsed E d result headers _ (proxies cfg) _ _ w
                 Hvalid).
      simpl. lia. }
  intros [|]; [|apply sends_ret].
  apply sends_bind_0; [|intros c; apply sends_ret].
  simpl ls_cache. destruct (ls_cache st) as [c|]; [|apply sends_ret].
  apply sends_bind_0; [|intros c'; apply sends_ret].
  apply sends_same. intros w. rewrite setitem_unfold. cbv zeta. simpl.
  now destruct (writable E (Cache.cache_dir c)).
Qed.

Lemma sends_crawl_step (depth : nat) (cfg : config)
    (headers : list (string * string)) (rp : option policy) (doi : entry)
    (st : loop_state) :
  0 <= num_retries cfg -> (Z.to_nat (num_retries cfg) < depth)%nat ->
  sends_at_most (2 * (Z.to_nat (num_retries cfg) + 1))
    (crawl_step E depth cfg headers rp doi st).
Proof.
  intros Hn Hd. unfold crawl_step.
  apply sends_bind_0; [apply sends_lift|]. intros doi0. cbv zeta.
  destruct (cache_hit _ _) as [v|].
  - apply sends_bind_0; [apply sends_print|]. intros _. apply sends_ret.
  - destruct (allowed _ _ _ _); [now apply sends_fetch|].
    apply sends_bind_0; [apply sends_print|]. intros _. apply sends_ret.
Qed.

Lemma sends_crawl_loop (depth : nat) (cfg : config)
    (headers : list (string * string)) (rp : option policy)
    (doi_list : list entry) (st : loop_state) :
  0 <= num_retries cfg -> (Z.to_nat (num_retries cfg) < depth)%nat ->
  sends_at_most (2 * (Z.to_nat (num_retries cfg) + 1) * length doi_list)
    (crawl_loop E depth cfg headers rp doi_list st).
Proof.
  intros Hn Hd. revert st.
  induction doi_list as [|doi rest IH]; intros st; [apply sends_ret|].
  simpl crawl_loop. simpl length.
  replace (2 * (Z.to_nat (num_retries cfg) + 1) * S (length rest))%nat
    with (2 * (Z.to_nat (num_retries cfg) + 1)
          + 2 * (Z.to_nat (num_retries cfg) + 1) * length rest)%nat by lia.
  apply sends_bind; [now apply sends_crawl_step|]. intros st'. apply IH.
Qed.

Lemma sends_makedirs_all (paths : list string) :
  sends_at_most 0 (makedirs_all E paths).
Proof. apply sends_same. apply makedirs_all_sent. Qed.

End RequestBudget.

(** X11.  With a retry budget [n >= 0] and room for [n + 1] nested calls, a
    run sends at most [2 (n + 1)] requests for each identifier of the list
    (up to [n + 1] for the landing page and up to [n + 1] for the file),
    however it ends. *)
Theorem run_sends_at_most (E : env) (depth : nat) (doi_list : list entry)
    (cfg : config) (cache : option Cache.t) (w : world) :
  0 <= num_retries cfg ->
  (Z.to_nat (num_retries cfg) < depth)%nat ->
  (length (sent (snd (sci_hub_crawler E depth doi_list cfg cache w)))
   <= length (sent w)
      + 2 * (Z.to_nat (num_retries cfg) + 1) * length doi_list)%nat.
Proof.
  intros Hn Hd. revert w.
  change (sends_at_most
            (2 * (Z.to_nat (num_retries cfg) + 1) * length doi_list)
            (sci_hub_crawler E depth doi_list cfg cache)).
  unfold sci_hub_crawler. cbv zeta.
  apply sends_bind_0.
  { apply sends_same. intros w.
    destruct (robots E (effective_robot_url cfg)) as [rp|] eqn:Hr.
    - now rewrite (get_robot_parser_some E _ rp w Hr).
    - now rewrite (get_robot_parser_none E _ w Hr). }
  intros rp. apply sends_bind_0.
  { apply sends_same. intros w. unfold os_makedirs.
    now destruct (mkdir_ok E (dir cfg)). }
  intros _. apply sends_bind_0; [apply sends_makedirs_all|]. intros _.
  apply sends_bind_0; [apply sends_print|]. intros _.
  replace (2 * (Z.to_nat (num_retries cfg) + 1) * length doi_list)%nat
    with (2 * (Z.to_nat (num_retries cfg) + 1) * length doi_list + 0)%nat
    by lia.
  apply sends_bind; [now apply sends_crawl_loop|]. intros st.
  apply sends_bind_0; [apply sends_print|]. intros _.
  apply sends_bind_0; [apply sends_print|]. intros _. apply sends_ret.
Qed.

(** The scenario: one identifier, the default budget of 2, and two requests
    sent where six are allowed. *)
Lemma run_sends_at_most_witness :
  (length (sent (snd (sci_hub_crawler (Scenario.gateway "Example Title") 3
                        [Scenario.row] (default_config "papers")
                        (Some Scenario.empty_cache) Scenario.world0)))
   <= 0 + 2 * (Z.to_nat 2 + 1) * 1)%nat.
Proof.
  apply (run_sends_at_most (Scenario.gateway "Example Title") 3
           [Scenario.row] (default_config "papers")
           (Some Scenario.empty_cache) Scenario.world0).
  - simpl. lia.
  - simpl. lia.
Defined.

(** ** A list that is cached throughout *)

Section AllCached.

Variable E : env.

Lemma crawl_loop_all_cached (depth : nat) (cfg : config)
    (headers : list (string * string)) (rp : option policy)
    (doi_list : list entry) (c : Cache.t) (domains : gmap string Z)
    (cnt : Z) (w : world) :
  Forall (cached_in (Cache.cache c) cfg) doi_list ->
  exists values : list string,
    length values = length doi_list
    /\ crawl_loop E depth cfg headers rp doi_list
         {| ls_cache := Some c; ls_domains := domains;
            download_succ_cnt := cnt |} w
       = (Ok {| ls_cache := Some c; ls_domains := domains;
                download_succ_cnt := cnt + Z.of_nat (length doi_list) |},
          fold_left (fun v m => add_out m v) (List.map MsgCached values) w).
Proof.
  intros Hall. revert cnt w.
  induction Hall as [|doi rest (doi0 & v & Hdoi & Hv & Hne) _ IH];
    intros cnt w.
  - exists []. split; [reflexivity|]. simpl. now rewrite Z.add_0_r.
  - assert (Hhit : cache_hit (Some c)
                     (doi_parser doi0 (start_url cfg) (useSSL cfg)) = Some v).
    { unfold cache_hit, Cache.__getitem__. rewrite Hv.
      destruct v; [contradiction|reflexivity]. }
    destruct (IH (cnt + 1) (add_out (MsgCached v) w)) as (values & Hlen & Hrun).
    exists (v :: values). split; [simpl; now rewrite Hlen|].
    simpl crawl_loop. unfold bind.
    rewrite (crawl_step_cache_hit E depth cfg headers rp doi doi0
               {| ls_cache := Some c; ls_domains := domains;
                  download_succ_cnt := cnt |} w v Hdoi Hhit).
    unfold counted. simpl ls_cache. simpl ls_domains.
    simpl download_succ_cnt. rewrite Hrun. simpl length.
    replace (cnt + Z.of_nat (S (length rest)))
      with (cnt + 1 + Z.of_nat (length rest)) by lia.
    reflexivity.
Qed.


End AllCached.

(** X12.  When every row of the list has an identifier whose landing address
    holds a non-empty value in the cache, and the directories can be made,
    the run ends normally with a count equal to the length of the list and
    the cache as it was; it sends no request, takes no sleep, and leaves the
    clock and the disk untouched. *)
Theorem fully_cached_run (E : env) (depth : nat) (doi_list : list entry)
    (cfg : config) (c : Cache.t) (w : world) :
  (forall p : string, mkdir_ok E p = true) ->
  Forall (cached_in (Cache.cache c) cfg) doi_list ->
  exists (st : loop_state) (w' : world),
    sci_hub_crawler E depth doi_list cfg (Some c) w = (Ok st, w')
    /\ download_succ_cnt st = Z.of_nat (length doi_list)
    /\ ls_cache st = Some c
    /\ sent w' = sent w /\ slept w' = slept w
    /\ now w' = now w /\ disk w' = disk w.
Proof.
  intros Hmk Hall. unfold sci_hub_crawler. cbv zeta. unfold bind at 1.
  assert (Hrobots : exists (rp : option policy) (w0 : world),
            get_robot_parser E (effective_robot_url cfg) w = (Ok rp, w0)
            /\ sent w0 = sent w /\ slept w0 = slept w
            /\ now w0 = now w /\ disk w0 = disk w).
  { destruct (robots E (effective_robot_url cfg)) as [rp|] eqn:Hr.
    - rewrite (get_robot_parser_some E _ rp w Hr). eexists _, _.
      split; [reflexivity|]. now repeat split.
    - rewrite (get_robot_parser_none E _ w Hr). eexists _, _.
      split; [reflexivity|]. now repeat split. }
  destruct Hrobots as (rp & w0 & -> & Hs0 & Hz0 & Hn0 & Hd0).
  unfold bind at 1, os_makedirs. rewrite Hmk.
  unfold bind at 1. rewrite (makedirs_all_ok E _ _ Hmk).
  cbv beta iota. unfold bind at 1, print.
  set (w1 := add_out MsgStart _).
  assert (H1 : sent w1 = sent w /\ slept w1 = slept w
               /\ now w1 = now w /\ disk w1 = disk w).
  { unfold w1. simpl. tauto. }
  clearbody w1. destruct H1 as (Hs1 & Hz1 & Hn1 & Hd1).
  destruct (crawl_loop_all_cached E depth cfg (crawler_headers cfg) rp
              doi_list c ∅ 0 w1 Hall) as (values & _ & Hloop).
  unfold bind at 1. rewrite Hloop. clear Hloop.
  destruct (add_outs_fields (List.map MsgCached values) w1)
    as (Hn2 & Hd2 & Hs2 & Hz2 & _).
  unfold bind, print, ret. cbv beta iota. eexists _, _.
  split; [reflexivity|]. simpl.
  rewrite Hn2, Hd2, Hs2, Hz2. repeat split; assumption || lia.
Qed.

Lemma fully_cached_run_witness :
  exists (st : loop_state) (w' : world),
    sci_hub_crawler Scenario.offline 3 [Scenario.row; Scenario.row]
      (default_config "papers")
      (Some (Scenario.cache_with "https://mirror/file.pdf")) Scenario.world0
    = (Ok st, w')
    /\ download_succ_cnt st = 2
    /\ sent w' = [].
Proof.
  destruct (fully_cached_run Scenario.offline 3 [Scenario.row; Scenario.row]
              (default_config "papers")
              (Scenario.cache_with "https://mirror/file.pdf") Scenario.world0)
    as (st & w' & Hrun & Hcnt & _ & Hsent & _).
  - reflexivity.
  - repeat constructor; exists (AStr "10.1/abc"), "https://mirror/file.pdf";
      (split; [reflexivity|]); (split; [vm_compute; reflexivity|discriminate]).
  - exists st, w'. split; [exact Hrun|]. split; [exact Hcnt|exact Hsent].
Defined.

(** ** What a run does to the cache *)

Section CacheGrowth.

Variable E : env.

Lemma cache_extends_refl (cfg : config) (rows : list entry)
    (m : gmap string string) : cache_extends cfg rows m m.
Proof. intros k. destruct (m !! k); auto. Qed.

Lemma cache_extends_trans (cfg : config) (rows1 rows2 : list entry)
    (m1 m2 m3 : gmap string string) :
  cache_extends cfg rows1 m1 m2 -> cache_extends cfg rows2 m2 m3 ->
  cache_extends cfg (rows1 ++ rows2) m1 m3.
Proof.
  intros H12 H23 k. specialize (H12 k). specialize (H23 k).
  destruct (m3 !! k) as [v3|].
  - destruct H23 as [H2|([H2|H2] & Hrest & doi & doi0 & Hin & Hdoi & Hk)].
    + rewrite H2 in H12.
      destruct H12 as [H1|(H1 & Hrest & doi & doi0 & Hin & Hdoi & Hk)];
        [now left|].
      right. split; [exact H1|]. split; [exact Hrest|].
      exists doi, doi0. split; [apply in_or_app; now left|now split].
    + rewrite H2 in H12. right. split; [now left|]. split; [exact Hrest|].
      exists doi, doi0. split; [apply in_or_app; now right|now split].
    + rewrite H2 in H12. right.
      split.
      { destruct H12 as [H1|(_ & (rest & Hr) & _)]; [now right|].
        discriminate Hr. }
      split; [exact Hrest|].
      exists doi, doi0. split; [apply in_or_app; now right|now split].
  - rewrite H23 in H12. exact H12.
Qed.

Lemma cache_hit_none_entry (c : Cache.t) (url : string) :
  cache_hit (Some c) url = None ->
  Cache.cache c !! url = None \/ Cache.cache c !! url = Some "".
Proof.
  unfold cache_hit, Cache.__getitem__.
  destruct (Cache.cache c !! url) as [[|a v]|]; simpl; auto; discriminate.
Qed.

(** One turn of the loop. *)
Lemma crawl_step_cache (depth : nat) (cfg : config)
    (headers : list (string * string)) (rp : option policy) (doi : entry)
    (st st' : loop_state) (w w' : world) :
  crawl_step E depth cfg headers rp doi st w = (Ok st', w') ->
  match ls_cache st with
  | None => ls_cache st' = None
  | Some c =>
      exists c' : Cache.t,
        ls_cache st' = Some c'
        /\ Cache.cache_dir c' = Cache.cache_dir c
        /\ cache_extends cfg [doi] (Cache.cache c) (Cache.cache c')
  end.
Proof.
  assert (Hsame : forall s : loop_state, ls_cache s = ls_cache st ->
            match ls_cache st with
            | None => ls_cache s = None
            | Some c =>
                exists c' : Cache.t,
                  ls_cache s = Some c'
                  /\ Cache.cache_dir c' = Cache.cache_dir c
                  /\ cache_extends cfg [doi] (Cache.cache c) (Cache.cache c')
            end).
  { intros s Hs. rewrite Hs. destruct (ls_cache st) as [c|]; [|reflexivity].
    exists c. split; [reflexivity|]. split; [reflexivity|].
    apply cache_extends_refl. }
  unfold crawl_step. intros H.
  apply bind_inv in H as (doi0 & w1 & Hdoi & H).
  unfold lift in Hdoi. inversion Hdoi as [[Hdoi0 Hw1]]. clear Hdoi. subst w1.
  cbv zeta in H.
  destruct (cache_hit (ls_cache st) _) as [v|] eqn:Hhit.
  - apply bind_inv in H as (u & w2 & _ & H). inversion H; subst.
    now apply Hsame.
  - destruct (allowed _ _ _ _).
    2: { apply bind_inv in H as (u & w2 & _ & H). inversion H; subst.
         now apply Hsame. }
    unfold fetch in H.
    apply bind_inv in H as (domains & w2 & _ & H).
    apply bind_inv in H as (html & w3 & _ & H).
    apply bind_inv in H as (result & w4 & _ & H).
    destruct result as [result|];
      [|inversion H; subst; now apply Hsame].
    cbv zeta in H.
    apply bind_inv in H as (q & w5 & _ & H).
    apply bind_inv in H as (q' & w6 & _ & H).
    apply bind_inv in H as (saved & w7 & _ & H).
    destruct saved; [|inversion H; subst; now apply Hsame].
    apply bind_inv in H as (cache' & w8 & Hstore & H).
    inversion H; subst st' w8. clear H. simpl ls_cache in *.
    destruct (ls_cache st) as [c|].
    + apply bind_inv in Hstore as (c' & w9 & Hstore & Hret).
      inversion Hret; subst cache' w9. clear Hret.
      rewrite setitem_unfold in Hstore. cbv zeta in Hstore.
      inversion Hstore as [[Hc' Hw']]. clear Hstore.
      eexists. split; [reflexivity|]. split; [reflexivity|]. simpl.
      intros k.
      destruct (decide (doi_parser doi0 (start_url cfg) (useSSL cfg) = k))
        as [<-|Hne].
      * rewrite lookup_insert_eq. right.
        split; [now apply cache_hit_none_entry|].
        split; [now eexists|].
        exists doi, doi0. split; [now left|]. split; [exact Hdoi0|reflexivity].
      * rewrite lookup_insert_ne by exact Hne.
        destruct (Cache.cache c !! k); auto.
    + inversion Hstore. reflexivity.
Qed.

Lemma crawl_loop_cache (depth : nat) (cfg : config)
    (headers : list (string * string)) (rp : option policy)
    (doi_list : list entry) (st st' : loop_state) (w w' : world) :
  crawl_loop E depth cfg headers rp doi_list st w = (Ok st', w') ->
  match ls_cache st with
  | None => ls_cache st' = None
  | Some c =>
      exists c' : Cache.t,
        ls_cache st' = Some c'
        /\ Cache.cache_dir c' = Cache.cache_dir c
        /\ cache_extends cfg doi_list (Cache.cache c) (Cache.cache c')
  end.
Proof.
  revert st w. induction doi_list as [|doi rest IH]; intros st w H.
  - inversion H; subst. destruct (ls_cache st') as [c|]; [|reflexivity].
    exists c. split; [reflexivity|]. split; [reflexivity|].
    apply cache_extends_refl.
  - simpl in H. apply bind_inv in H as (st1 & w1 & Hstep & Hrest).
    apply crawl_step_cache in Hstep. apply IH in Hrest.
    destruct (ls_cache st) as [c|].
    + destruct Hstep as (c1 & Hc1 & Hdir1 & Hext1). rewrite Hc1 in Hrest.
      destruct Hrest as (c2 & Hc2 & Hdir2 & Hext2).
      exists c2. split; [exact Hc2|]. split; [congruence|].
      apply (cache_extends_trans cfg [doi] rest _ _ _ Hext1 Hext2).
    + now rewrite Hstep in Hrest.
Qed.

End CacheGrowth.

(** X13.  In a run that reaches its report, the cache object keeps its file
    and only grows at landing addresses of the list: every key it had is
    still there; a key that held a non-empty value holds the same value; what
    has been put under a key is an address that starts with [https:], and the
    key is the landing address of an identifier of the list that held
    nothing, or the empty string, before.  A run without a cache object ends
    without one. *)
Theorem run_extends_cache (E : env) (depth : nat) (doi_list : list entry)
    (cfg : config) (cache : option Cache.t) (st : loop_state)
    (w w' : world) :
  sci_hub_crawler E depth doi_list cfg cache w = (Ok st, w') ->
  match cache with
  | None => ls_cache st = None
  | Some c =>
      exists c' : Cache.t,
        ls_cache st = Some c'
        /\ Cache.cache_dir c' = Cache.cache_dir c
        /\ cache_extends cfg doi_list (Cache.cache c) (Cache.cache c')
        /\ (forall k : string, is_Some (Cache.cache c !! k) ->
              is_Some (Cache.cache c' !! k))
        /\ (forall (k v : string), Cache.cache c !! k = Some v -> v <> "" ->
              Cache.cache c' !! k = Some v)
  end.
Proof.
  unfold sci_hub_crawler. intros H.
  apply bind_inv in H as (rp & w1 & _ & H).
  apply bind_inv in H as (u1 & w2 & _ & H).
  apply bind_inv in H as (u2 & w3 & _ & H).
  apply bind_inv in H as (u3 & w4 & _ & H).
  apply bind_inv in H as (st1 & w5 & Hloop & H).
  unfold bind, print, ret in H. inversion H; subst st w'. clear H.
  apply crawl_loop_cache in Hloop. simpl ls_cache in Hloop.
  destruct cache as [c|]; [|exact Hloop].
  destruct Hloop as (c' & Hc' & Hdir & Hext).
  exists c'. split; [exact Hc'|]. split; [exact Hdir|].
  split; [exact Hext|]. split.
  - intros k [v Hv]. specialize (Hext k).
    destruct (Cache.cache c' !! k); [eauto|congruence].
  - intros k v Hv Hne. specialize (Hext k).
    destruct (Cache.cache c' !! k) as [v'|]; [|congruence].
    destruct Hext as [Hsame|([Hold|Hold] & _)]; congruence.
Qed.

(** The run of the end-to-end scenario, started with another address in the
    cache: that entry is still there at the end. *)
Lemma run_extends_cache_witness :
  let c := {| Cache.cache_dir := "papers/cache.txt";
              Cache.cache := {[ "https://www.sci-hub.wf/10.9/old"
                                := "https://mirror/old.pdf" ]} |} in
  exists (st : loop_state) (w' : world) (c' : Cache.t),
    sci_hub_crawler (Scenario.gateway "Example Title") 3 [Scenario.row]
      (default_config "papers") (Some c) Scenario.world0 = (Ok st, w')
    /\ ls_cache st = Some c'
    /\ Cache.cache c' !! "https://www.sci-hub.wf/10.9/old"
       = Some "https://mirror/old.pdf".
Proof.
  intros c.
  destruct (sci_hub_crawler (Scenario.gateway "Example Title") 3
              [Scenario.row] (default_config "papers") (Some c)
              Scenario.world0) as [o w'] eqn:Hrun.
  assert (Hok : exists st, o = Ok st).
  { apply (f_equal fst) in Hrun. simpl in Hrun. subst o.
    vm_compute. eexists. reflexivity. }
  destruct Hok as (st & ->). exists st, w'.
  destruct (run_extends_cache (Scenario.gateway "Example Title") 3
              [Scenario.row] (default_config "papers") (Some c) st
              Scenario.world0 w' Hrun) as (c' & Hc' & _ & _ & _ & Hkept).
  exists c'. split; [reflexivity|]. split; [exact Hc'|].
  apply Hkept; [vm_compute; reflexivity|discriminate].
Defined.

(** ** A turn that raises *)

Section Abort.

Variable E : env.

Lemma crawl_loop_raise_app (depth : nat) (cfg : config)
    (headers : list (string * string)) (rp : option policy)
    (l1 l2 : list entry) (st : loop_state) (w w' : world) (e : exn) :
  crawl_loop E depth cfg headers rp l1 st w = (Raise e, w') ->
  crawl_loop E depth cfg headers rp (l1 ++ l2) st w = (Raise e, w').
Proof.
  revert st w. induction l1 as [|doi rest IH]; intros st w H;
    [discriminate H|].
  simpl in H |- *. unfold bind in H |- *.
  destruct (crawl_step E depth cfg headers rp doi st w) as [[st1|e1] w1];
    [now apply IH|exact H].
Qed.

(** The run as a setup, a loop and a report. *)
Lemma sci_hub_crawler_unfold (depth : nat) (doi_list : list entry)
    (cfg : config) (cache : option Cache.t) (w : world) :
  sci_hub_crawler E depth doi_list cfg cache w =
  match crawler_setup E cfg w with
  | (Ok rp, w0) =>
      match crawl_loop E depth cfg (crawler_headers cfg) rp doi_list
              (initial_state cache) (add_out MsgStart w0) with
      | (Ok st, w1) =>
          let report := MsgDone (Z.of_nat (length doi_list))
                          (download_succ_cnt st) in
          (Ok st, add_out report (add_out report w1))
      | (Raise e, w1) => (Raise e, w1)
      end
  | (Raise e, w0) => (Raise e, w0)
  end.
Proof.
  unfold sci_hub_crawler, crawler_setup, initial_state, bind, print, ret.
  cbv beta zeta.
  destruct (get_robot_parser E (effective_robot_url cfg) w) as [[rp|e0] w0];
    [|reflexivity].
  destruct (os_makedirs E (dir cfg) w0) as [[u|e1] w1]; [|reflexivity].
  destruct (makedirs_all E (quartile_dirs cfg) w1) as [[u2|e2] w2];
    [|reflexivity].
  destruct (crawl_loop E depth cfg (crawler_headers cfg) rp doi_list _ _)
    as [[st|e3] w3]; reflexivity.
Qed.

End Abort.

(** X14.  An exception in one turn ends the run: when the run on a list ends
    in an exception, the run on any list that continues it ends in the same
    exception and in the same world.  The rows after the failing one are
    never looked at, and nothing is reported. *)
Theorem run_stops_at_first_exception (E : env) (depth : nat)
    (l1 l2 : list entry) (cfg : config) (cache : option Cache.t)
    (w w' : world) (e : exn) :
  sci_hub_crawler E depth l1 cfg cache w = (Raise e, w') ->
  sci_hub_crawler E depth (l1 ++ l2) cfg cache w = (Raise e, w').
Proof.
  rewrite !sci_hub_crawler_unfold.
  destruct (crawler_setup E cfg w) as [[rp|e0] w0]; [|trivial].
  destruct (crawl_loop E depth cfg (crawler_headers cfg) rp l1 _
              (add_out MsgStart w0)) as [[st|e3] w3] eqn:Hloop;
    [discriminate|].
  intros H. inversion H; subst e3 w3. clear H.
  now rewrite (crawl_loop_raise_app E depth cfg _ rp l1 l2 _ _ _ _ Hloop).
Qed.

(** The two-field pair stops the run before the row behind it is looked
    at. *)
Lemma run_stops_at_first_exception_witness :
  exists w' : world,
    sci_hub_crawler (Scenario.gateway "Example Title") 3
      ([Scenario.pair] ++ [Scenario.row]) (default_config "papers")
      (Some Scenario.empty_cache) Scenario.world0 = (Raise IndexError, w')
    /\ length (sent w') = 1%nat.
Proof.
  eexists. split.
  - apply (run_stops_at_first_exception (Scenario.gateway "Example Title") 3
             [Scenario.pair] [Scenario.row] (default_config "papers")
             (Some Scenario.empty_cache) Scenario.world0).
    vm_compute. reflexivity.
  - reflexivity.
Defined.

(** ** Loading the cache *)

Section CacheLoading.

Variable E : env.
Variable F : fs_env.

Lemma read_cache_unfold (cache_dir : string) (v : xworld) :
  CacheFile.read_cache E F cache_dir v =
  let failed (e : xexn) (v' : xworld) :=
    (XOk (∅ : gmap string string),
     {| core := core v';
        notes := notes v'
                 ++ [(length (out (core v')), NoteCacheReadError e)] |}) in
  let create :=
    if writable E cache_dir
    then (XOk ∅,
          {| core := set_disk (<[cache_dir := BinFile ""]> (disk (core v)))
                       (core v);
             notes := notes v |})
    else failed (Inner OSError) v in
  match disk (core v) !! cache_dir with
  | Some f =>
      if file_size_nonzero f then
        if readable F cache_dir then
          match json_load F f with
          | XOk m => (XOk m, v)
          | XRaise e => failed e v
          end
        else failed (Inner OSError) v
      else create
  | None => create
  end.
Proof.
  unfold CacheFile.read_cache, xtry, xbind, from_core, open_write, xprint,
    xret.
  cbv zeta. destruct v as [w ns]. simpl.
  destruct (disk w !! cache_dir) as [f|].
  - destruct (file_size_nonzero f).
    + destruct (readable F cache_dir); [|reflexivity].
      destruct (json_load F f); reflexivity.
    + destruct (writable E cache_dir); reflexivity.
  - destruct (writable E cache_dir); reflexivity.
Qed.

End CacheLoading.

(** X15.  [read_cache] on a cache file as this program leaves it: none, an
    empty one, or one written by [__setitem__].  It never raises.  A written
    file that can be opened gives back the mapping that was written, with the
    world as it was; one that cannot be opened is reported with its [OSError]
    and the empty mapping is returned.  A file that is missing or empty is
    made empty, nothing else on the disk changing, and the empty mapping is
    returned; when it cannot be written, the [OSError] is reported and the
    disk stays as it was. *)
Theorem read_cache_never_raises (E : env) (F : fs_env) (cache_dir : string)
    (v : xworld) :
  own_cache_file (disk (core v) !! cache_dir) = true ->
  CacheFile.read_cache E F cache_dir v
  = match disk (core v) !! cache_dir with
    | Some (JsonFile m) =>
        if readable F cache_dir then (XOk m, v)
        else (XOk ∅, read_failed (Inner OSError) v)
    | _ =>
        if writable E cache_dir then (XOk ∅, created_empty cache_dir v)
        else (XOk ∅, read_failed (Inner OSError) v)
    end.
Proof.
  intros Hown. rewrite read_cache_unfold. cbv zeta.
  unfold read_failed, created_empty.
  destruct (disk (core v) !! cache_dir) as [[m|content]|]; simpl in *.
  - reflexivity.
  - apply negb_true_iff in Hown. rewrite Hown. reflexivity.
  - reflexivity.
Qed.

(** A file that holds one address is read back. *)
Lemma read_cache_never_raises_witness :
  let F := {| readable := fun _ => true; json_loads := fun _ => None |} in
  let v := {| core := set_disk
                        {[ "papers/cache.txt"
                           := JsonFile {[ Scenario.landing_url
                                          := "https://mirror/file.pdf" ]} ]}
                        Scenario.world0;
              notes := [] |} in
  CacheFile.read_cache Scenario.offline F "papers/cache.txt" v
  = (XOk {[ Scenario.landing_url := "https://mirror/file.pdf" ]}, v).
Proof.
  intros F v.
  rewrite (read_cache_never_raises Scenario.offline F "papers/cache.txt" v);
    reflexivity.
Defined.

(** X16.  What [__setitem__] has written, [Cache(cache_dir)] reads back: when
    the cache file can be written and read, constructing a new cache object
    on the same path after a store gives an object equal to the one that
    stored, mapping included, without changing the world or printing. *)
Theorem cache_survives_restart (E : env) (F : fs_env) (self : Cache.t)
    (key value : string) (w : world) (ns : list (nat * note)) :
  writable E (Cache.cache_dir self) = true ->
  readable F (Cache.cache_dir self) = true ->
  exists (self' : Cache.t) (w' : world),
    Cache.__setitem__ E self key value w = (Ok self', w')
    /\ CacheFile.__init__ E F (Cache.cache_dir self)
         {| core := w'; notes := ns |}
       = (XOk self', {| core := w'; notes := ns |})
    /\ Cache.__getitem__ self' key = Some value.
Proof.
  intros Hw Hr. rewrite setitem_unfold. cbv zeta. rewrite Hw.
  eexists _, _. split; [reflexivity|]. split.
  - unfold CacheFile.__init__, xbind. rewrite read_cache_unfold. cbv zeta.
    simpl. rewrite lookup_insert_eq. simpl. rewrite Hr. reflexivity.
  - apply lookup_insert_eq.
Qed.

Lemma cache_survives_restart_witness :
  let F := {| readable := fun _ => true; json_loads := fun _ => None |} in
  exists (self' : Cache.t) (w' : world),
    Cache.__setitem__ Scenario.offline Scenario.empty_cache
      Scenario.landing_url "https://mirror/file.pdf" Scenario.world0
    = (Ok self', w')
    /\ CacheFile.__init__ Scenario.offline F "papers/cache.txt"
         {| core := w'; notes := [] |}
       = (XOk self', {| core := w'; notes := [] |}).
Proof.
  intros F.
  destruct (cache_survives_restart Scenario.offline F Scenario.empty_cache
              Scenario.landing_url "https://mirror/file.pdf" Scenario.world0
              []) as (self' & w' & Hset & Hinit & _).
  - reflexivity.
  - reflexivity.
  - exists self', w'. split; [exact Hset|exact Hinit].
Defined.

(** ** The cache file during a run *)

Section Mirror.

Variable E : env.
Variable p : string.
Hypothesis p_not_pdf : PyStr.ends_with_char "f"%char p = false.

Lemma pdf_path_ends_with_f (dir name : string) :
  PyStr.ends_with_char "f"%char (pdf_path dir name) = true.
Proof.
  rewrite pdf_path_under_dir. cbv zeta.
  assert (Hfile : PyStr.ends_with_char "f"%char
                    (get_valid_filename name default_name_len ++ ".pdf")
                  = true)
    by (rewrite ends_with_char_app by discriminate; reflexivity).
  destruct (PyStr.truthy dir); [|exact Hfile].
  destruct (PyStr.ends_with_char "/"%char dir).
  - rewrite ends_with_char_app; [exact Hfile|].
    destruct (get_valid_filename name default_name_len); discriminate.
  - rewrite ends_with_char_app by discriminate.
    rewrite ends_with_char_app; [exact Hfile|].
    destruct (get_valid_filename name default_name_len); discriminate.
Qed.

Lemma pdf_path_not_p (dir name : string) : pdf_path dir name <> p.
Proof.
  intros H. pose proof (pdf_path_ends_with_f dir name) as Hf.
  rewrite H in Hf. congruence.
Qed.

Lemma same_at_refl (w : world) : same_at p w w.
Proof. reflexivity. Qed.

Lemma same_at_trans (w1 w2 w3 : world) :
  same_at p w1 w2 -> same_at p w2 w3 -> same_at p w1 w3.
Proof. unfold same_at. congruence. Qed.

Lemma same_keeps_bind {A B : Type} (m : M A) (k : A -> M B) :
  keeps (same_at p) m -> (forall a, keeps (same_at p) (k a)) ->
  keeps (same_at p) (bind m k).
Proof.
  intros Hm Hk w. unfold bind. specialize (Hm w).
  destruct (m w) as [[a|e] w1]; simpl in Hm; [|exact Hm].
  apply (same_at_trans w w1); [exact Hm|apply Hk].
Qed.

Lemma same_keeps_try {A : Type} (m : M A) (c : exn -> bool)
    (h : exn -> M A) :
  keeps (same_at p) m -> (forall e, keeps (same_at p) (h e)) ->
  keeps (same_at p) (try_except m c h).
Proof.
  intros Hm Hh w. unfold try_except. specialize (Hm w).
  destruct (m w) as [[a|e] w1]; simpl in Hm; [exact Hm|].
  destruct (c e); [|exact Hm].
  apply (same_at_trans w w1); [exact Hm|apply Hh].
Qed.

Lemma same_keeps_pure {A : Type} (m : M A) :
  (forall w, disk (snd (m w)) = disk w) -> keeps (same_at p) m.
Proof. intros H w. unfold same_at. now rewrite H. Qed.

Lemma same_keeps_download (depth : nat) (url : string)
    (headers : list (string * string))
    (proxies : option (list (string * string))) (n : Z) :
  keeps (same_at p) (download E depth url headers proxies n).
Proof.
  revert n. induction depth as [|d IH]; intros n;
    [now apply same_keeps_pure|].
  simpl. apply same_keeps_bind; [now apply same_keeps_pure|]. intros _.
  apply same_keeps_try.
  - apply same_keeps_bind.
    { apply same_keeps_pure. intros w. unfold requests_get. cbv zeta.
      now destruct (net E _ _). }
    intros [status text].
    destruct (status >=? 400); [|now apply same_keeps_pure].
    destruct (should_retry n status); [apply IH|].
    apply same_keeps_bind; [now apply same_keeps_pure|]. intros _.
    now apply same_keeps_pure.
  - intros e. apply same_keeps_bind; [now apply same_keeps_pure|].
    intros _. now apply same_keeps_pure.
Qed.

Lemma same_keeps_save_pdf (result : link) (dir : string) (doi : pyval)
    (content : string) :
  keeps (same_at p) (save_pdf E result dir doi content).
Proof.
  intros w. destruct (as_str (name_source result doi)) as [name|e] eqn:Hn.
  - rewrite (save_pdf_named E result dir doi content name w Hn).
    destruct (writable E (pdf_path dir name)); [|reflexivity].
    unfold same_at. simpl. apply lookup_insert_ne, pdf_path_not_p.
  - now rewrite (save_pdf_unnamed E result dir doi content w e Hn).
Qed.

Lemma same_keeps_download_pdf (depth : nat) (result : link)
    (headers : list (string * string)) (dir : string)
    (proxies : option (list (string * string))) (n : Z) (doi : pyval) :
  keeps (same_at p) (download_pdf E depth result headers dir proxies n doi).
Proof.
  revert n. induction depth as [|d IH]; intros n;
    [now apply same_keeps_pure|].
  simpl. apply same_keeps_bind.
  { apply same_keeps_pure. intros w. unfold urlparse.
    now destruct (url_valid E (onclick result)). }
  intros _. apply same_keeps_bind; [now apply same_keeps_pure|]. intros _.
  apply same_keeps_try.
  - apply same_keeps_bind.
    { apply same_keeps_pure. intros w. unfold requests_get. cbv zeta.
      now destruct (net E _ _). }
    intros [status text].
    destruct (status >=? 400); [|apply same_keeps_save_pdf].
    destruct (should_retry n status); [apply IH|].
    apply same_keeps_bind; [now apply same_keeps_pure|]. intros _.
    now apply same_keeps_pure.
  - intros e. apply same_keeps_bind; [now apply same_keeps_pure|].
    intros _. now apply same_keeps_pure.
Qed.

Lemma same_keeps_wait (url : string) (delay : Z) (domains : gmap string Z) :
  keeps (same_at p) (wait E url delay (Some domains)).
Proof.
  apply same_keeps_pure. intros w. rewrite wait_unfold. cbv zeta. simpl.
  destruct (domains !! url_netloc E url); [destruct (_ && _)|]; reflexivity.
Qed.

Lemma same_keeps_get_link_xpath (html : option string) :
  keeps (same_at p) (get_link_xpath E html).
Proof.
  apply same_keeps_pure. intros w. rewrite get_link_xpath_unfold.
  destruct (fromstring E html) as [tree|e]; [|reflexivity].
  destruct (controls tree) as [|c cs]; [reflexivity|].
  destruct (extracted tree (c :: cs)); reflexivity.
Qed.

(** From a result to the two worlds. *)
Lemma keeps_result {A : Type} (R : world -> world -> Prop) (m : M A)
    (w w' : world) (o : outcome A) :
  keeps R m -> m w = (o, w') -> R w w'.
Proof. intros Hm Hrun. specialize (Hm w). now rewrite Hrun in Hm. Qed.

Lemma mirrored_same (c0 c1 : Cache.t) (w0 w1 w2 : world) :
  Cache.cache_dir c0 = p ->
  mirrored c0 w0 c1 w1 -> same_at p w1 w2 -> mirrored c0 w0 c1 w2.
Proof.
  intros Hp (Hdir & Hcase) Hsame. split; [exact Hdir|].
  rewrite Hp in *. unfold same_at in *.
  destruct Hcase as [[Hc Hd]|Hd]; [left|right]; [split|]; congruence.
Qed.

Lemma crawl_step_mirrored (depth : nat) (cfg : config)
    (headers : list (string * string)) (rp : option policy) (doi : entry)
    (st st' : loop_state) (w w' : world) (c0 c1 : Cache.t) (w0 : world) :
  Cache.cache_dir c0 = p ->
  writable E p = true ->
  crawl_step E depth cfg headers rp doi st w = (Ok st', w') ->
  ls_cache st = Some c1 -> mirrored c0 w0 c1 w ->
  exists c2 : Cache.t, ls_cache st' = Some c2 /\ mirrored c0 w0 c2 w'.
Proof.
  intros Hp Hw H Hc1 Hinv. unfold crawl_step in H.
  apply bind_inv in H as (doi0 & w1 & Hdoi & H).
  unfold lift in Hdoi. inversion Hdoi; subst w1. clear Hdoi.
  cbv zeta in H. destruct (cache_hit (ls_cache st) _) as [v|].
  { apply bind_inv in H as (u & w2 & Hprint & H). inversion H; subst st' w'.
    inversion Hprint; subst w2. exists c1. split; [exact Hc1|].
    now apply (mirrored_same c0 c1 w0 w). }
  destruct (allowed _ _ _ _).
  2: { apply bind_inv in H as (u & w2 & Hprint & H).
       inversion H; subst st' w'. inversion Hprint; subst w2. exists c1. split; [exact Hc1|].
       now apply (mirrored_same c0 c1 w0 w). }
  unfold fetch in H.
  apply bind_inv in H as (domains & w2 & Hwait & H).
  apply (keeps_result _ _ _ _ _ (same_keeps_wait _ _ _)) in Hwait.
  apply bind_inv in H as (html & w3 & Hpage & H).
  apply (keeps_result _ _ _ _ _ (same_keeps_download _ _ _ _ _)) in Hpage.
  apply bind_inv in H as (result & w4 & Hlink & H).
  apply (keeps_result _ _ _ _ _ (same_keeps_get_link_xpath _)) in Hlink.
  assert (H4 : mirrored c0 w0 c1 w4).
  { apply (mirrored_same c0 c1 w0 w); [exact Hp|exact Hinv|].
    apply (same_at_trans w w2); [exact Hwait|].
    now apply (same_at_trans w2 w3). }
  destruct result as [result|].
  2: { inversion H; subst st' w'. exists c1. now split. }
  cbv zeta in H.
  apply bind_inv in H as (q & w5 & Hq & H). inversion Hq; subst w5.
  apply bind_inv in H as (q' & w6 & Hq' & H). inversion Hq'; subst w6.
  apply bind_inv in H as (saved & w7 & Hpdf & H).
  apply (keeps_result _ _ _ _ _ (same_keeps_download_pdf _ _ _ _ _ _ _))
    in Hpdf.
  assert (H7 : mirrored c0 w0 c1 w7)
    by now apply (mirrored_same c0 c1 w0 w4).
  destruct saved.
  2: { inversion H; subst st' w'. exists c1. now split. }
  apply bind_inv in H as (cache' & w8 & Hstore & H).
  inversion H; subst st' w8. clear H. simpl ls_cache in *.
  rewrite Hc1 in Hstore.
  apply bind_inv in Hstore as (c' & w9 & Hstore & Hret).
  inversion Hret; subst cache' w9. clear Hret.
  rewrite setitem_unfold in Hstore. cbv zeta in Hstore.
  destruct H7 as (Hdir & _). rewrite Hdir, Hp, Hw in Hstore.
  inversion Hstore; subst c' w'. clear Hstore.
  eexists. split; [reflexivity|]. split; [simpl; congruence|].
  right. simpl. rewrite Hp. apply lookup_insert_eq.
Qed.

Lemma crawl_loop_mirrored (depth : nat) (cfg : config)
    (headers : list (string * string)) (rp : option policy)
    (doi_list : list entry) (st st' : loop_state) (w w' : world)
    (c0 c1 : Cache.t) (w0 : world) :
  Cache.cache_dir c0 = p ->
  writable E p = true ->
  crawl_loop E depth cfg headers rp doi_list st w = (Ok st', w') ->
  ls_cache st = Some c1 -> mirrored c0 w0 c1 w ->
  exists c2 : Cache.t, ls_cache st' = Some c2 /\ mirrored c0 w0 c2 w'.
Proof.
  intros Hp Hw. revert st w c1.
  induction doi_list as [|doi rest IH]; intros st w c1 H Hc1 Hinv.
  - inversion H; subst st' w'. now exists c1.
  - simpl in H. apply bind_inv in H as (st1 & w1 & Hstep & Hrest).
    destruct (crawl_step_mirrored depth cfg headers rp doi st st1 w w1 c0 c1
                w0 Hp Hw Hstep Hc1 Hinv) as (c2 & Hc2 & Hinv2).
    exact (IH st1 w1 c2 Hrest Hc2 Hinv2).
Qed.

End Mirror.

(** X17.  Take a run that reaches its report, with a cache object whose file
    can be written and read and whose name does not end in [f] (so that no
    saved article can take its place).  Then either nothing was stored, the
    mapping and the cache file being as they were found; or the cache file
    holds exactly the mapping the object ends with, and a cache object
    constructed afterwards on the same path is equal to it: what this run
    has saved is a cache hit for the next. *)
Theorem run_leaves_cache_on_disk (E : env) (F : fs_env) (depth : nat)
    (doi_list : list entry) (cfg : config) (c : Cache.t) (st : loop_state)
    (w w' : world) :
  sci_hub_crawler E depth doi_list cfg (Some c) w = (Ok st, w') ->
  writable E (Cache.cache_dir c) = true ->
  readable F (Cache.cache_dir c) = true ->
  PyStr.ends_with_char "f"%char (Cache.cache_dir c) = false ->
  exists c' : Cache.t,
    ls_cache st = Some c'
    /\ Cache.cache_dir c' = Cache.cache_dir c
    /\ ((Cache.cache c' = Cache.cache c
         /\ disk w' !! Cache.cache_dir c = disk w !! Cache.cache_dir c)
        \/ (disk w' !! Cache.cache_dir c = Some (JsonFile (Cache.cache c'))
            /\ forall ns : list (nat * note),
                 CacheFile.__init__ E F (Cache.cache_dir c)
                   {| core := w'; notes := ns |}
                 = (XOk c', {| core := w'; notes := ns |}))).
Proof.
  intros Hrun Hw Hr Hf. rewrite sci_hub_crawler_unfold in Hrun.
  destruct (crawler_setup E cfg w) as [[rp|e] w0] eqn:Hsetup;
    [|discriminate].
  assert (Hdisk0 : disk w0 = disk w).
  { unfold crawler_setup in Hsetup.
    apply bind_inv in Hsetup as (rp' & w1 & Hrp & Hsetup).
    apply bind_inv in Hsetup as (u1 & w2 & Hmk & Hsetup).
    apply bind_inv in Hsetup as (u2 & w3 & Hmks & Hsetup).
    inversion Hsetup; subst rp' w3. clear Hsetup.
    assert (H1 : disk w1 = disk w).
    { destruct (robots E (effective_robot_url cfg)) as [r|] eqn:Hrb.
      - rewrite (get_robot_parser_some E _ r w Hrb) in Hrp.
        now inversion Hrp.
      - rewrite (get_robot_parser_none E _ w Hrb) in Hrp.
        now inversion Hrp. }
    assert (H2 : disk w2 = disk w1).
    { unfold os_makedirs in Hmk. destruct (mkdir_ok E (dir cfg));
        now inversion Hmk. }
    destruct (makedirs_all_made E (quartile_dirs cfg) w2)
      as (made & _ & Hsnd & _).
    rewrite Hmks in Hsnd. simpl in Hsnd. subst w0.
    destruct (add_dirs_fields made w2) as (_ & Hd & _). congruence. }
  destruct (crawl_loop E depth cfg (crawler_headers cfg) rp doi_list
              (initial_state (Some c)) (add_out MsgStart w0))
    as [[st1|e] w1] eqn:Hloop; [|discriminate].
  cbv zeta in Hrun. inversion Hrun; subst st1 w'. clear Hrun.
  destruct (crawl_loop_mirrored E (Cache.cache_dir c) Hf depth cfg
              (crawler_headers cfg) rp doi_list (initial_state (Some c)) st
              (add_out MsgStart w0) w1 c c w eq_refl Hw Hloop eq_refl)
    as (c' & Hc' & Hdir & Hcase).
  { split; [reflexivity|]. left. split; [reflexivity|].
    unfold same_at. simpl. now rewrite Hdisk0. }
  exists c'. split; [exact Hc'|]. split; [exact Hdir|].
  destruct Hcase as [[Hsame Hat]|Hfile]; [left|right].
  - split; [exact Hsame|exact Hat].
  - split; [exact Hfile|]. intros ns.
    unfold CacheFile.__init__, xbind. rewrite read_cache_unfold. cbv zeta.
    simpl. rewrite Hfile. simpl. rewrite Hr. simpl.
    destruct c' as [d' m']. simpl in Hdir. now subst d'.
Qed.

(** After the run of the scenario a new cache object on [papers/cache.txt]
    holds the landing address of the article. *)
Lemma run_leaves_cache_on_disk_witness :
  let F := {| readable := fun _ => true; json_loads := fun _ => None |} in
  exists (st : loop_state) (w' : world) (c' : Cache.t),
    sci_hub_crawler (Scenario.gateway "Example Title") 3 [Scenario.row]
      (default_config "papers") (Some Scenario.empty_cache) Scenario.world0
    = (Ok st, w')
    /\ ls_cache st = Some c'.
Proof.
  intros F.
  destruct (sci_hub_crawler (Scenario.gateway "Example Title") 3
              [Scenario.row] (default_config "papers")
              (Some Scenario.empty_cache) Scenario.world0)
    as [o w'] eqn:Hrun.
  assert (Hok : exists st, o = Ok st).
  { apply (f_equal fst) in Hrun. simpl in Hrun. subst o.
    vm_compute. eexists. reflexivity. }
  destruct Hok as (st & ->). exists st, w'.
  destruct (run_leaves_cache_on_disk (Scenario.gateway "Example Title") F 3
              [Scenario.row] (default_config "papers") Scenario.empty_cache
              st Scenario.world0 w' Hrun) as (c' & Hc' & _).
  - reflexivity.
  - reflexivity.
  - reflexivity.
  - exists c'. split; [reflexivity|exact Hc'].
Defined.

(** ** The identifier list *)

Section Metadata.

Variable E : env.
Variable Mt : meta_env.

(** [title_doi_journal] always returns, after one request. *)
Lemma title_doi_journal_runs (keyword : string) (rows : Z) (v : xworld) :
  exists (doi_info : option (list info)) (v1 : xworld),
    title_doi_journal E Mt keyword rows v = (XOk doi_info, v1)
    /\ core v1 = add_sent (lookup_request keyword rows) (core v).
Proof.
  unfold title_doi_journal, xtry. unfold xbind at 1.
  unfold from_core, requests_get. cbv zeta.
  fold (lookup_request keyword rows).
  destruct (net E (length (sent (core v))) (lookup_request keyword rows))
    as [status body|]; [|eexists _, _; split; reflexivity].
  cbn [fst snd].
  destruct (status =? 200); [|eexists _, _; split; reflexivity].
  unfold xbind at 1. unfold xlift at 1.
  destruct (response_json Mt body) as [data|];
    [|eexists _, _; split; reflexivity].
  unfold xbind at 1. unfold xlift at 1.
  destruct (subscript data "message") as [message|e];
    [|eexists _, _; split; reflexivity].
  unfold xbind at 1. unfold xlift at 1.
  destruct (json_get message "items" (JArr [])) as [works|e];
    [|eexists _, _; split; reflexivity].
  unfold xbind at 1. unfold xlift at 1.
  destruct (iterate works) as [items|e];
    [|eexists _, _; split; reflexivity].
  unfold xbind at 1. unfold xlift at 1.
  destruct (infos_of items []) as [results|e];
    eexists _, _; split; reflexivity.
Qed.

(** [fetch_impact_factor] raises what [Factor()] raises and nothing else, and
    leaves the pipeline's world alone. *)
Lemma fetch_impact_factor_runs (issn : json) (v : xworld) :
  match factor_new Mt issn with
  | Some e => fetch_impact_factor Mt issn v = (XRaise e, v)
  | None =>
      exists v' : xworld,
        fetch_impact_factor Mt issn v = (XOk (found_factor Mt issn), v')
        /\ core v' = core v
  end.
Proof.
  unfold fetch_impact_factor, found_factor.
  destruct (factor_new Mt issn) as [e|]; [reflexivity|].
  unfold xtry, xbind, xlift.
  destruct (factor_search Mt issn) as [[|[factor jcr] ak]|e];
    eexists; split; reflexivity.
Qed.

Lemma collect_rows_runs (doi_info : list info) (acc : list entry)
    (v : xworld) :
  exists (o : xoutcome (list entry)) (v' : xworld),
    collect_rows Mt doi_info acc v = (o, v')
    /\ core v' = core v
    /\ match o with
       | XOk l => l = (acc ++ omap (row_of Mt) doi_info)%list
       | XRaise e =>
           exists item : info,
             In item doi_info /\ factor_new Mt (info_issn item) = Some e
       end.
Proof.
  revert acc v. induction doi_info as [|item rest IH]; intros acc v.
  - exists (XOk acc), v. simpl. rewrite app_nil_r. repeat split.
  - simpl collect_rows. cbv zeta. unfold xbind at 1.
    pose proof (fetch_impact_factor_runs (info_issn item) v) as Hfetch.
    destruct (factor_new Mt (info_issn item)) as [e|] eqn:Hnew.
    + rewrite Hfetch. exists (XRaise e), v.
      split; [reflexivity|]. split; [reflexivity|].
      exists item. split; [now left|exact Hnew].
    + destruct Hfetch as (v1 & -> & Hcore1).
      simpl omap. unfold row_of at 1.
      destruct (found_factor Mt (info_issn item)) as [[factor jcr]|].
      * destruct (IH (acc ++ [[atom_of_json Mt (info_doi item); factor; jcr]])%list
                    v1) as (o & v' & Hrun & Hcore & Ho).
        exists o, v'. split; [exact Hrun|]. split; [congruence|].
        destruct o as [l|e].
        -- rewrite Ho, <- app_assoc. reflexivity.
        -- destruct Ho as (it & Hin & Hit). exists it. split; [now right|].
           exact Hit.
      * destruct (IH acc v1) as (o & v' & Hrun & Hcore & Ho).
        exists o, v'. split; [exact Hrun|]. split; [congruence|].
        destruct o as [l|e]; [exact Ho|].
        destruct Ho as (it & Hin & Hit). exists it. split; [now right|].
        exact Hit.
Qed.

Lemma rows_three_fields (doi_info : list info) :
  Forall (fun r : entry => length r = 3%nat) (omap (row_of Mt) doi_info).
Proof.
  induction doi_info as [|item rest IH]; simpl; [constructor|].
  unfold row_of at 1.
  destruct (found_factor Mt (info_issn item)) as [[factor jcr]|];
    [constructor; [reflexivity|exact IH]|exact IH].
Qed.

(** The lookup as a whole. *)
Lemma get_dois_and_impact_factors_runs (keyword : string) (rows : Z)
    (v : xworld) :
  exists (doi_info : option (list info)) (v1 : xworld)
         (o : xoutcome (list entry)) (v' : xworld),
    title_doi_journal E Mt keyword rows v = (XOk doi_info, v1)
    /\ get_dois_and_impact_factors E Mt keyword rows v = (o, v')
    /\ core v' = add_sent (lookup_request keyword rows) (core v)
    /\ match o with
       | XOk l => l = omap (row_of Mt) (default [] doi_info)
       | XRaise e =>
           exists item : info,
             In item (default [] doi_info)
             /\ factor_new Mt (info_issn item) = Some e
       end.
Proof.
  destruct (title_doi_journal_runs keyword rows v)
    as (doi_info & v1 & Hlookup & Hcore1).
  exists doi_info, v1. unfold get_dois_and_impact_factors.
  unfold xbind at 1. rewrite Hlookup. unfold xbind at 1, xprint at 1.
  destruct doi_info as [[|item rest]|].
  - eexists _, _. split; [reflexivity|]. split; [reflexivity|].
    split; [exact Hcore1|reflexivity].
  - destruct (collect_rows_runs (item :: rest) []
                {| core := core v1;
                   notes := (notes v1
                             ++ [(length (out (core v1)),
                                  NoteInfo (Some (item :: rest)))])%list |})
      as (o & v' & Hrun & Hcore & Ho).
    exists o, v'. split; [reflexivity|]. split; [exact Hrun|].
    split; [now rewrite Hcore|exact Ho].
  - eexists _, _. split; [reflexivity|]. split; [reflexivity|].
    split; [exact Hcore1|reflexivity].
Qed.

End Metadata.

(** X18.  [get_dois_and_impact_factors] sends one request, the query of
    [title_doi_journal] to the index, and changes nothing else of the
    pipeline's world.  When it returns, its rows are those of the
    dictionaries that [title_doi_journal] returned for which an impact factor
    is found, in the same order and each once: the identifier, the factor and
    the quartile of the first row found for the ISSN, so that every row has
    exactly three fields.  It raises only what [Factor()] raises in the
    lookup for one of the dictionaries. *)
Theorem get_dois_and_impact_factors_rows (E : env) (Mt : meta_env)
    (keyword : string) (rows : Z) (v : xworld) :
  exists (doi_info : option (list info)) (v1 : xworld)
         (o : xoutcome (list entry)) (v' : xworld),
    title_doi_journal E Mt keyword rows v = (XOk doi_info, v1)
    /\ get_dois_and_impact_factors E Mt keyword rows v = (o, v')
    /\ core v' = add_sent (lookup_request keyword rows) (core v)
    /\ match o with
       | XOk l =>
           l = omap (row_of Mt) (default [] doi_info)
           /\ Forall (fun r : entry => length r = 3%nat) l
       | XRaise e =>
           exists item : info,
             In item (default [] doi_info)
             /\ factor_new Mt (info_issn item) = Some e
       end.
Proof.
  destruct (get_dois_and_impact_factors_runs E Mt keyword rows v)
    as (doi_info & v1 & o & v' & Hlookup & Hrun & Hcore & Ho).
  exists doi_info, v1, o, v'.
  split; [exact Hlookup|]. split; [exact Hrun|]. split; [exact Hcore|].
  destruct o as [l|e]; [|exact Ho].
  split; [exact Ho|]. rewrite Ho. apply rows_three_fields.
Qed.

(** The loop of [title_doi_journal] on works of the expected shape. *)
Lemma infos_of_listed (works : list json) (infos results : list info) :
  Forall2 (fun work i => listed_work work = Some i) works infos ->
  infos_of works results = XOk (results ++ infos)%list.
Proof.
  intros H. revert results.
  induction H as [|work i works infos Hwork _ IH]; intros results; simpl.
  - now rewrite app_nil_r.
  - assert (Hinfo : info_of work = XOk i).
    { destruct work as [| |n|s|items|members]; try discriminate.
      unfold listed_work, first_or in Hwork. unfold info_of, json_get.
      destruct (member "DOI" members) as [doi|];
        destruct (member "container-title" members) as [[| | | |[|t ts]|]|];
        try discriminate;
        destruct (member "ISSN" members) as [[| | | |[|x xs]|]|];
        try discriminate; simpl in *; congruence. }
    rewrite Hinfo, IH, <- app_assoc. reflexivity.
Qed.

(** X28.  [title_doi_journal] on an answer of the expected shape: the status
    200 and a body that holds an object with a [message] object whose [items]
    is a list of works, each an object whose [container-title] and [ISSN],
    where it has them, are lists with an element.  It sends its one request,
    prints that the index was reached, and returns one dictionary for every
    work, in their order: the [DOI] of the work, its first title and its
    first ISSN, with [No DOI], [No journal] and [No ISSN] for what the work
    does not have. *)
Theorem title_doi_journal_on_answer (E : env) (Mt : meta_env)
    (keyword : string) (rows : Z) (v : xworld) (body : string)
    (data message : list (string * json)) (works : list json)
    (infos : list info) :
  net E (length (sent (core v))) (lookup_request keyword rows)
  = Response 200 body ->
  response_json Mt body = Some (JObj data) ->
  member "message" data = Some (JObj message) ->
  member "items" message = Some (JArr works) ->
  Forall2 (fun work i => listed_work work = Some i) works infos ->
  title_doi_journal E Mt keyword rows v
  = (XOk (Some infos),
     {| core := add_sent (lookup_request keyword rows) (core v);
        notes := notes v ++ [(length (out (core v)), NoteLookupDone)] |}).
Proof.
  intros Hnet Hjson Hmessage Hitems Hworks.
  unfold title_doi_journal, xtry. unfold xbind at 1.
  unfold from_core, requests_get. cbv zeta.
  fold (lookup_request keyword rows). rewrite Hnet. cbn [fst snd].
  change (200 =? 200) with true. cbv iota.
  unfold xbind at 1. unfold xlift at 1. rewrite Hjson.
  unfold xbind at 1. unfold xlift at 1. unfold subscript. rewrite Hmessage.
  unfold xbind at 1. unfold xlift at 1. unfold json_get at 1.
  rewrite Hitems.
  unfold xbind at 1. unfold xlift at 1. unfold iterate.
  unfold xbind at 1. unfold xlift at 1.
  rewrite (infos_of_listed works infos [] Hworks).
  reflexivity.
Qed.

(** Two works, of which the second has an identifier and nothing else. *)
Lemma title_doi_journal_on_answer_witness :
  exists v' : xworld,
    title_doi_journal (LookupScenario.served "Abc")
      (LookupScenario.index
         [LookupScenario.work "10.1/abc"; JObj [("DOI", JStr "10.1/def")]]
         (ANum "1.5") (AStr "Q2"))
      "trout" 100 {| core := Scenario.world0; notes := [] |}
    = (XOk (Some [{| info_doi := JStr "10.1/abc";
                     info_journal := JStr "Journal";
                     info_issn := JStr "1234-5678" |};
                  {| info_doi := JStr "10.1/def";
                     info_journal := JStr "No journal";
                     info_issn := JStr "No ISSN" |}]), v').
Proof.
  eexists.
  apply (title_doi_journal_on_answer (LookupScenario.served "Abc")
           (LookupScenario.index
              [LookupScenario.work "10.1/abc"; JObj [("DOI", JStr "10.1/def")]]
              (ANum "1.5") (AStr "Q2"))
           "trout" 100 {| core := Scenario.world0; notes := [] |} "{...}"
           [("status", JStr "ok");
            ("message",
             JObj [("items",
                    JArr [LookupScenario.work "10.1/abc";
                          JObj [("DOI", JStr "10.1/def")]])])]
           [("items",
             JArr [LookupScenario.work "10.1/abc";
                   JObj [("DOI", JStr "10.1/def")]])]
           [LookupScenario.work "10.1/abc"; JObj [("DOI", JStr "10.1/def")]]);
    try reflexivity.
  repeat constructor.
Defined.

(** X29.  [title_doi_journal] without an answer of the index.  On a status
    other than 200 it prints the status and returns [None]; when the request
    fails it prints the exception and returns [None].  In both cases the one
    request has been sent and nothing is raised. *)
Theorem title_doi_journal_without_answer (E : env) (Mt : meta_env)
    (keyword : string) (rows : Z) (v : xworld) :
  answered (net E (length (sent (core v))) (lookup_request keyword rows))
  = false ->
  title_doi_journal E Mt keyword rows v
  = (XOk None,
     {| core := add_sent (lookup_request keyword rows) (core v);
        notes :=
          notes v
          ++ [(length (out (core v)),
               match net E (length (sent (core v)))
                       (lookup_request keyword rows) with
               | Response status _ => NoteLookupStatus status
               | TransportError =>
                   NoteLookupError (Inner RequestException)
               end)] |}).
Proof.
  intros Hnone.
  unfold title_doi_journal, xtry. unfold xbind at 1.
  unfold from_core, requests_get. cbv zeta.
  fold (lookup_request keyword rows).
  destruct (net E (length (sent (core v))) (lookup_request keyword rows))
    as [status body|]; [|reflexivity].
  simpl in Hnone. cbn [fst snd]. rewrite Hnone. reflexivity.
Qed.

(** The index cannot be reached. *)
Lemma title_doi_journal_without_answer_witness :
  title_doi_journal Scenario.offline LookupScenario.nothing "trout" 100
    {| core := Scenario.world0; notes := [] |}
  = (XOk None,
     {| core := add_sent (lookup_request "trout" 100) Scenario.world0;
        notes := [(0%nat, NoteLookupError (Inner RequestException))] |}).
Proof.
  apply (title_doi_journal_without_answer Scenario.offline
           LookupScenario.nothing "trout" 100
           {| core := Scenario.world0; notes := [] |}).
  reflexivity.
Defined.
(** ** The order of the rows *)

Section Sorting.

Variable Mt : meta_env.

Lemma string_compare_refl (s : string) : String.compare s s = Eq.
Proof.
  pose proof (String.compare_antisym s s) as H.
  destruct (String.compare s s); [reflexivity|discriminate|discriminate].
Qed.

Lemma key_ltb_irrefl (a : atom) : is_str a = true -> key_ltb Mt a a = false.
Proof.
  destruct a as [|s|n]; try discriminate. intros _.
  unfold key_ltb, key_lt, String.ltb. now rewrite string_compare_refl.
Qed.

Lemma key_ltb_asym (a b : atom) :
  is_str a = true -> is_str b = true ->
  key_ltb Mt a b = true -> key_ltb Mt b a = false.
Proof.
  destruct a as [|x|n]; try discriminate.
  destruct b as [|y|m]; try discriminate. intros _ _.
  unfold key_ltb, key_lt, String.ltb.
  rewrite (String.compare_antisym y x).
  destruct (String.compare x y); simpl; congruence.
Qed.

Lemma key_ltb_leb (x y : string) :
  key_ltb Mt (AStr y) (AStr x) = false -> String.leb x y = true.
Proof.
  unfold key_ltb, key_lt, String.ltb, String.leb.
  rewrite (String.compare_antisym y x).
  destruct (String.compare x y); simpl; congruence.
Qed.

Lemma decorate_ok (l : list entry) (d : list (atom * entry)) :
  decorate l = Ok d -> List.map snd d = l /\ decorated d.
Proof.
  revert d. induction l as [|x rest IH]; intros d; simpl.
  - intros H. inversion H. split; [reflexivity|constructor].
  - destruct (py_index x 2) as [key|e] eqn:Hkey; [|discriminate].
    destruct (decorate rest) as [d0|e]; [|discriminate].
    intros H. inversion H; subst d. clear H.
    destruct (IH d0 eq_refl) as (Hmap & Hdec). simpl. split.
    + now rewrite Hmap.
    + constructor; [exact Hkey|exact Hdec].
Qed.

Lemma decorate_quartiles (l : list entry) :
  Forall (fun r => is_Some (quartile_of r)) l ->
  exists d, decorate l = Ok d
            /\ forallb (fun kx => is_str (fst kx)) d = true.
Proof.
  induction 1 as [|x rest Hx _ IH]; simpl.
  - exists []. split; reflexivity.
  - destruct IH as (d & Hd & Hstr). rewrite Hd.
    unfold quartile_of in Hx.
    destruct (py_index x 2) as [[|q|n]|e]; try (destruct Hx; discriminate).
    exists ((AStr q, x) :: d). split; [reflexivity|]. simpl. exact Hstr.
Qed.

Lemma decorate_three_fields (l : list entry) :
  Forall (fun r : entry => length r = 3%nat) l ->
  exists d, decorate l = Ok d.
Proof.
  induction 1 as [|x rest Hx _ IH]; simpl.
  - eexists. reflexivity.
  - destruct IH as (d & ->).
    destruct x as [|a [|b [|c [|? ?]]]]; try discriminate.
    eexists. reflexivity.
Qed.

Lemma insert_row_perm (x : atom * entry) (l : list (atom * entry)) :
  insert_row Mt x l ≡ₚ x :: l.
Proof.
  induction l as [|y rest IH]; simpl.
  - reflexivity.
  - destruct (key_ltb Mt (fst y) (fst x)).
    + rewrite IH. apply Permutation_swap.
    + reflexivity.
Qed.

Lemma sort_rows_perm (l : list (atom * entry)) : sort_rows Mt l ≡ₚ l.
Proof.
  induction l as [|x rest IH]; simpl.
  - reflexivity.
  - rewrite insert_row_perm. now rewrite IH.
Qed.

Lemma sort_rows_str (l : list (atom * entry)) :
  forallb (fun kx => is_str (fst kx)) l = true ->
  forallb (fun kx => is_str (fst kx)) (sort_rows Mt l) = true.
Proof.
  rewrite !forallb_forall. intros H kx Hin. apply H.
  exact (Permutation_in kx (sort_rows_perm l) Hin).
Qed.

Lemma insert_row_sorted (x : atom * entry) (l : list (atom * entry)) :
  is_str (fst x) = true ->
  forallb (fun kx => is_str (fst kx)) l = true ->
  Sorted (key_le Mt) l -> Sorted (key_le Mt) (insert_row Mt x l).
Proof.
  intros Hx. induction l as [|y rest IH]; simpl; intros Hstr Hs.
  - repeat constructor.
  - apply andb_prop in Hstr. destruct Hstr as (Hy & Hrest).
    inversion Hs as [|? ? Hs' Hhd]; subst.
    destruct (key_ltb Mt (fst y) (fst x)) eqn:Hlt.
    + constructor; [now apply IH|].
      destruct rest as [|z rest']; simpl.
      * constructor. unfold key_le. now apply key_ltb_asym.
      * destruct (key_ltb Mt (fst z) (fst x)).
        -- constructor. now inversion Hhd.
        -- constructor. unfold key_le. now apply key_ltb_asym.
    + constructor; [exact Hs|]. constructor. exact Hlt.
Qed.

Lemma sort_rows_sorted (l : list (atom * entry)) :
  forallb (fun kx => is_str (fst kx)) l = true ->
  Sorted (key_le Mt) (sort_rows Mt l).
Proof.
  induction l as [|x rest IH]; simpl; intros Hstr.
  - constructor.
  - apply andb_prop in Hstr. destruct Hstr as (Hx & Hrest).
    apply insert_row_sorted; [exact Hx|now apply sort_rows_str|now apply IH].
Qed.

Lemma key_le_by_quartile (x y : atom * entry) :
  is_str (fst x) = true -> is_str (fst y) = true ->
  py_index (snd x) 2 = Ok (fst x) -> py_index (snd y) 2 = Ok (fst y) ->
  key_le Mt x y -> by_quartile (snd x) (snd y).
Proof.
  destruct x as [[|a|?] rx]; try discriminate.
  destruct y as [[|b|?] ry]; try discriminate. simpl.
  intros _ _ Hx Hy Hle. unfold by_quartile, quartile_of.
  rewrite Hx, Hy. now apply key_ltb_leb.
Qed.

Lemma sorted_rows_by_quartile (d : list (atom * entry)) :
  forallb (fun kx => is_str (fst kx)) d = true ->
  decorated d ->
  Sorted (key_le Mt) d -> Sorted by_quartile (List.map snd d).
Proof.
  induction d as [|x rest IH]; simpl; intros Hstr Hdec Hs.
  - constructor.
  - apply andb_prop in Hstr. destruct Hstr as (Hx & Hrest).
    inversion Hdec as [|? ? Hkx Hdec']; subst.
    inversion Hs as [|? ? Hs' Hhd]; subst.
    constructor; [now apply IH|].
    destruct rest as [|y rest']; simpl; constructor.
    simpl in Hrest. apply andb_prop in Hrest. destruct Hrest as (Hy & _).
    inversion Hdec' as [|? ? Hky _]; subst.
    inversion Hhd; subst. now apply key_le_by_quartile.
Qed.

Lemma short_list_sorted (l : list entry) :
  (length l < 2)%nat -> Sorted by_quartile l.
Proof.
  destruct l as [|a [|b rest]]; simpl; intros H; try lia;
    repeat constructor.
Qed.

(** Rows of one quartile keep their order. *)
Lemma insert_row_filter (q : atom) (x : atom * entry)
    (l : list (atom * entry)) :
  is_str q = true ->
  filter (fun kx => fst kx = q) (insert_row Mt x l)
  = filter (fun kx => fst kx = q) (x :: l).
Proof.
  intros Hq. induction l as [|y rest IH]; simpl.
  - reflexivity.
  - destruct (key_ltb Mt (fst y) (fst x)) eqn:Hlt; [|reflexivity].
    rewrite (filter_cons _ y), IH, !(filter_cons _ x), (filter_cons _ y).
    destruct (decide (fst x = q)) as [Hxq|Hxq]; [|reflexivity].
    destruct (decide (fst y = q)) as [Hyq|Hyq]; [|reflexivity].
    rewrite Hxq, Hyq, (key_ltb_irrefl q Hq) in Hlt. discriminate.
Qed.

Lemma sort_rows_filter (q : atom) (l : list (atom * entry)) :
  is_str q = true ->
  filter (fun kx => fst kx = q) (sort_rows Mt l)
  = filter (fun kx => fst kx = q) l.
Proof.
  intros Hq. induction l as [|x rest IH]; simpl.
  - reflexivity.
  - rewrite (insert_row_filter q x _ Hq), !(filter_cons _ x), IH.
    reflexivity.
Qed.

Lemma decorated_filter (q : string) (d : list (atom * entry)) :
  decorated d ->
  filter (fun r => quartile_of r = Some q) (List.map snd d)
  = List.map snd (filter (fun kx => fst kx = AStr q) d).
Proof.
  induction 1 as [|x rest Hx _ IH]; simpl.
  - reflexivity.
  - destruct x as [k r]. simpl in Hx. rewrite !filter_cons, IH. simpl.
    assert (Hiff : quartile_of r = Some q <-> k = AStr q).
    { unfold quartile_of. rewrite Hx.
      destruct k as [|s|n]; split; congruence. }
    destruct (decide (quartile_of r = Some q)) as [Hr|Hr];
      destruct (decide (k = AStr q)) as [Hk|Hk]; try reflexivity;
      exfalso; tauto.
Qed.

Lemma decorated_perm (d d' : list (atom * entry)) :
  d ≡ₚ d' -> decorated d -> decorated d'.
Proof. intros Hp. unfold decorated. now rewrite Hp. Qed.

End Sorting.

(** X19.  When every row has a string as its third field, [sorted] returns
    the same rows, each as often as before, ordered by that field: of two
    neighbours the first has the smaller quartile or the same. *)
Theorem sorted_by_jcr_orders_quartiles (Mt : meta_env)
    (doi_list : list entry) :
  Forall (fun r => is_Some (quartile_of r)) doi_list ->
  exists s : list entry,
    sorted_by_jcr Mt doi_list = XOk s
    /\ doi_list ≡ₚ s
    /\ Sorted by_quartile s.
Proof.
  intros Hq. unfold sorted_by_jcr.
  destruct (decorate_quartiles doi_list Hq) as (d & Hd & Hstr).
  rewrite Hd. destruct (decorate_ok doi_list d Hd) as (Hmap & Hdec).
  destruct (length d <? 2)%nat eqn:Hlen.
  - exists doi_list. split; [reflexivity|]. split; [reflexivity|].
    apply short_list_sorted. apply Nat.ltb_lt in Hlen.
    now rewrite <- Hmap, length_map.
  - rewrite Hstr. simpl. eexists. split; [reflexivity|]. split.
    + rewrite <- Hmap at 1. apply Permutation_map. symmetry.
      apply sort_rows_perm.
    + apply (sorted_rows_by_quartile Mt).
      * now apply sort_rows_str.
      * apply (decorated_perm d); [symmetry; apply sort_rows_perm|exact Hdec].
      * now apply sort_rows_sorted.
Qed.

(** Three rows, the second of the first quartile. *)
Lemma sorted_by_jcr_orders_quartiles_witness :
  exists s : list entry,
    sorted_by_jcr
      LookupScenario.nothing
      [[AStr "10.1/a"; ANum "2.1"; AStr "Q3"];
       [AStr "10.1/b"; ANum "9.4"; AStr "Q1"];
       [AStr "10.1/c"; ANum "3.0"; AStr "Q3"]] = XOk s
    /\ [[AStr "10.1/a"; ANum "2.1"; AStr "Q3"];
        [AStr "10.1/b"; ANum "9.4"; AStr "Q1"];
        [AStr "10.1/c"; ANum "3.0"; AStr "Q3"]] ≡ₚ s
    /\ Sorted by_quartile s.
Proof.
  apply sorted_by_jcr_orders_quartiles.
  repeat constructor; eexists; reflexivity.
Defined.

(** X20.  [sorted] is stable: the rows of one quartile come out in the order
    in which they went in. *)
Theorem sorted_by_jcr_is_stable (Mt : meta_env) (doi_list : list entry)
    (q : string) :
  Forall (fun r => is_Some (quartile_of r)) doi_list ->
  exists s : list entry,
    sorted_by_jcr Mt doi_list = XOk s
    /\ filter (fun r => quartile_of r = Some q) s
       = filter (fun r => quartile_of r = Some q) doi_list.
Proof.
  intros Hq. unfold sorted_by_jcr.
  destruct (decorate_quartiles doi_list Hq) as (d & Hd & Hstr).
  rewrite Hd. destruct (decorate_ok doi_list d Hd) as (Hmap & Hdec).
  destruct (length d <? 2)%nat.
  - exists doi_list. split; reflexivity.
  - rewrite Hstr. simpl. eexists. split; [reflexivity|].
    rewrite <- Hmap. rewrite !decorated_filter.
    + now rewrite sort_rows_filter.
    + exact Hdec.
    + apply (decorated_perm d); [symmetry; apply sort_rows_perm|exact Hdec].
Qed.

(** The two rows of the third quartile stay in their order. *)
Lemma sorted_by_jcr_is_stable_witness :
  exists s : list entry,
    sorted_by_jcr
      LookupScenario.nothing
      [[AStr "10.1/a"; ANum "2.1"; AStr "Q3"];
       [AStr "10.1/b"; ANum "9.4"; AStr "Q1"];
       [AStr "10.1/c"; ANum "3.0"; AStr "Q3"]] = XOk s
    /\ filter (fun r => quartile_of r = Some "Q3") s
       = filter (fun r => quartile_of r = Some "Q3")
           [[AStr "10.1/a"; ANum "2.1"; AStr "Q3"];
            [AStr "10.1/b"; ANum "9.4"; AStr "Q1"];
            [AStr "10.1/c"; ANum "3.0"; AStr "Q3"]].
Proof.
  apply sorted_by_jcr_is_stable.
  repeat constructor; eexists; reflexivity.
Defined.

(** ** The entry point *)

Section Spider.

Variable E : env.
Variable Mt : meta_env.
Variable depth : nat.
Variable keyword : string.
Variable cfg : config.
Variable cache : option Cache.t.

(** The run from the result of the lookup on. *)
Lemma sci_spider_unfold (v : xworld) :
  sci_spider E Mt depth keyword cfg cache v
  = match get_dois_and_impact_factors E Mt keyword spider_rows
            (collecting v) with
    | (XRaise e, v1) => (XRaise e, v1)
    | (XOk doi_list, v1) =>
        match sorted_by_jcr Mt doi_list with
        | XRaise e => (XRaise e, v1)
        | XOk s =>
            match doi_list with
            | [] => (xprint NoteEmptyList ;;;; xret tt) v1
            | _ =>
                (xprint (NoteFound (Z.of_nat (length doi_list))) ;;;;
                 xprint NoteDownloading ;;;;
                 from_core (os_makedirs E (dir cfg)) ;;;;
                 xtry
                   (from_core (sci_hub_crawler E depth s cfg cache) ;;;;
                    xprint NoteFinished)
                   (fun e => xprint (NoteRunError e))) v1
            end
        end
    end.
Proof.
  unfold sci_spider. unfold xbind at 1.
  change (xprint NoteCollecting v) with (XOk tt, collecting v).
  cbv beta iota. unfold xbind at 1.
  destruct (get_dois_and_impact_factors E Mt keyword spider_rows
              (collecting v)) as [[doi_list|e] v1]; [|reflexivity].
  unfold xbind at 1. unfold xlift.
  destruct (sorted_by_jcr Mt doi_list); [|reflexivity].
  destruct doi_list; reflexivity.
Qed.

(** The lookup in the world of [sci_spider]. *)
Lemma lookup_runs (v : xworld) :
  exists (o : xoutcome (list entry)) (v1 : xworld),
    get_dois_and_impact_factors E Mt keyword spider_rows (collecting v)
    = (o, v1)
    /\ core v1 = add_sent (lookup_request keyword spider_rows) (core v)
    /\ match o with
       | XOk l => Forall (fun r : entry => length r = 3%nat) l
       | XRaise e => exists issn : json, factor_new Mt issn = Some e
       end.
Proof.
  destruct (get_dois_and_impact_factors_runs E Mt keyword spider_rows
              (collecting v))
    as (doi_info & v0 & o & v1 & _ & Hrun & Hcore & Ho).
  exists o, v1. split; [exact Hrun|]. split; [exact Hcore|].
  destruct o as [l|e].
  - rewrite Ho. apply rows_three_fields.
  - destruct Ho as (item & _ & Hitem). now exists (info_issn item).
Qed.

Lemma sorted_three_fields_raises (doi_list : list entry) (e : xexn) :
  Forall (fun r : entry => length r = 3%nat) doi_list ->
  sorted_by_jcr Mt doi_list = XRaise e ->
  e = Inner TypeError.
Proof.
  intros Hthree. unfold sorted_by_jcr.
  destruct (decorate_three_fields _ Hthree) as (d & ->).
  destruct (length d <? 2)%nat; [discriminate|].
  destruct (_ || _); [discriminate|]. congruence.
Qed.

End Spider.

(** X21.  When the lookup returns the empty list, [sci_spider] says so and
    returns.  The query of the lookup is the one request of the run; no
    directory is made and nothing is written. *)
Theorem sci_spider_nothing_found (E : env) (Mt : meta_env) (depth : nat)
    (keyword : string) (cfg : config) (cache : option Cache.t)
    (v : xworld) :
  fst (get_dois_and_impact_factors E Mt keyword spider_rows (collecting v))
  = XOk [] ->
  exists (v' : xworld) (n : nat),
    sci_spider E Mt depth keyword cfg cache v = (XOk tt, v')
    /\ core v' = add_sent (lookup_request keyword spider_rows) (core v)
    /\ last (notes v') = Some (n, NoteEmptyList).
Proof.
  intros Hnone. rewrite sci_spider_unfold.
  destruct (lookup_runs E Mt keyword v) as (o & v1 & Hrun & Hcore & _).
  rewrite Hrun in Hnone |- *. simpl in Hnone. subst o.
  change (sorted_by_jcr Mt []) with (@XOk (list entry) []). cbv beta iota.
  unfold xbind, xprint, xret. eexists. eexists.
  split; [reflexivity|]. simpl. split; [exact Hcore|].
  apply last_snoc.
Qed.

(** An index that cannot be reached. *)
Lemma sci_spider_nothing_found_witness :
  exists (v' : xworld) (n : nat),
    sci_spider Scenario.offline LookupScenario.nothing 3 "trout"
      (default_config "papers") None
      {| core := Scenario.world0; notes := [] |} = (XOk tt, v')
    /\ core v'
       = add_sent (lookup_request "trout" spider_rows) Scenario.world0
    /\ last (notes v') = Some (n, NoteEmptyList).
Proof.
  apply (sci_spider_nothing_found Scenario.offline LookupScenario.nothing 3
           "trout" (default_config "papers") None
           {| core := Scenario.world0; notes := [] |}).
  reflexivity.
Defined.

(** X22.  No exception of the crawler leaves [sci_spider].  Once the rows are
    sorted and the target directory is made, the call returns normally
    whatever the crawler does; the world is the one the crawler leaves, and
    the last message is the completion message when the crawler returned and
    the error message, with the exception, when it raised. *)
Theorem sci_spider_catches_crawler_errors (E : env) (Mt : meta_env)
    (depth : nat) (keyword : string) (cfg : config)
    (cache : option Cache.t) (rows s : list entry) (v : xworld) :
  fst (get_dois_and_impact_factors E Mt keyword spider_rows (collecting v))
  = XOk rows ->
  rows <> [] ->
  sorted_by_jcr Mt rows = XOk s ->
  mkdir_ok E (dir cfg) = true ->
  let w := add_dir (dir cfg)
             (add_sent (lookup_request keyword spider_rows) (core v)) in
  exists (v' : xworld) (n : nat),
    sci_spider E Mt depth keyword cfg cache v = (XOk tt, v')
    /\ core v' = snd (sci_hub_crawler E depth s cfg cache w)
    /\ last (notes v')
       = Some (n, match fst (sci_hub_crawler E depth s cfg cache w) with
                  | Ok _ => NoteFinished
                  | Raise e => NoteRunError (Inner e)
                  end).
Proof.
  intros Hfound Hrows Hsorted Hmk w. rewrite sci_spider_unfold.
  destruct (lookup_runs E Mt keyword v) as (o & v1 & Hrun & Hcore & _).
  rewrite Hrun in Hfound |- *. simpl in Hfound. subst o.
  rewrite Hsorted.
  destruct rows as [|r rest]; [congruence|].
  unfold xbind at 1. unfold xprint at 1.
  unfold xbind at 1. unfold xprint at 1.
  unfold xbind at 1. unfold from_core at 1, os_makedirs. rewrite Hmk.
  cbv beta iota. unfold xtry, xbind, from_core. cbn [core notes].
  rewrite Hcore. fold w.
  destruct (sci_hub_crawler E depth s cfg cache w)
    as [[st|e] w']; unfold xprint; cbn [core notes fst snd];
    eexists; eexists; (split; [reflexivity|]); cbn [core notes];
    (split; [reflexivity|apply last_snoc]).
Qed.

(** The run on the article with the short title: the [TypeError] of the
    crawler ends as a printed message. *)
Lemma sci_spider_catches_crawler_errors_witness :
  exists (v' : xworld) (n : nat),
    sci_spider (LookupScenario.served "Abc")
      (LookupScenario.index [LookupScenario.work "10.1/abc"] (ANum "1.5")
         (AStr "Q2"))
      3 "trout" (default_config "papers") (Some Scenario.empty_cache)
      {| core := Scenario.world0; notes := [] |} = (XOk tt, v')
    /\ last (notes v') = Some (n, NoteRunError (Inner TypeError)).
Proof.
  destruct (sci_spider_catches_crawler_errors (LookupScenario.served "Abc")
              (LookupScenario.index [LookupScenario.work "10.1/abc"]
                 (ANum "1.5") (AStr "Q2"))
              3 "trout" (default_config "papers") (Some Scenario.empty_cache)
              [Scenario.row] [Scenario.row]
              {| core := Scenario.world0; notes := [] |})
    as (v' & n & Hrun & _ & Hlast).
  - reflexivity.
  - discriminate.
  - reflexivity.
  - reflexivity.
  - exists v', n. split; [exact Hrun|].
    rewrite Hlast. vm_compute. reflexivity.
Defined.

(** X23.  [sci_spider] raises in three cases only: an exception of [Factor()]
    in the lookup, a [TypeError] of [sorted], when the third fields of the
    rows cannot be compared, and an [OSError] of [os.makedirs].  In all three
    the query of the lookup is the one request that has been sent, and
    nothing has been written; the third field of a row is never missing. *)
Theorem sci_spider_raises_only (E : env) (Mt : meta_env) (depth : nat)
    (keyword : string) (cfg : config) (cache : option Cache.t)
    (v v' : xworld) (e : xexn) :
  sci_spider E Mt depth keyword cfg cache v = (XRaise e, v') ->
  ((exists issn : json, factor_new Mt issn = Some e)
   \/ e = Inner TypeError \/ e = Inner OSError)
  /\ core v' = add_sent (lookup_request keyword spider_rows) (core v).
Proof.
  rewrite sci_spider_unfold.
  destruct (lookup_runs E Mt keyword v) as (o & v1 & Hrun & Hcore & Ho).
  rewrite Hrun. destruct o as [doi_list|e0].
  2: { intros H. inversion H; subst e0 v1. clear H.
       split; [now left|exact Hcore]. }
  destruct (sorted_by_jcr Mt doi_list) as [s|e0] eqn:Hsorted.
  - destruct doi_list as [|r rest].
    + discriminate.
    + unfold xbind at 1. unfold xprint at 1.
      unfold xbind at 1. unfold xprint at 1.
      unfold xbind at 1. unfold from_core at 1, os_makedirs.
      destruct (mkdir_ok E (dir cfg)).
      * cbv beta iota. unfold xtry, xbind, from_core. cbn [core notes].
        destruct (sci_hub_crawler E depth s cfg cache _) as [[st|e1] w'];
          unfold xprint; discriminate.
      * cbv beta iota. cbn [core notes]. intros H. inversion H.
        split; [now right; right|exact Hcore].
  - intros H. inversion H; subst e0 v1. clear H.
    split; [right; left;
            now apply (sorted_three_fields_raises Mt doi_list)
           |exact Hcore].
Qed.

(** Two rows whose journals have no quartile: the run ends in a
    [TypeError]. *)
Lemma sci_spider_raises_only_witness :
  exists v' : xworld,
    sci_spider (LookupScenario.served "Abc")
      (LookupScenario.index
         [LookupScenario.work "10.1/abc"; LookupScenario.work "10.1/def"]
         (ANum "1.5") ANone)
      3 "trout" (default_config "papers") None
      {| core := Scenario.world0; notes := [] |}
    = (XRaise (Inner TypeError), v')
    /\ core v'
       = add_sent (lookup_request "trout" spider_rows) Scenario.world0.
Proof.
  eexists. split; [vm_compute; reflexivity|].
  apply (sci_spider_raises_only (LookupScenario.served "Abc")
           (LookupScenario.index
              [LookupScenario.work "10.1/abc"; LookupScenario.work "10.1/def"]
              (ANum "1.5") ANone)
           3 "trout" (default_config "papers") None
           {| core := Scenario.world0; notes := [] |} _
           (Inner TypeError)).
  vm_compute. reflexivity.
Defined.
(** ** The script *)

Section Script.

Variable E : env.
Variable F : fs_env.
Variable Mt : meta_env.
Variable depth : nat.

Lemma read_cache_follows (cache_dir : string) (v : xworld) :
  follows (core v) (core (snd (CacheFile.read_cache E F cache_dir v))).
Proof.
  rewrite read_cache_unfold. cbv zeta.
  assert (Hcreate :
    follows (core v)
      (core (snd (if writable E cache_dir
                  then (XOk (∅ : gmap string string),
                        {| core := set_disk
                                     (<[cache_dir := BinFile ""]>
                                        (disk (core v))) (core v);
                           notes := notes v |})
                  else (XOk ∅,
                        {| core := core v;
                           notes := (notes v
                                     ++ [(length (out (core v)),
                                          NoteCacheReadError (Inner OSError))])%list
                        |})))))
    by (destruct (writable E cache_dir); simpl;
        [apply in_loop_write|apply follows_refl]).
  destruct (disk (core v) !! cache_dir) as [f|]; [|exact Hcreate].
  destruct (file_size_nonzero f); [|exact Hcreate].
  destruct (readable F cache_dir); [|apply follows_refl].
  destruct (json_load F f); apply follows_refl.
Qed.

Lemma crawler_setup_follows (cfg : config) (w : world) :
  follows w (snd (crawler_setup E cfg w)).
Proof.
  unfold crawler_setup. unfold bind at 1.
  assert (Hrobots : exists (rp : option policy) (w0 : world),
            get_robot_parser E (effective_robot_url cfg) w = (Ok rp, w0)
            /\ follows w w0).
  { destruct (robots E (effective_robot_url cfg)) as [rp|] eqn:Hr.
    - rewrite (get_robot_parser_some E _ rp w Hr). eexists _, _.
      split; [reflexivity|]. now apply follows_same.
    - rewrite (get_robot_parser_none E _ w Hr). eexists _, _.
      split; [reflexivity|].
      apply (follows_trans _ (add_robots_read (effective_robot_url cfg) w));
        [now apply follows_same|].
      apply in_loop_out. }
  destruct Hrobots as (rp & w0 & -> & Hf0).
  unfold bind at 1, os_makedirs.
  destruct (mkdir_ok E (dir cfg)); [|exact Hf0].
  unfold bind at 1.
  destruct (makedirs_all_made E (quartile_dirs cfg) (add_dir (dir cfg) w0))
    as (made & _ & Hw1 & _).
  destruct (add_dirs_fields made (add_dir (dir cfg) w0))
    as (Hn & Hdk & Hs & Hz & Ho & _).
  assert (Hf1 : follows w (add_dirs made (add_dir (dir cfg) w0)))
    by (apply (follows_trans _ w0); [exact Hf0|now apply follows_same]).
  destruct (makedirs_all E (quartile_dirs cfg) (add_dir (dir cfg) w0))
    as [[u|e] w1]; simpl in Hw1; subst w1; exact Hf1.
Qed.

Lemma sci_hub_crawler_follows (doi_list : list entry) (cfg : config)
    (cache : option Cache.t) (w : world) :
  follows w (snd (sci_hub_crawler E depth doi_list cfg cache w)).
Proof.
  rewrite sci_hub_crawler_unfold.
  pose proof (crawler_setup_follows cfg w) as Hsetup.
  destruct (crawler_setup E cfg w) as [[rp|e] w0]; simpl in Hsetup;
    [|exact Hsetup].
  destruct (keeps_crawl_loop E depth cfg (crawler_headers cfg) rp doi_list
              (initial_state cache) (add_out MsgStart w0)) as (Hloop & _).
  assert (Hstart : follows w (add_out MsgStart w0))
    by (apply (follows_trans _ w0); [exact Hsetup|apply in_loop_out]).
  destruct (crawl_loop E depth cfg (crawler_headers cfg) rp doi_list
              (initial_state cache) (add_out MsgStart w0)) as [[st|e] w1];
    simpl in Hloop.
  - cbv zeta. simpl.
    apply (follows_trans _ w1);
      [now apply (follows_trans _ (add_out MsgStart w0))|].
    apply (follows_trans _ (add_out (MsgDone (Z.of_nat (length doi_list))
                                       (download_succ_cnt st)) w1));
      apply in_loop_out.
  - simpl. now apply (follows_trans _ (add_out MsgStart w0)).
Qed.

Lemma sci_spider_follows (keyword : string) (cfg : config)
    (cache : option Cache.t) (v : xworld) :
  follows (core v)
    (core (snd (sci_spider E Mt depth keyword cfg cache v))).
Proof.
  rewrite sci_spider_unfold.
  destruct (lookup_runs E Mt keyword v) as (o & v1 & Hrun & Hcore & _).
  rewrite Hrun.
  assert (Hlook : follows (core v) (core v1))
    by (rewrite Hcore; apply in_loop_sent).
  destruct o as [doi_list|e0]; [|exact Hlook].
  destruct (sorted_by_jcr Mt doi_list) as [s|e0]; [|exact Hlook].
  destruct doi_list as [|r rest]; [exact Hlook|].
  unfold xbind at 1. unfold xprint at 1.
  unfold xbind at 1. unfold xprint at 1.
  unfold xbind at 1. unfold from_core at 1, os_makedirs.
  destruct (mkdir_ok E (dir cfg)).
  - cbv beta iota. unfold xtry, xbind, from_core. cbn [core notes].
    pose proof (sci_hub_crawler_follows s cfg cache
                  (add_dir (dir cfg) (core v1))) as Hf.
    destruct (sci_hub_crawler E depth s cfg cache
                (add_dir (dir cfg) (core v1))) as [[st|e] w'];
      unfold xprint; cbn [core notes fst snd] in *;
      (apply (follows_trans _ (core v1)); [exact Hlook|];
       apply (follows_trans _ (add_dir (dir cfg) (core v1)));
       [now apply follows_same|exact Hf]).
  - cbv beta iota. cbn [core notes snd]. exact Hlook.
Qed.

End Script.

(** X24.  The script always runs to its end.  Whatever the surroundings do,
    no exception leaves it, and its last message is the time that has
    passed, which is not negative.  Over the whole run the clock has not gone
    back, no file that was on the disk has left it, and the requests, the
    sleeps and the output of the pipeline have only been added to. *)
Theorem script_runs_to_its_end (E : env) (F : fs_env) (Mt : meta_env)
    (depth : nat) (v : xworld) :
  exists (v' : xworld) (n : nat),
    Main.run E F Mt depth v = (XOk tt, v')
    /\ last (notes v') = Some (n, NoteElapsed (now (core v') - now (core v)))
    /\ 0 <= now (core v') - now (core v)
    /\ follows (core v) (core v').
Proof.
  unfold Main.run. unfold xbind at 1. unfold from_core at 1, time_time.
  cbv beta iota.
  unfold xbind at 1. unfold CacheFile.__init__. unfold xbind at 1.
  pose proof (read_cache_follows E F Main.cache_dir
                {| core := core v; notes := notes v |}) as Hread.
  cbn [core] in Hread.
  destruct (CacheFile.read_cache E F Main.cache_dir
              {| core := core v; notes := notes v |}) as [[m|e] v1] eqn:Hrc.
  2: { exfalso. revert Hrc. rewrite read_cache_unfold. cbv zeta.
       destruct (disk _ !! _) as [f|];
         [destruct (file_size_nonzero f);
          [destruct (readable F _); [destruct (json_load F f)|]|]|];
         try destruct (writable E _); discriminate. }
  cbn [snd] in Hread. unfold xret at 1. cbv beta iota.
  unfold xbind at 1.
  pose proof (sci_spider_follows E Mt depth Main.keyword Main.arguments
                (Some {| Cache.cache_dir := Main.cache_dir;
                         Cache.cache := m |}) v1) as Hspider.
  unfold xtry at 1.
  destruct (sci_spider E Mt depth Main.keyword Main.arguments _ v1)
    as [[u|e] v2]; cbn [snd] in Hspider.
  - unfold xbind, from_core, time_time, xprint. cbn [core notes].
    eexists. eexists. split; [destruct u; reflexivity|]. cbn [core notes].
    assert (Hf : follows (core v) (core v2))
      by (apply (follows_trans _ (core v1)); assumption).
    split; [apply last_snoc|]. split; [|exact Hf].
    destruct Hf as (Hn & _). lia.
  - unfold xbind, from_core, time_time, xprint. cbn [core notes].
    eexists. eexists. split; [reflexivity|]. cbn [core notes].
    assert (Hf : follows (core v) (core v2))
      by (apply (follows_trans _ (core v1)); assumption).
    split; [apply last_snoc|]. split; [|exact Hf].
    destruct Hf as (Hn & _). lia.
Qed.

(** ** The list of identifiers from the index *)

Section Crossref.



Lemma dois_of_objects (works : list json) :
  forallb is_object works = true ->
  dois_of works = XOk (omap doi_of works).
Proof.
  induction works as [|work rest IH]; simpl; [reflexivity|].
  intros H. apply andb_prop in H. destruct H as (Hw & Hrest).
  rewrite (IH Hrest). destruct work as [| |n|s|items|members];
    try discriminate.
  simpl. destruct (member "DOI" members) as [doi|]; simpl.
  - destruct (json_truthy doi); reflexivity.
  - reflexivity.
Qed.

End Crossref.

(** [quote] on a space, on a slash and on the character 233, whose UTF-8
    form is the two bytes C3 and A9. *)
Example quote_encodes_utf8 :
  quote ("a b/c" ++ String (ascii_of_nat 233) "t") = "a%20b/c%C3%A9t".
Proof. reflexivity. Qed.


(** X26.  On an answer of the expected shape, a status that is no error and
    a body that holds an object with a [message] object whose [items] is a
    list of objects, [get_dois_from_crossref] returns the [DOI] members of
    the works, in their order, leaving out the works that have none or an
    empty one, and prints nothing. *)
Theorem get_dois_from_crossref_on_answer (E : env)
    (response_json : string -> option json) (keyword : string) (rows : Z)
    (v : xworld) (status : Z) (body : string)
    (data message : list (string * json)) (works : list json) :
  net E (length (sent (core v))) (crossref_request keyword rows)
  = Response status body ->
  (400 <=? status) && (status <? 600) = false ->
  response_json body = Some (JObj data) ->
  member "message" data = Some (JObj message) ->
  member "items" message = Some (JArr works) ->
  forallb is_object works = true ->
  get_dois_from_crossref E response_json keyword rows v
  = (XOk (omap doi_of works),
     {| core := add_sent (crossref_request keyword rows) (core v);
        notes := notes v |}).
Proof.
  intros Hnet Hstatus Hjson Hmessage Hitems Hworks.
  unfold get_dois_from_crossref, xtry. unfold xbind at 1.
  unfold from_core, requests_get. cbv zeta.
  fold (crossref_request keyword rows). rewrite Hnet.
  unfold xbind at 1. unfold raise_for_status. cbn [fst snd].
  rewrite Hstatus. unfold xret at 1. cbv beta iota.
  unfold xbind at 1. unfold xlift at 1. rewrite Hjson.
  unfold xbind at 1. unfold xlift at 1. unfold subscript. rewrite Hmessage.
  unfold xbind at 1. unfold xlift at 1. unfold json_get at 1.
  rewrite Hitems.
  unfold xbind at 1. unfold xlift at 1. unfold comprehension, iterate.
  rewrite (dois_of_objects works Hworks). reflexivity.
Qed.

(** Three works, of which the second has no identifier. *)
Lemma get_dois_from_crossref_on_answer_witness :
  exists v' : xworld,
    get_dois_from_crossref
      (Scenario.make_env (Scenario.always 200 "{...}") Scenario.no_parse None)
      (fun _ =>
         Some (JObj [("status", JStr "ok");
                     ("message",
                      JObj [("items",
                             JArr [JObj [("DOI", JStr "10.1/abc")];
                                   JObj [("title", JStr "Untitled")];
                                   JObj [("DOI", JStr "10.1/def")]])])]))
      "trout" 100 {| core := Scenario.world0; notes := [] |}
    = (XOk [JStr "10.1/abc"; JStr "10.1/def"], v').
Proof.
  eexists.
  apply (get_dois_from_crossref_on_answer
           (Scenario.make_env (Scenario.always 200 "{...}")
              Scenario.no_parse None)
           (fun _ =>
              Some (JObj [("status", JStr "ok");
                          ("message",
                           JObj [("items",
                                  JArr [JObj [("DOI", JStr "10.1/abc")];
                                        JObj [("title", JStr "Untitled")];
                                        JObj [("DOI", JStr "10.1/def")]])])]))
           "trout" 100 {| core := Scenario.world0; notes := [] |}
           200 "{...}"
           [("status", JStr "ok");
            ("message",
             JObj [("items",
                    JArr [JObj [("DOI", JStr "10.1/abc")];
                          JObj [("title", JStr "Untitled")];
                          JObj [("DOI", JStr "10.1/def")]])])]
           [("items",
             JArr [JObj [("DOI", JStr "10.1/abc")];
                   JObj [("title", JStr "Untitled")];
                   JObj [("DOI", JStr "10.1/def")]])]
           [JObj [("DOI", JStr "10.1/abc")];
            JObj [("title", JStr "Untitled")];
            JObj [("DOI", JStr "10.1/def")]]);
    reflexivity.
Defined.

(** ** Counting the saved files *)

Section Counting.

Lemma lower_app (a b : string) : lower (a ++ b) = lower a ++ lower b.
Proof.
  unfold lower. induction a as [|c a IH].
  - reflexivity.
  - change (String c a ++ b) with (String c (a ++ b)). simpl.
    rewrite IH. reflexivity.
Qed.

Lemma endswith_app (suffix s : string) : endswith suffix (s ++ suffix) = true.
Proof.
  induction s as [|c s IH].
  - change (EmptyString ++ suffix) with suffix.
    destruct suffix; cbn [endswith]; rewrite String.eqb_refl; reflexivity.
  - change (String c s ++ suffix) with (String c (s ++ suffix)).
    cbn [endswith]. rewrite IH. apply orb_true_r.
Qed.

Lemma saved_name_is_pdf (name : string) : is_pdf (saved_name name) = true.
Proof.
  unfold is_pdf, saved_name. rewrite lower_app.
  change (lower ".pdf") with ".pdf". apply endswith_app.
Qed.

Lemma count_files_from (files : list string) (n : Z) :
  fold_left (fun pdf_count file =>
               if is_pdf file then pdf_count + 1 else pdf_count) files n
  = n + Z.of_nat (length (List.filter is_pdf files)).
Proof.
  revert n. induction files as [|f files IH]; intros n; simpl.
  - lia.
  - rewrite IH. destruct (is_pdf f); simpl; lia.
Qed.

Lemma count_walk_from
    (triples : list (string * list string * list string)) (n : Z) :
  fold_left
    (fun pdf_count '(root, dirs, files) =>
       fold_left
         (fun pdf_count file =>
            if is_pdf file then pdf_count + 1 else pdf_count)
         files pdf_count) triples n
  = n + Z.of_nat (length (List.filter is_pdf (walked_files triples))).
Proof.
  revert n. induction triples as [|[[root dirs] files] triples IH];
    intros n; simpl.
  - lia.
  - rewrite IH, count_files_from. unfold walked_files. simpl.
    rewrite List.filter_app, length_app. lia.
Qed.

Lemma saved_files_are_the_pdfs (files : list string) :
  Forall (fun file => file = "cache.txt"
                      \/ exists name, file = saved_name name) files ->
  List.filter is_pdf files
  = List.filter (fun file => negb (file =? "cache.txt")%string) files.
Proof.
  induction 1 as [|f files Hf _ IH]; simpl.
  - reflexivity.
  - destruct Hf as [->|(name & ->)].
    + simpl. exact IH.
    + rewrite saved_name_is_pdf.
      destruct (saved_name name =? "cache.txt")%string eqn:Heq.
      * apply String.eqb_eq in Heq.
        pose proof (saved_name_is_pdf name) as Hpdf. rewrite Heq in Hpdf.
        discriminate.
      * simpl. now rewrite IH.
Qed.

End Counting.

(** X27.  In a tree that holds nothing but what the crawler writes, files
    under the names [download_pdf] gives them and cache files named
    [cache.txt], [count_pdfs] returns the number of saved files: every
    saved file is counted, whatever its title, and no cache file is. *)
Theorem count_pdfs_counts_saved_files
    (walk : string -> list (string * list string * list string))
    (directory : string) :
  Forall (fun file => file = "cache.txt"
                      \/ exists name, file = saved_name name)
    (walked_files (walk directory)) ->
  count_pdfs walk directory
  = Z.of_nat (length (List.filter (fun file => negb (file =? "cache.txt")%string)
                        (walked_files (walk directory)))).
Proof.
  intros Hall. unfold count_pdfs.
  rewrite count_walk_from, (saved_files_are_the_pdfs _ Hall). lia.
Qed.

(** A target directory with the cache file and one quartile directory with
    two saved files. *)
Lemma count_pdfs_counts_saved_files_witness :
  count_pdfs
    (fun _ => [("papers", ["Q1"], ["cache.txt"]);
               ("papers/Q1", [],
                [saved_name "Example Title"; saved_name "10.1/abc"])])
    "papers" = 2.
Proof.
  rewrite (count_pdfs_counts_saved_files
             (fun _ => [("papers", ["Q1"], ["cache.txt"]);
                        ("papers/Q1", [],
                         [saved_name "Example Title";
                          saved_name "10.1/abc"])]) "papers").
  - reflexivity.
  - unfold walked_files. simpl.
    constructor; [now left|].
    constructor; [right; eexists; reflexivity|].
    constructor; [right; eexists; reflexivity|].
    constructor.
Defined.
